(** * sqliteview: the database helper layer (src/db.c) and its callers

    A shallow embedding of [db.c], of the part of [context.h] it uses,
    and of the handlers of [ui.c] that call it.  The SQLite engine, the
    C allocator and GTK are not part of the repository: the engine is
    an interface ([External]) that every function of [db.c] is written
    against, the answers of the allocator are an input of a run, and the
    two GTK containers the code fills are plain lists.

    Every call that reaches the engine is recorded in a log, so that the
    text of a prepared statement and the values bound to it can be
    talked about.

    The development has five parts: the code ([DbC]); a reference model
    of the engine ([Sqlite3Model]) on which the code can be run; the
    handlers ([UiC]); the properties of the code, for every engine where
    the code alone decides and on the reference engine where the engine
    does; and the properties at work on a small database ([Demo]). *)

From Stdlib Require Import ZArith List String Ascii Bool Lia.
From Stdlib Require Import DecimalString Sorted.
Import ListNotations.

Local Open Scope string_scope.
Local Open Scope list_scope.
Local Open Scope Z_scope.

(** ** Result codes and flags of [sqlite3.h] *)

Definition SQLITE_OK : Z := 0.
Definition SQLITE_ERROR : Z := 1.
Definition SQLITE_BUSY : Z := 5.
Definition SQLITE_NOMEM : Z := 7.
Definition SQLITE_CANTOPEN : Z := 14.
Definition SQLITE_CONSTRAINT : Z := 19.
Definition SQLITE_MISMATCH : Z := 20.
Definition SQLITE_MISUSE : Z := 21.
Definition SQLITE_RANGE : Z := 25.
Definition SQLITE_NOTADB : Z := 26.
Definition SQLITE_ROW : Z := 100.
Definition SQLITE_DONE : Z := 101.

Definition SQLITE_OPEN_READONLY : Z := 1.
Definition SQLITE_OPEN_READWRITE : Z := 2.
Definition SQLITE_OPEN_CREATE : Z := 4.
Definition SQLITE_OPEN_URI : Z := 64.

(** [db.h], line 19. *)
Definition SQL_QUERY_MAX_LIMIT : Z := 100.

Definition INT_MAX : Z := 2147483647.
Definition INT_MIN : Z := -2147483648.

(** A result of type [int]. *)
Definition int_of (z : Z) : Z := (z - INT_MIN) mod 2 ^ 32 + INT_MIN.
Definition SIZE_MAX : Z := 2 ^ 64 - 1.

(** The size of a [char] pointer, on the 64-bit targets the program is
    built for. *)
Definition sizeof_ptr : Z := 8.

(** ** Handles *)

Definition sqlite3 := nat.       (* a connection, [sqlite3 *] when not NULL *)
Definition sqlite3_stmt := nat.  (* a statement, [sqlite3_stmt *] when not NULL *)

(** ** The calls that leave [db.c] *)

Inductive call : Type :=
| CallOpen (filename : string)
| CallOpenV2 (filename : string) (flags : Z)
| CallClose (h : sqlite3)
| CallPrepare (h : sqlite3) (sql : string)
| CallBindText (st : sqlite3_stmt) (idx : Z) (text : string)
| CallStep (st : sqlite3_stmt)
| CallFinalize (st : sqlite3_stmt).

(** The engine, over a state [W] of its own.  A pointer result is an
    [option]: [None] is NULL. *)
Class External (W : Type) : Type := {
  ext_open : string -> W -> (Z * option sqlite3) * W;
  ext_open_v2 : string -> Z -> W -> (Z * option sqlite3) * W;
  ext_close : sqlite3 -> W -> Z * W;
  ext_prepare_v2 : sqlite3 -> string -> W -> (Z * option sqlite3_stmt) * W;
  ext_column_count : sqlite3_stmt -> W -> Z;
  ext_column_name : sqlite3_stmt -> Z -> W -> option string;
  ext_column_text : sqlite3_stmt -> Z -> W -> option string;
  ext_bind_text : sqlite3_stmt -> Z -> string -> W -> Z * W;
  ext_step : sqlite3_stmt -> W -> Z * W;
  ext_finalize : sqlite3_stmt -> W -> Z * W
}.

(** ** [context_td] ([context.h]) *)

(** What [db.c] sees of the rows view: its columns and its model. *)
Record tree_view : Type := {
  tv_columns : list string;
  tv_model : option (list (list string))
}.

Record context_td : Type := {
  db : option sqlite3;
  rows_view : option tree_view;
  tables_store : option (list (option string));
  current_ncols : Z;
  current_colnames : option (list (option string));
  current_tablename : option string
}.

Definition set_db (c : context_td) (h : option sqlite3) : context_td :=
  {| db := h; rows_view := rows_view c; tables_store := tables_store c;
     current_ncols := current_ncols c;
     current_colnames := current_colnames c;
     current_tablename := current_tablename c |}.

Definition set_rows_view (c : context_td) (v : option tree_view) : context_td :=
  {| db := db c; rows_view := v; tables_store := tables_store c;
     current_ncols := current_ncols c;
     current_colnames := current_colnames c;
     current_tablename := current_tablename c |}.

Definition set_tables_store (c : context_td) (l : option (list (option string)))
  : context_td :=
  {| db := db c; rows_view := rows_view c; tables_store := l;
     current_ncols := current_ncols c;
     current_colnames := current_colnames c;
     current_tablename := current_tablename c |}.

Definition set_current_ncols (c : context_td) (n : Z) : context_td :=
  {| db := db c; rows_view := rows_view c; tables_store := tables_store c;
     current_ncols := n;
     current_colnames := current_colnames c;
     current_tablename := current_tablename c |}.

Definition set_current_colnames (c : context_td)
  (a : option (list (option string))) : context_td :=
  {| db := db c; rows_view := rows_view c; tables_store := tables_store c;
     current_ncols := current_ncols c;
     current_colnames := a;
     current_tablename := current_tablename c |}.

Definition set_current_tablename (c : context_td) (t : option string)
  : context_td :=
  {| db := db c; rows_view := rows_view c; tables_store := tables_store c;
     current_ncols := current_ncols c;
     current_colnames := current_colnames c;
     current_tablename := t |}.

(** ** Arrays of [char *] *)

(** [a[i]] for an [int] index: defined inside the allocated block only. *)
Definition array_load {A : Type} (a : list A) (i : Z) : option A :=
  if (0 <=? i) && (i <? Z.of_nat (List.length a))
  then nth_error a (Z.to_nat i) else None.

Fixpoint list_set {A : Type} (a : list A) (n : nat) (v : A) : list A :=
  match a, n with
  | [], _ => []
  | _ :: r, O => v :: r
  | x :: r, S m => x :: list_set r m v
  end.

(** [a[i] = v]. *)
Definition array_store {A : Type} (a : list A) (i : Z) (v : A)
  : option (list A) :=
  if (0 <=? i) && (i <? Z.of_nat (List.length a))
  then Some (list_set a (Z.to_nat i) v) else None.

(** ** Formatting *)

(** The double quote character, and a one-character string of it. *)
Definition dquote_char : ascii := "034"%char.
Definition dq : string := String dquote_char EmptyString.

(** [%d]. *)
Definition fmt_d (z : Z) : string := NilZero.string_of_int (Z.to_int z).

(** ["SELECT rowid, * FROM \"%s\" LIMIT %d;"] *)
Definition fmt_select (table : string) (limit : Z) : string :=
  ("SELECT rowid, * FROM " ++ dq ++ table ++ dq
   ++ " LIMIT " ++ fmt_d limit ++ ";")%string.

(** ["UPDATE \"%s\" SET \"%s\" = ? WHERE rowid = ?;"] *)
Definition fmt_update (table colname : string) : string :=
  ("UPDATE " ++ dq ++ table ++ dq ++ " SET " ++ dq ++ colname ++ dq
   ++ " = ? WHERE rowid = ?;")%string.

(** [snprintf(buf, size, ...)] where the whole formatted text is [full]:
    the length of [full] is returned (a negative value when it does not
    fit an [int]) and [buf] receives at most [size - 1] characters. *)
Definition snprintf (size : Z) (full : string) : Z * string :=
  let n := Z.of_nat (String.length full) in
  (if n <=? INT_MAX then n else -1,
   substring 0 (Z.to_nat (size - 1)) full).

(** The catalog query of [db_fill_table_list]. *)
Definition sql_list_tables : string :=
  ("SELECT name FROM sqlite_master WHERE type='table' AND "
   ++ "name NOT LIKE 'sqlite_%' ORDER BY name;")%string.

Definition sql_schema_version : string := "PRAGMA schema_version;".

(** ** The monad: state, log, undefined behaviour, fuel *)

Section Model.

Context {W : Type} {E : External W}.

(** [alloc_ok n size]: whether the [n]-th allocation of a run, of [size]
    bytes, succeeds. *)
Record env : Type := {
  world : W;
  alloc_ok : nat -> Z -> bool;
  alloc_count : nat;
  calls : list call
}.

Inductive outcome (A : Type) : Type :=
| Done (a : A) (e : env)
| Undefined      (* the C program reads outside an allocated block *)
| OutOfFuel.     (* the loop budget of the model ran out *)

Arguments Done {A} a e.
Arguments Undefined {A}.
Arguments OutOfFuel {A}.

Definition M (A : Type) : Type := env -> outcome A.

Definition ret {A : Type} (a : A) : M A := fun e => Done a e.

Definition bind {A B : Type} (m : M A) (k : A -> M B) : M B :=
  fun e => match m e with
           | Done a e' => k a e'
           | Undefined => Undefined
           | OutOfFuel => OutOfFuel
           end.

Definition undefined {A : Type} : M A := fun _ => Undefined.
Definition out_of_fuel {A : Type} : M A := fun _ => OutOfFuel.

(** A call that changes the state of the engine and is logged. *)
Definition extcall {A : Type} (c : call) (f : W -> A * W) : M A :=
  fun e => let '(a, w) := f (world e) in
           Done a {| world := w; alloc_ok := alloc_ok e;
                     alloc_count := alloc_count e;
                     calls := calls e ++ [c] |}.

(** A read of the state of the engine. *)
Definition extread {A : Type} (f : W -> A) : M A :=
  fun e => Done (f (world e)) e.

End Model.

Arguments Done {W A} a e.
Arguments Undefined {W A}.
Arguments OutOfFuel {W A}.

Declare Scope db_scope.
Delimit Scope db_scope with db.
Notation "x <- m ;; k" := (bind m (fun x => k))
  (at level 61, m at next level, right associativity) : db_scope.
Notation "' p <- m ;; k" := (bind m (fun x => match x with p => k end))
  (at level 61, p pattern, m at next level, right associativity) : db_scope.
Local Open Scope db_scope.

(** ** [db.c] *)

Section DbC.

Context {W : Type} {E : External W}.

Local Abbreviation M := (@M W).

(** *** The library calls, as [db.c] makes them

    A NULL statement is accepted by every [sqlite3_*] function that
    takes one: nothing happens and, where there is a result code, it is
    [SQLITE_MISUSE] ([sqlite3_finalize(NULL)] is a harmless no-op). *)

Definition malloc (size : Z) : M bool :=
  fun e => Done (alloc_ok e (alloc_count e) size)
             {| world := world e; alloc_ok := alloc_ok e;
                alloc_count := S (alloc_count e); calls := calls e |}.

(** [strdup(s)]: NULL when the copy cannot be allocated. *)
Definition strdup (s : string) : M (option string) :=
  ok <- malloc (Z.of_nat (String.length s) + 1) ;;
  ret (if ok then Some s else None).

(** [calloc((size_t) n, size)]: the number of zeroed elements of the
    block, or NULL; the product is checked against [SIZE_MAX]. *)
Definition calloc (n : Z) (size : Z) : M (option nat) :=
  let cnt := n mod (SIZE_MAX + 1) in
  if SIZE_MAX <? cnt * size then ret None
  else ok <- malloc (cnt * size) ;;
       ret (if ok then Some (Z.to_nat cnt) else None).

Definition sqlite3_open (filename : string) : M (Z * option sqlite3) :=
  extcall (CallOpen filename) (ext_open filename).

Definition sqlite3_open_v2 (filename : string) (flags : Z)
  : M (Z * option sqlite3) :=
  extcall (CallOpenV2 filename flags) (ext_open_v2 filename flags).

Definition sqlite3_close (h : sqlite3) : M Z :=
  extcall (CallClose h) (ext_close h).

Definition sqlite3_prepare_v2 (h : sqlite3) (sql : string)
  : M (Z * option sqlite3_stmt) :=
  extcall (CallPrepare h sql) (ext_prepare_v2 h sql).

Definition sqlite3_finalize (st : option sqlite3_stmt) : M Z :=
  match st with
  | Some p => extcall (CallFinalize p) (ext_finalize p)
  | None => ret SQLITE_OK
  end.

Definition sqlite3_step (st : option sqlite3_stmt) : M Z :=
  match st with
  | Some p => extcall (CallStep p) (ext_step p)
  | None => ret SQLITE_MISUSE
  end.

Definition sqlite3_bind_text (st : option sqlite3_stmt) (idx : Z)
  (text : string) : M Z :=
  match st with
  | Some p => extcall (CallBindText p idx text) (ext_bind_text p idx text)
  | None => ret SQLITE_MISUSE
  end.

Definition sqlite3_column_count (st : option sqlite3_stmt) : M Z :=
  match st with
  | Some p => extread (fun w => int_of (ext_column_count p w))
  | None => ret 0
  end.

Definition sqlite3_column_name (st : option sqlite3_stmt) (i : Z)
  : M (option string) :=
  match st with
  | Some p => extread (ext_column_name p i)
  | None => ret None
  end.

Definition sqlite3_column_text (st : option sqlite3_stmt) (i : Z)
  : M (option string) :=
  match st with
  | Some p => extread (ext_column_text p i)
  | None => ret None
  end.

(** *** [s_make_select_rowid_all] (lines 30-53) *)

Definition s_make_select_rowid_all (table : string) : M (option string) :=
  let '(needed, buf) := snprintf 256 (fmt_select table SQL_QUERY_MAX_LIMIT) in
  if needed <? 0 then ret None
  else if 256 <=? needed then
    let len := needed + 1 in
    p <- malloc len ;;
    if negb p then ret None
    else ret (Some (snd (snprintf len (fmt_select table SQL_QUERY_MAX_LIMIT))))
  else strdup buf.

(** *** [db_is_sqlite] (lines 57-81) *)

Definition db_is_sqlite (filename : string) : M Z :=
  ' (rc, tmp) <- sqlite3_open_v2 filename
                   (Z.lor SQLITE_OPEN_READONLY SQLITE_OPEN_URI) ;;
  if negb (rc =? SQLITE_OK) then
    _ <- match tmp with Some h => sqlite3_close h | None => ret 0 end ;;
    ret 0
  else
    match tmp with
    | None => (* [sqlite3_prepare_v2(NULL, ...)] *)
        ret 0
    | Some h =>
        ' (rc, stmt) <- sqlite3_prepare_v2 h sql_schema_version ;;
        if negb (rc =? SQLITE_OK) then
          _ <- sqlite3_finalize stmt ;;
          _ <- sqlite3_close h ;;
          ret 0
        else
          _ <- sqlite3_finalize stmt ;;
          _ <- sqlite3_close h ;;
          ret 1
    end.

(** *** [db_open] (lines 85-96) *)

Definition db_open (s : option context_td) (filename : string)
  : M (Z * option context_td) :=
  match s with
  | None => ret (SQLITE_MISUSE, None)
  | Some c =>
      c1 <- match db c with
            | Some h => _ <- sqlite3_close h ;; ret (set_db c None)
            | None => ret c
            end ;;
      ' (rc, h) <- sqlite3_open filename ;;
      ret (rc, Some (set_db c1 h))
  end.

(** *** [db_close] (lines 100-110) *)

Definition db_close (s : option context_td) : M (option context_td) :=
  match s with
  | None => ret None
  | Some c =>
      match db c with
      | Some h => _ <- sqlite3_close h ;; ret (Some (set_db c None))
      | None => ret (Some c)
      end
  end.

(** *** [db_fill_table_list] (lines 114-142) *)

(** The [while] loop of lines 131-137, on the contents of the store. *)
Fixpoint fill_table_loop (fuel : nat) (stmt : option sqlite3_stmt)
  (store : list (option string)) : M (list (option string)) :=
  match fuel with
  | O => out_of_fuel
  | S fuel' =>
      rc <- sqlite3_step stmt ;;
      if rc =? SQLITE_ROW then
        name <- sqlite3_column_text stmt 0 ;;
        fill_table_loop fuel' stmt (store ++ [name])
      else ret store
  end.

Definition db_fill_table_list (fuel : nat) (s : option context_td)
  : M (Z * option context_td) :=
  match s with
  | None => ret (SQLITE_MISUSE, s)
  | Some c =>
      match db c, tables_store c with
      | Some h, Some _ =>
          ' (rc, stmt) <- sqlite3_prepare_v2 h sql_list_tables ;;
          if negb (rc =? SQLITE_OK) then ret (rc, s)
          else
            store <- fill_table_loop fuel stmt [] ;;
            _ <- sqlite3_finalize stmt ;;
            ret (SQLITE_OK, Some (set_tables_store c (Some store)))
      | _, _ => ret (SQLITE_MISUSE, s)
      end
  end.

(** *** [db_free_columns] (lines 146-166)

    The loop of lines 158-160 reads [current_colnames[i]] for every
    [i < current_ncols]. *)

Definition db_free_columns (s : option context_td) : M (option context_td) :=
  match s with
  | None => ret None
  | Some c =>
      match current_colnames c with
      | None =>
          ret (Some (set_current_ncols (set_current_tablename c None) 0))
      | Some a =>
          if Z.of_nat (List.length a) <? current_ncols c then undefined
          else
            ret (Some (set_current_tablename
                         (set_current_ncols (set_current_colnames c None) 0)
                         None))
      end
  end.

(** *** [db_populate_rows] (lines 171-251) *)

Definition or_empty (p : option string) : string :=
  match p with Some x => x | None => "" end.

(** The loop of lines 223-233, for the [n] indices from [i] on: the
    name of each column is copied into [current_colnames[i]] and a view
    column of that title is appended. *)
Fixpoint make_columns (n : nat) (i : Z) (stmt : option sqlite3_stmt)
  (a : list (option string)) (cols : list string)
  : M (list (option string) * list string) :=
  match n with
  | O => ret (a, cols)
  | S n' =>
      colname <- sqlite3_column_name stmt i ;;
      p <- strdup (or_empty colname) ;;
      match array_store a i p with
      | None => undefined
      | Some a' => make_columns n' (i + 1) stmt a' (cols ++ [or_empty colname])
      end
  end.

(** The loop of lines 239-243: the cells of one row. *)
Fixpoint read_row (n : nat) (i : Z) (stmt : option sqlite3_stmt)
  (row : list string) : M (list string) :=
  match n with
  | O => ret row
  | S n' =>
      txt <- sqlite3_column_text stmt i ;;
      read_row n' (i + 1) stmt (row ++ [or_empty txt])
  end.

(** The [while] loop of lines 236-244, on the rows of the new store. *)
Fixpoint fill_rows_loop (fuel : nat) (stmt : option sqlite3_stmt) (ncol : Z)
  (store : list (list string)) : M (list (list string)) :=
  match fuel with
  | O => out_of_fuel
  | S fuel' =>
      rc <- sqlite3_step stmt ;;
      if rc =? SQLITE_ROW then
        row <- read_row (Z.to_nat ncol) 0 stmt [] ;;
        fill_rows_loop fuel' stmt ncol (store ++ [row])
      else ret store
  end.

Definition db_populate_rows (fuel : nat) (s : option context_td)
  (table : option string) : M (Z * option context_td) :=
  match s with
  | None => ret (SQLITE_MISUSE, s)
  | Some c =>
      match db c, rows_view c with
      | Some h, Some _ =>
          match table with
          | None => ret (SQLITE_MISUSE, s)
          | Some t =>
              s1 <- db_free_columns s ;;
              match s1 with
              | None => ret (SQLITE_MISUSE, s1)   (* not reached: [s] is not NULL *)
              | Some c1 =>
                  name <- strdup t ;;
                  let c2 := set_current_tablename c1 name in
                  (* lines 187-192: no model, no columns *)
                  let c3 := set_rows_view c2
                              (Some {| tv_columns := []; tv_model := None |}) in
                  sql <- s_make_select_rowid_all t ;;
                  match sql with
                  | None => ret (SQLITE_NOMEM, Some c3)
                  | Some q =>
                      ' (rc, stmt) <- sqlite3_prepare_v2 h q ;;
                      if negb (rc =? SQLITE_OK) then ret (rc, Some c3)
                      else
                        ncol <- sqlite3_column_count stmt ;;
                        let c4 := set_current_ncols c3 ncol in
                        blk <- calloc ncol sizeof_ptr ;;
                        match blk with
                        | None =>
                            _ <- sqlite3_finalize stmt ;;
                            ret (SQLITE_NOMEM,
                                 Some (set_current_colnames c4 None))
                        | Some cnt =>
                            ' (a, cols) <- make_columns (Z.to_nat ncol) 0 stmt
                                             (repeat None cnt) [] ;;
                            rows <- fill_rows_loop fuel stmt ncol [] ;;
                            _ <- sqlite3_finalize stmt ;;
                            ret (SQLITE_OK,
                                 Some (set_rows_view
                                         (set_current_colnames c4 (Some a))
                                         (Some {| tv_columns := cols;
                                                  tv_model := Some rows |})))
                        end
                  end
              end
          end
      | _, _ => ret (SQLITE_MISUSE, s)
      end
  end.

(** *** [db_apply_update_cell] (lines 256-312) *)

Definition db_apply_update_cell (s : option context_td) (colidx : Z)
  (rowid_text new_text : string) : M (Z * option context_td) :=
  match s with
  | None => ret (SQLITE_MISUSE, s)
  | Some c =>
      match db c, current_tablename c, current_colnames c with
      | Some h, Some tablename, Some a =>
          if colidx =? 0 then ret (SQLITE_OK, s)
          else
            match array_load a colidx with
            | None => undefined     (* line 265 reads outside the block *)
            | Some None => ret (SQLITE_MISUSE, s)
            | Some (Some colname) =>
                let '(needed, sqlbuf) :=
                  snprintf 512 (fmt_update tablename colname) in
                if needed <? 0 then ret (SQLITE_ERROR, s)
                else
                  sql <- (if 512 <=? needed then
                            let len := needed + 1 in
                            p <- malloc len ;;
                            if negb p then ret None
                            else ret (Some (snd (snprintf len
                                         (fmt_update tablename colname))))
                          else ret (Some sqlbuf)) ;;
                  match sql with
                  | None => ret (SQLITE_NOMEM, s)
                  | Some q =>
                      ' (rc, stmt) <- sqlite3_prepare_v2 h q ;;
                      if negb (rc =? SQLITE_OK) then
                        _ <- sqlite3_finalize stmt ;;
                        ret (rc, s)
                      else
                        _ <- sqlite3_bind_text stmt 1 new_text ;;
                        _ <- sqlite3_bind_text stmt 2 rowid_text ;;
                        rc <- sqlite3_step stmt ;;
                        _ <- sqlite3_finalize stmt ;;
                        if negb (rc =? SQLITE_DONE) then ret (rc, s)
                        else ret (SQLITE_OK, s)
                  end
            end
      | _, _, _ => ret (SQLITE_MISUSE, s)
      end
  end.

End DbC.

(** ** A reference engine

    A small executable model of the engine and of the file system under
    it, following the documentation of SQLite for the calls and the
    three statements [db.c] issues.  It serves to run the code above on
    concrete databases.

    The databases of the model hold rowid tables whose columns have no
    declared type, but for one column that may be the INTEGER PRIMARY
    KEY, an alias of the row identity.  No column is named [rowid],
    [oid] or [_rowid_], and the catalog itself ([sqlite_master]) cannot
    be queried as a table.  The rows of a table are kept in the order of
    their row identity.

    - [sqlite3_open(f, &db)] is [sqlite3_open_v2] with
      [SQLITE_OPEN_READWRITE | SQLITE_OPEN_CREATE]: a file that does not
      exist is created.  Whether or not the open succeeds a handle is
      stored in [*ppDb] (it must still be closed); the file itself is not
      read before a statement needs it.  A handle whose open failed
      refuses every statement with [SQLITE_MISUSE].
    - [PRAGMA schema_version] is prepared without reading the file, so
      that it is prepared on a file that is not a database as well; any
      other statement there fails with [SQLITE_NOTADB].
    - [sqlite3_close] refuses, with [SQLITE_BUSY], a connection that
      still has statements.
    - [x LIKE p]: [%] stands for any run of characters, [_] for exactly
      one character, and letters compare without case.
    - [ORDER BY name] compares the bytes of the names.
    - The names of tables and columns compare without case.
    - The fetch statement is read token by token: an identifier between
      double quotes ends at the first double quote that is not doubled,
      [--] starts a comment that runs to the end of the line, the
      [LIMIT] clause is optional, and the statement ends at [;] or at
      the end of the text.  Its first result column is titled with the
      name of the INTEGER PRIMARY KEY column when the table has one, and
      [rowid] otherwise.
    - The update statement is read the same way.  The text bound as
      row identity is compared as a number: blanks around it, a sign,
      leading zeros, a fraction and an exponent are accepted, and the
      text matches the row whose identity is its value; a text that is
      not a number matches no row.  The value taken is the exact decimal
      value of the text (the engine goes through a double, which is the
      same up to 15 significant digits).  Assigning to the INTEGER
      PRIMARY KEY column changes the row identity: the new text must be
      a whole number ([SQLITE_MISMATCH] otherwise) that no other row
      has ([SQLITE_CONSTRAINT] otherwise).
    - Any other text is a syntax error. *)

Module Sqlite3Model.

Record schema_entry : Type := {
  e_type : string;                         (* "table", "index", "view", ... *)
  e_name : string;
  e_cols : list string;
  e_pk : option nat;                       (* the INTEGER PRIMARY KEY column *)
  e_rows : list (Z * list (option string)) (* rowid, then one value a column *)
}.

Definition database : Type := list schema_entry.

Inductive file : Type :=
| NotADatabase
| Database (d : database).

Inductive program : Type :=
| PSchemaVersion
| PListTables
| PSelect (table : string) (limit : option nat)
| PUpdate (table col : string).

Record statement : Type := {
  st_conn : sqlite3;
  st_prog : program;
  st_names : list string;                    (* names of the result columns *)
  st_pending : list (list (option string));  (* rows still to be stepped to *)
  st_row : option (list (option string));    (* the row stepped to *)
  st_binds : list (Z * string)
}.

Record machine : Type := {
  files : list (string * file);          (* the files that exist *)
  creatable : list string;               (* where a new file may be created *)
  conns : list (sqlite3 * option string);(* handles; [None]: the open failed *)
  stmts : list (sqlite3_stmt * statement);
  next_id : nat
}.

Fixpoint assoc {A B : Type} (eqb : A -> A -> bool) (k : A) (l : list (A * B))
  : option B :=
  match l with
  | [] => None
  | (k', v) :: r => if eqb k k' then Some v else assoc eqb k r
  end.

Fixpoint remove_key {A B : Type} (eqb : A -> A -> bool) (k : A)
  (l : list (A * B)) : list (A * B) :=
  match l with
  | [] => []
  | (k', v) :: r =>
      if eqb k k' then remove_key eqb k r else (k', v) :: remove_key eqb k r
  end.

Definition put {A B : Type} (eqb : A -> A -> bool) (k : A) (v : B)
  (l : list (A * B)) : list (A * B) :=
  (k, v) :: remove_key eqb k l.

Definition with_files (w : machine) (f : list (string * file)) : machine :=
  {| files := f; creatable := creatable w; conns := conns w;
     stmts := stmts w; next_id := next_id w |}.

Definition with_conns (w : machine) (c : list (sqlite3 * option string))
  (n : nat) : machine :=
  {| files := files w; creatable := creatable w; conns := c;
     stmts := stmts w; next_id := n |}.

Definition with_stmts (w : machine) (s : list (sqlite3_stmt * statement))
  (n : nat) : machine :=
  {| files := files w; creatable := creatable w; conns := conns w;
     stmts := s; next_id := n |}.

(** *** Opening and closing *)

Definition has_flag (flags f : Z) : bool := negb (Z.land flags f =? 0).

Definition open_v2 (filename : string) (flags : Z) (w : machine)
  : (Z * option sqlite3) * machine :=
  let h := next_id w in
  match assoc String.eqb filename (files w) with
  | Some _ =>
      ((SQLITE_OK, Some h),
       with_conns w ((h, Some filename) :: conns w) (S h))
  | None =>
      if has_flag flags SQLITE_OPEN_CREATE
         && existsb (String.eqb filename) (creatable w)
      then
        ((SQLITE_OK, Some h),
         with_conns (with_files w ((filename, Database []) :: files w))
           ((h, Some filename) :: conns w) (S h))
      else
        ((SQLITE_CANTOPEN, Some h),
         with_conns w ((h, None) :: conns w) (S h))
  end.

Definition open (filename : string) (w : machine)
  : (Z * option sqlite3) * machine :=
  open_v2 filename (Z.lor SQLITE_OPEN_READWRITE SQLITE_OPEN_CREATE) w.

Definition close (h : sqlite3) (w : machine) : Z * machine :=
  if existsb (fun p => Nat.eqb (st_conn (snd p)) h) (stmts w)
  then (SQLITE_BUSY, w)
  else (SQLITE_OK, with_conns w (remove_key Nat.eqb h (conns w)) (next_id w)).

(** *** [LIKE] *)

Definition lower (c : ascii) : ascii :=
  let n := nat_of_ascii c in
  if (Nat.leb 65 n && Nat.leb n 90)%bool then ascii_of_nat (n + 32) else c.

Fixpoint like (pat s : string) {struct pat} : bool :=
  match pat with
  | EmptyString => match s with EmptyString => true | _ => false end
  | String p pat' =>
      if Ascii.eqb p "%"%char then
        (fix any (t : string) : bool :=
           (like pat' t
            || match t with
               | EmptyString => false
               | String _ t' => any t'
               end)%bool) s
      else
        match s with
        | EmptyString => false
        | String c s' =>
            ((Ascii.eqb p "_"%char || Ascii.eqb (lower p) (lower c))
             && like pat' s')%bool
        end
  end.

Fixpoint lower_string (s : string) : string :=
  match s with
  | EmptyString => EmptyString
  | String a s' => String (lower a) (lower_string s')
  end.

(** Two identifiers name the same table or column. *)
Definition same_name (a b : string) : bool :=
  String.eqb (lower_string a) (lower_string b).

(** *** [ORDER BY] *)

Fixpoint insert_sorted (x : string) (l : list string) : list string :=
  match l with
  | [] => [x]
  | y :: r => if String.leb x y then x :: l else y :: insert_sorted x r
  end.

Definition order_by (l : list string) : list string :=
  fold_right insert_sorted [] l.

Definition leb_rel (x y : string) : Prop := String.leb x y = true.

(** The rows of
    [SELECT name FROM sqlite_master WHERE type='table' AND
     name NOT LIKE 'sqlite_%' ORDER BY name]. *)
Definition list_tables_query (d : database) : list string :=
  order_by
    (map e_name
       (filter (fun e => (String.eqb (e_type e) "table"
                          && negb (like "sqlite_%" (e_name e)))%bool) d)).

(** *** Statements *)

Definition has_dquote (s : string) : bool :=
  existsb (Ascii.eqb dquote_char) (list_ascii_of_string s).

Definition quoted (name : string) : string := (dq ++ name ++ dq)%string.

Definition list_tables_text : string :=
  ("SELECT name FROM sqlite_master WHERE type='table' "
   ++ "AND name NOT LIKE 'sqlite_%' ORDER BY name;")%string.

Definition is_table (e : schema_entry) : bool := String.eqb (e_type e) "table".

(** [s] without the prefix [p]. *)
Fixpoint strip_prefix (p s : string) : option string :=
  match p, s with
  | EmptyString, _ => Some s
  | String a p', String b s' =>
      if Ascii.eqb a b then strip_prefix p' s' else None
  | String _ _, EmptyString => None
  end.

(** The identifier that [s] continues, [s] starting after the opening
    double quote, and the text after the closing one. *)
Fixpoint read_quoted (s : string) : option (string * string) :=
  match s with
  | EmptyString => None
  | String a s' =>
      if Ascii.eqb a dquote_char then
        match s' with
        | String b s'' =>
            if Ascii.eqb b dquote_char then
              match read_quoted s'' with
              | Some (n, r) => Some (String dquote_char n, r)
              | None => None
              end
            else Some (EmptyString, s')
        | EmptyString => Some (EmptyString, EmptyString)
        end
      else
        match read_quoted s' with
        | Some (n, r) => Some (String a n, r)
        | None => None
        end
  end.

Definition is_blank (a : ascii) : bool :=
  (Ascii.eqb a " " || Ascii.eqb a "009" || Ascii.eqb a "010"
   || Ascii.eqb a "013")%bool.

(** [s] without its leading blanks and [--] comments. *)
Fixpoint skip_blanks (in_comment : bool) (s : string) : string :=
  match s with
  | EmptyString => EmptyString
  | String a s' =>
      if in_comment then skip_blanks (negb (Ascii.eqb a "010")) s'
      else if is_blank a then skip_blanks false s'
      else if Ascii.eqb a "-" then
        match s' with
        | String b s'' =>
            if Ascii.eqb b "-" then skip_blanks true s'' else s
        | EmptyString => s
        end
      else s
  end.

Definition digit_of (a : ascii) : option nat :=
  let n := nat_of_ascii a in
  if (Nat.leb 48 n && Nat.leb n 57)%bool then Some (n - 48)%nat else None.

(** The number [acc] continued by the digits [s] starts with, and the
    text after them. *)
Fixpoint read_digits (acc : nat) (s : string) : nat * string :=
  match s with
  | EmptyString => (acc, s)
  | String a s' =>
      match digit_of a with
      | Some d => read_digits (10 * acc + d) s'
      | None => (acc, s)
      end
  end.

Definition at_end (s : string) : bool :=
  match skip_blanks false s with
  | EmptyString => true
  | String a _ => Ascii.eqb a ";"
  end.

(** What follows the table name: nothing, or a [LIMIT] clause. *)
Definition parse_limit (s : string) : option (option nat) :=
  if at_end s then Some None
  else
    match strip_prefix "LIMIT" (skip_blanks false s) with
    | Some s1 =>
        match skip_blanks false s1 with
        | String a s2 =>
            match digit_of a with
            | Some d =>
                let '(n, s3) := read_digits d s2 in
                if at_end s3 then Some (Some n) else None
            | None => None
            end
        | EmptyString => None
        end
    | None => None
    end.

(** [SELECT rowid, * FROM "<name>" [LIMIT <n>]]: the name and the limit. *)
Definition parse_select (sql : string) : option (string * option nat) :=
  match strip_prefix "SELECT rowid, * FROM " sql with
  | Some (String a s) =>
      if Ascii.eqb a dquote_char then
        match read_quoted s with
        | Some (name, rest) =>
            match parse_limit rest with
            | Some limit => Some (name, limit)
            | None => None
            end
        | None => None
        end
      else None
  | _ => None
  end.

Definition find_table (name : string) (d : database) : option schema_entry :=
  find (fun e => (is_table e && same_name (e_name e) name)%bool) d.

Definition limited {A : Type} (limit : option nat) (l : list A) : list A :=
  match limit with
  | Some n => firstn n l
  | None => l
  end.

(** [UPDATE "<table>" SET "<column>" = ? WHERE rowid = ?;]: the two
    names. *)
Definition parse_update (sql : string) : option (string * string) :=
  match strip_prefix ("UPDATE " ++ dq) sql with
  | Some s1 =>
      match read_quoted s1 with
      | Some (table, s2) =>
          match strip_prefix (" SET " ++ dq) s2 with
          | Some s3 =>
              match read_quoted s3 with
              | Some (col, s4) =>
                  if String.eqb s4 " = ? WHERE rowid = ?;"
                  then Some (table, col) else None
              | None => None
              end
          | None => None
          end
      | None => None
      end
  | None => None
  end.

Definition find_column (col : string) (e : schema_entry) : option string :=
  find (same_name col) (e_cols e).

(** The title of the row identity in a result. *)
Definition key_name (e : schema_entry) : string :=
  match e_pk e with
  | Some k => match nth_error (e_cols e) k with
              | Some n => n
              | None => "rowid"
              end
  | None => "rowid"
  end.

(** A row of [SELECT rowid, *]: the INTEGER PRIMARY KEY column reads as
    the row identity. *)
Definition result_row (e : schema_entry) (r : Z * list (option string))
  : list (option string) :=
  Some (fmt_d (fst r))
    :: match e_pk e with
       | Some k => list_set (snd r) k (Some (fmt_d (fst r)))
       | None => snd r
       end.

Definition mk_statement (h : sqlite3) (p : program) (names : list string)
  (rows : list (list (option string))) : statement :=
  {| st_conn := h; st_prog := p; st_names := names; st_pending := rows;
     st_row := None; st_binds := [] |}.

Definition schema_version_statement (h : sqlite3) : statement :=
  mk_statement h PSchemaVersion ["schema_version"] [[Some "0"]].

Definition compile (h : sqlite3) (sql : string) (d : database)
  : option statement :=
  if String.eqb sql sql_schema_version then Some (schema_version_statement h)
  else if String.eqb sql list_tables_text then
    Some (mk_statement h PListTables ["name"]
            (map (fun n => [Some n]) (list_tables_query d)))
  else
    match parse_select sql with
    | Some (name, limit) =>
        match find_table name d with
        | Some e =>
            Some (mk_statement h (PSelect (e_name e) limit)
                    (key_name e :: e_cols e)
                    (map (result_row e) (limited limit (e_rows e))))
        | None => None
        end
    | None =>
        match parse_update sql with
        | Some (t, c) =>
            match find_table t d with
            | Some e =>
                match find_column c e with
                | Some col => Some (mk_statement h (PUpdate (e_name e) col) [] [])
                | None => None
                end
            | None => None
            end
        | None => None
        end
    end.

Definition conn_database (h : sqlite3) (w : machine)
  : option (string * file) :=
  match assoc Nat.eqb h (conns w) with
  | Some (Some path) =>
      match assoc String.eqb path (files w) with
      | Some f => Some (path, f)
      | None => None
      end
  | _ => None
  end.

(** A new statement of the connection. *)
Definition register (s : statement) (w : machine)
  : (Z * option sqlite3_stmt) * machine :=
  let id := next_id w in
  ((SQLITE_OK, Some id), with_stmts w ((id, s) :: stmts w) (S id)).

Definition prepare_v2 (h : sqlite3) (sql : string) (w : machine)
  : (Z * option sqlite3_stmt) * machine :=
  match conn_database h w with
  | None => ((SQLITE_MISUSE, None), w)
  | Some (_, NotADatabase) =>
      if String.eqb sql sql_schema_version
      then register (schema_version_statement h) w
      else ((SQLITE_NOTADB, None), w)
  | Some (_, Database d) =>
      match compile h sql d with
      | None => ((SQLITE_ERROR, None), w)
      | Some s => register s w
      end
  end.

Definition column_count (st : sqlite3_stmt) (w : machine) : Z :=
  match assoc Nat.eqb st (stmts w) with
  | Some s => Z.of_nat (List.length (st_names s))
  | None => 0
  end.

Definition column_name (st : sqlite3_stmt) (i : Z) (w : machine)
  : option string :=
  match assoc Nat.eqb st (stmts w) with
  | Some s => array_load (st_names s) i
  | None => None
  end.

Definition column_text (st : sqlite3_stmt) (i : Z) (w : machine)
  : option string :=
  match assoc Nat.eqb st (stmts w) with
  | Some s =>
      match st_row s with
      | Some r => match array_load r i with Some v => v | None => None end
      | None => None
      end
  | None => None
  end.

(** The number of [?] of a statement. *)
Definition parameters (p : program) : Z :=
  match p with
  | PUpdate _ _ => 2
  | _ => 0
  end.

Definition bind_text (st : sqlite3_stmt) (idx : Z) (text : string) (w : machine)
  : Z * machine :=
  match assoc Nat.eqb st (stmts w) with
  | Some s =>
      if ((1 <=? idx) && (idx <=? parameters (st_prog s)))%bool then
        (SQLITE_OK,
         with_stmts w
           (put Nat.eqb st
              {| st_conn := st_conn s; st_prog := st_prog s;
                 st_names := st_names s; st_pending := st_pending s;
                 st_row := st_row s;
                 st_binds := put Z.eqb idx text (st_binds s) |} (stmts w))
           (next_id w))
      else (SQLITE_RANGE, w)
  | None => (SQLITE_MISUSE, w)
  end.

(** *** Texts read as numbers *)

Definition is_space (a : ascii) : bool :=
  let n := nat_of_ascii a in
  (Nat.eqb n 32 || (Nat.leb 9 n && Nat.leb n 13))%bool.

Fixpoint skip_spaces (s : string) : string :=
  match s with
  | EmptyString => EmptyString
  | String a s' => if is_space a then skip_spaces s' else s
  end.

(** A sign at the head of [s]: whether it is [-], and the text after
    it. *)
Definition read_sign (s : string) : bool * string :=
  match s with
  | String a s' =>
      if Ascii.eqb a "-" then (true, s')
      else if Ascii.eqb a "+" then (false, s')
      else (false, s)
  | EmptyString => (false, s)
  end.

(** The digits at the head of [s], appended to [acc]; how many there
    are added to [n]; and the text after them. *)
Fixpoint read_decimal (acc : Z) (n : nat) (s : string) : Z * nat * string :=
  match s with
  | EmptyString => (acc, n, s)
  | String a s' =>
      match digit_of a with
      | Some d => read_decimal (10 * acc + Z.of_nat d) (S n) s'
      | None => (acc, n, s)
      end
  end.

(** A number [n_mantissa * 10 ^ n_exponent]; [n_real] when the text has
    a fraction or an exponent. *)
Record numeral : Type := {
  n_real : bool;
  n_mantissa : Z;
  n_exponent : Z
}.

(** The fraction that [s] may start with, continuing the mantissa [m]. *)
Definition read_fraction (m : Z) (s : string) : bool * Z * nat * string :=
  match s with
  | String a s' =>
      if Ascii.eqb a "." then
        let '(m', k, r) := read_decimal m 0 s' in (true, m', k, r)
      else (false, m, O, s)
  | EmptyString => (false, m, O, s)
  end.

(** The exponent that [s] may start with: whether there is one, its
    value, whether it has a digit, and the text after it. *)
Definition read_exponent (s : string) : bool * Z * bool * string :=
  match s with
  | String a s' =>
      if (Ascii.eqb a "e" || Ascii.eqb a "E")%bool then
        let '(neg, s1) := read_sign s' in
        let '(x, k, r) := read_decimal 0 0 s1 in
        (true, (if neg then - Z.min x 10000 else Z.min x 10000),
         negb (Nat.eqb k 0), r)
      else (false, 0, true, s)
  | EmptyString => (false, 0, true, s)
  end.

(** Blanks, a sign, digits with an optional fraction (one digit at
    least), an optional exponent, blanks. *)
Definition parse_numeral (s : string) : option numeral :=
  let '(neg, s1) := read_sign (skip_spaces s) in
  let '(m1, k1, s2) := read_decimal 0 0 s1 in
  let '(dot, m2, k2, s3) := read_fraction m1 s2 in
  let '(ex, x, ok, s4) := read_exponent s3 in
  if (negb (Nat.eqb (k1 + k2) 0) && ok
      && String.eqb (skip_spaces s4) EmptyString)%bool
  then Some {| n_real := (dot || ex)%bool;
               n_mantissa := (if neg then - m2 else m2);
               n_exponent := x - Z.of_nat k2 |}
  else None.

Definition INT64_MIN : Z := - 2 ^ 63.
Definition INT64_MAX : Z := 2 ^ 63 - 1.

(** The row identity a number stands for: a whole number of 64 bits; one
    written with a fraction or an exponent must lie strictly between the
    two ends. *)
Definition integer_of_numeral (n : numeral) : option Z :=
  let m := n_mantissa n in
  let x := n_exponent n in
  if n_real n then
    if m =? 0 then Some 0
    else if 0 <=? x then
      if 19 <? x then None
      else
        let v := m * 10 ^ x in
        if ((INT64_MIN <? v) && (v <? INT64_MAX))%bool then Some v else None
    else
      let p := 10 ^ (- x) in
      if m mod p =? 0 then
        let v := m / p in
        if ((INT64_MIN <? v) && (v <? INT64_MAX))%bool then Some v else None
      else None
  else if ((INT64_MIN <=? m) && (m <=? INT64_MAX))%bool then Some m
  else None.

Definition integer_of_text (t : option string) : option Z :=
  match t with
  | Some s => match parse_numeral s with
              | Some n => integer_of_numeral n
              | None => None
              end
  | None => None
  end.

(** *** [UPDATE "t" SET "c" = ?1 WHERE rowid = ?2] on one table *)

Fixpoint index_of (c : string) (l : list string) : option nat :=
  match l with
  | [] => None
  | x :: r => if same_name c x then Some O
              else match index_of c r with Some n => Some (S n) | None => None end
  end.

Definition has_rowid (id : Z) (rows : list (Z * list (option string))) : bool :=
  existsb (fun r => fst r =? id) rows.

Definition with_rows (e : schema_entry)
  (rows : list (Z * list (option string))) : schema_entry :=
  {| e_type := e_type e; e_name := e_name e; e_cols := e_cols e;
     e_pk := e_pk e; e_rows := rows |}.

Fixpoint insert_row (r : Z * list (option string))
  (rows : list (Z * list (option string))) : list (Z * list (option string)) :=
  match rows with
  | [] => [r]
  | x :: l => if fst r <? fst x then r :: rows else x :: insert_row r l
  end.

(** The row [id] becomes the row [id']. *)
Definition move_row (id id' : Z) (rows : list (Z * list (option string)))
  : list (Z * list (option string)) :=
  match find (fun r => fst r =? id) rows with
  | Some r =>
      insert_row (id', snd r) (filter (fun x => negb (fst x =? id)) rows)
  | None => rows
  end.

Definition is_key (e : schema_entry) (k : nat) : bool :=
  match e_pk e with
  | Some k' => Nat.eqb k k'
  | None => false
  end.

(** The result code of the step, and the table after it. *)
Definition update_rows (e : schema_entry) (c : string)
  (new_text rowid_text : option string) : Z * schema_entry :=
  match index_of c (e_cols e), integer_of_text rowid_text with
  | Some k, Some id =>
      if has_rowid id (e_rows e) then
        if is_key e k then
          match integer_of_text new_text with
          | None => (SQLITE_MISMATCH, e)
          | Some id' =>
              if id' =? id then (SQLITE_DONE, e)
              else if has_rowid id' (e_rows e) then (SQLITE_CONSTRAINT, e)
              else (SQLITE_DONE, with_rows e (move_row id id' (e_rows e)))
          end
        else
          (SQLITE_DONE,
           with_rows e
             (map (fun r => if fst r =? id
                            then (fst r, list_set (snd r) k new_text) else r)
                (e_rows e)))
      else (SQLITE_DONE, e)
  | _, _ => (SQLITE_DONE, e)
  end.

Fixpoint run_update (t c : string) (binds : list (Z * string))
  (d : database) : Z * database :=
  match d with
  | [] => (SQLITE_DONE, [])
  | e :: r =>
      if (is_table e && same_name (e_name e) t)%bool then
        let '(rc, e') :=
          update_rows e c (assoc Z.eqb 1 binds) (assoc Z.eqb 2 binds) in
        (rc, e' :: r)
      else
        let '(rc, r') := run_update t c binds r in (rc, e :: r')
  end.

(** A step of a statement that returns rows. *)
Definition step_rows (st : sqlite3_stmt) (s : statement) (w : machine)
  : Z * machine :=
  match st_pending s with
  | r :: rest =>
      (SQLITE_ROW,
       with_stmts w
         (put Nat.eqb st
            {| st_conn := st_conn s; st_prog := st_prog s;
               st_names := st_names s; st_pending := rest;
               st_row := Some r; st_binds := st_binds s |} (stmts w))
         (next_id w))
  | [] =>
      (SQLITE_DONE,
       with_stmts w
         (put Nat.eqb st
            {| st_conn := st_conn s; st_prog := st_prog s;
               st_names := st_names s; st_pending := [];
               st_row := None; st_binds := st_binds s |} (stmts w))
         (next_id w))
  end.

Definition step (st : sqlite3_stmt) (w : machine) : Z * machine :=
  match assoc Nat.eqb st (stmts w) with
  | None => (SQLITE_MISUSE, w)
  | Some s =>
      match conn_database (st_conn s) w with
      | Some (path, Database d) =>
          match st_prog s with
          | PUpdate t c =>
              let '(rc, d') := run_update t c (st_binds s) d in
              (rc, with_files w (put String.eqb path (Database d') (files w)))
          | _ => step_rows st s w
          end
      | Some (_, NotADatabase) => (SQLITE_NOTADB, w)
      | None => (SQLITE_MISUSE, w)
      end
  end.

Definition finalize (st : sqlite3_stmt) (w : machine) : Z * machine :=
  (SQLITE_OK, with_stmts w (remove_key Nat.eqb st (stmts w)) (next_id w)).

#[export] Instance engine : External machine := {
  ext_open := open;
  ext_open_v2 := open_v2;
  ext_close := close;
  ext_prepare_v2 := prepare_v2;
  ext_column_count := column_count;
  ext_column_name := column_name;
  ext_column_text := column_text;
  ext_bind_text := bind_text;
  ext_step := step;
  ext_finalize := finalize
}.

(** A machine with the given files and nothing open. *)
Definition boot (fs : list (string * file)) (dirs : list string) : machine :=
  {| files := fs; creatable := dirs; conns := []; stmts := []; next_id := 1 |}.

(** The start of a run in which the allocations listed in [failing]
    (by their rank) fail. *)
Definition start (w : machine) (failing : list nat) : @env machine :=
  {| world := w;
     alloc_ok := fun n _ => negb (existsb (Nat.eqb n) failing);
     alloc_count := 0;
     calls := [] |}.

End Sqlite3Model.

(** ** Vocabulary of the statements *)

(** The texts handed to [sqlite3_prepare_v2], in order. *)
Definition sql_texts (l : list call) : list string :=
  flat_map (fun c => match c with CallPrepare _ q => [q] | _ => [] end) l.

(** The values handed to [sqlite3_bind_text], with their index. *)
Definition bound_values (l : list call) : list (Z * string) :=
  flat_map (fun c => match c with CallBindText _ i t => [(i, t)] | _ => [] end) l.

Definition is_some {A : Type} (o : option A) : bool :=
  match o with Some _ => true | None => false end.

(** The tests of lines 173-178. *)
Definition populate_precondition (s : option context_td)
  (table : option string) : bool :=
  match s with
  | Some c => is_some (db c) && is_some (rows_view c) && is_some table
  | None => false
  end.

(** The test of line 259. *)
Definition update_precondition (s : option context_td) : bool :=
  match s with
  | Some c => is_some (db c) && is_some (current_tablename c)
              && is_some (current_colnames c)
  | None => false
  end.

(** [current_ncols] does not exceed the block [current_colnames] points
    to: what [db_populate_rows] establishes and [db_free_columns] relies
    on. *)
Definition ctx_wf (c : context_td) : Prop :=
  forall a, current_colnames c = Some a ->
            current_ncols c <= Z.of_nat (List.length a).

(** The fetch statement for table [t], as the specification writes it. *)
Definition select_statement (t : string) : string :=
  ("SELECT rowid, * FROM " ++ dq ++ t ++ dq ++ " LIMIT 100;")%string.

(** The context once lines 151-165 have run. *)
Definition clear_columns (c : context_td) : context_td :=
  {| db := db c; rows_view := rows_view c; tables_store := tables_store c;
     current_ncols := 0; current_colnames := None;
     current_tablename := None |}.

(** The rows view once lines 187-192 have run. *)
Definition empty_view : tree_view := {| tv_columns := []; tv_model := None |}.

(** The environment after [n] more allocations. *)
Definition allocated {W : Type} (n : nat) (e : @env W) : @env W :=
  {| world := world e; alloc_ok := alloc_ok e;
     alloc_count := (n + alloc_count e)%nat; calls := calls e |}.

(** The value a run returns, if it ends. *)
Definition result_of {W A : Type} (o : @outcome W A) : option A :=
  match o with
  | Done a _ => Some a
  | _ => None
  end.

(** The environment a run ends in, or [e0] if it does not end. *)
Definition env_after {W A : Type} (o : @outcome W A) (e0 : @env W)
  : @env W :=
  match o with
  | Done _ e => e
  | _ => e0
  end.

(** The rows of the model of the rows view. *)
Definition snapshot_of (s : option context_td) : option (list (list string)) :=
  match s with
  | Some c => match rows_view c with
              | Some v => tv_model v
              | None => None
              end
  | None => None
  end.

(** What a run leaves in the log, if it ends. *)
Definition texts_of {W A : Type} (o : @outcome W A) : option (list string) :=
  match o with
  | Done _ e => Some (sql_texts (calls e))
  | _ => None
  end.

(** *** A small database *)

Module Demo.
Import Sqlite3Model.

Definition table_t : schema_entry :=
  {| e_type := "table"; e_name := "t"; e_cols := ["a"; "b"]; e_pk := None;
     e_rows := [(1, [Some "x"; Some "y"]); (2, [Some "p"; Some "q"])] |}.

Definition entry (kind name : string) : schema_entry :=
  {| e_type := kind; e_name := name; e_cols := ["k"]; e_pk := None;
     e_rows := [] |}.

(** A table of 101 rows. *)
Definition table_log : schema_entry :=
  {| e_type := "table"; e_name := "log"; e_cols := ["line"]; e_pk := None;
     e_rows := map (fun i => (Z.of_nat i, [Some "entry"])) (seq 1 101) |}.

Definition demo_db : database :=
  [ table_t; entry "table" "sqlitex"; entry "table" "sqlite_sequence";
    entry "index" "idx_t_a"; entry "table" "users"; table_log ].

(** A table name that closes the quoted identifier and comments out
    what follows it. *)
Definition crafted_name : string := ("log" ++ dq ++ " --")%string.

(** [a.db] is a database, [notes.txt] is not, [new.db] does not exist
    but could be created, and nothing else exists or can be. *)
Definition demo_machine : machine :=
  boot [("a.db", Database demo_db); ("notes.txt", NotADatabase)] ["new.db"].

Definition fresh_ctx : context_td :=
  {| db := None;
     rows_view := Some {| tv_columns := []; tv_model := None |};
     tables_store := Some [];
     current_ncols := 0; current_colnames := None;
     current_tablename := None |}.

(** The context after [a.db] was opened and [t] loaded. *)
Definition loaded_ctx : context_td :=
  {| db := Some 1%nat;
     rows_view :=
       Some {| tv_columns := ["rowid"; "a"; "b"];
               tv_model := Some [["1"; "x"; "y"]; ["2"; "p"; "q"]] |};
     tables_store := Some [];
     current_ncols := 3;
     current_colnames := Some [Some "rowid"; Some "a"; Some "b"];
     current_tablename := Some "t" |}.

Definition demo_env : @env machine := start demo_machine [].

(** [a.db] is open. *)
Definition opened_ctx : context_td := set_db fresh_ctx (Some 1%nat).

Definition opened_env : @env machine :=
  env_after (db_open (Some fresh_ctx) "a.db" demo_env) demo_env.

(** The same, when the third allocation of the run fails. *)
Definition opened_env_nomem : @env machine :=
  env_after (db_open (Some fresh_ctx) "a.db" (start demo_machine [2%nat]))
    demo_env.

Definition three_names : list (option string) :=
  [Some "rowid"; Some "a"; Some "b"].

(** The environment a run from [opened_env] ends in. *)
Definition after {A : Type} (m : @M machine A) : @env machine :=
  env_after (m opened_env) opened_env.

(** [a.db] is open and its tables are listed. *)
Definition listed_ctx : context_td :=
  set_tables_store opened_ctx (Some [Some "log"; Some "t"; Some "users"]).

(** The same, once [t] is loaded. *)
Definition listed_loaded_ctx : context_td :=
  set_tables_store loaded_ctx (Some [Some "log"; Some "t"; Some "users"]).

(** Messages for the dialogs. *)
Definition demo_errmsg (h : sqlite3) (w : machine) : string :=
  "unable to open database file".

Definition demo_errstr (rc : Z) : string := "unknown error".

End Demo.

(** ** The callers of [db.c]: [ui.c] and [main.c]

    The handlers of [ui.c] are embedded from the point where GTK has
    answered: what the file chooser returned, which row is selected,
    which row a path names, and what the selection handler read when
    GTK ran it inside another call, are arguments.  The dialogs a
    handler shows are part of its result.  [sqlite3_errmsg] and
    [sqlite3_errstr] only supply the text of a dialog and are
    parameters. *)

Inductive dialog : Type :=
| ErrorDialog (msg : string)    (* [s_show_error_dialog] *)
| InfoDialog (msg : string).    (* [s_show_info_dialog] *)

(** What [s_on_table_selected] sets on the text renderer of a column:
    the ["editable"] property and the ["col-index"] datum. *)
Record renderer : Type := {
  editable : bool;
  col_index : Z
}.

Section UiC.

Context {W : Type} {E : External W}.

Variable sqlite3_errmsg : sqlite3 -> W -> string.
Variable sqlite3_errstr : Z -> string.

Local Abbreviation M := (@M W).

(** [s->db ? sqlite3_errmsg(s->db) : fallback], then
    [snprintf(msg, sizeof(msg), "<prefix>%s", errmsg)] into
    [char msg[1024]]. *)
Definition error_message (prefix : string) (h : option sqlite3)
  (fallback : string) : M string :=
  errmsg <- match h with
            | Some p => extread (sqlite3_errmsg p)
            | None => ret fallback
            end ;;
  ret (snd (snprintf 1024 (prefix ++ errmsg)%string)).

(** *** [s_on_table_selected] ([ui.c], lines 150-204)

    [selected] is the row of the tables list that is selected, if one
    is; the name is read from [tables_store].  The loop of lines
    170-197 visits the columns of the rows view, each with the one text
    renderer [db_populate_rows] gave it. *)
Fixpoint configure_renderers (cols : list string) (pos : Z) : list renderer :=
  match cols with
  | [] => []
  | _ :: l =>
      {| editable := negb (pos =? 0); col_index := pos |}
        :: configure_renderers l (pos + 1)
  end.

Definition selected_name (s : option context_td) (selected : option nat)
  : option string :=
  match s, selected with
  | Some c, Some i =>
      match tables_store c with
      | Some store =>
          match nth_error store i with
          | Some (Some name) => Some name
          | _ => None
          end
      | None => None
      end
  | _, _ => None
  end.

(** Lines 160-201: the handler once it has read the name [tname]. *)
Definition load_selected (fuel : nat) (s : option context_td)
  (tname : string) : M (list dialog * list renderer * option context_td) :=
  ' (rc, s1) <- db_populate_rows fuel s (Some tname) ;;
  match s1 with
  | None => undefined
  | Some c1 =>
      if negb (rc =? SQLITE_OK) then
        msg <- error_message "Failed to populate rows: " (db c1)
                 "Unknown DB error" ;;
        ret ([ErrorDialog msg], [], s1)
      else
        let cols := match rows_view c1 with
                    | Some v => tv_columns v
                    | None => []
                    end in
        ret ([], configure_renderers cols 0, s1)
  end.

Definition s_on_table_selected (fuel : nat) (s : option context_td)
  (selected : option nat)
  : M (list dialog * list renderer * option context_td) :=
  match selected with
  | None => ret ([], [], s)
  | Some i =>
      match s with
      | None => undefined    (* [gtk_tree_selection_get_selected] needs [s]'s
                                store; without [s] nothing is selected and
                                line 161 would read [s->db] *)
      | Some _ =>
          match selected_name s selected with
          | None => ret ([], [], s)
          | Some tname => load_selected fuel s tname
          end
      end
  end.

(** *** The tables list once [ui_build] has run

    Lines 333-337 of [ui_build] connect the selection of the tables
    view to [s_on_table_selected].  While line 130 of
    [db_fill_table_list] clears the store behind that view, GTK moves
    or drops the selection as the selected row goes, and runs the
    handler at each change, inside the call.  [reselected] lists what
    the handler read at each of these runs: the name of the row then
    selected, or nothing.  The dialogs of these runs are collected. *)
Fixpoint reselect (fuel : nat) (reselected : list (option string))
  (s : option context_td) : M (list dialog * option context_td) :=
  match reselected with
  | [] => ret ([], s)
  | None :: l => reselect fuel l s
  | Some tname :: l =>
      ' (d1, _, s1) <- load_selected fuel s tname ;;
      ' (d2, s2) <- reselect fuel l s1 ;;
      ret (d1 ++ d2, s2)
  end.

(** [db_fill_table_list] (lines 114-142 of [db.c]) with the handler
    connected. *)
Definition db_fill_table_list_connected (fuel : nat)
  (reselected : list (option string)) (s : option context_td)
  : M (list dialog * Z * option context_td) :=
  match s with
  | None => ret ([], SQLITE_MISUSE, s)
  | Some c =>
      match db c, tables_store c with
      | Some h, Some _ =>
          ' (rc, stmt) <- sqlite3_prepare_v2 h sql_list_tables ;;
          if negb (rc =? SQLITE_OK) then ret ([], rc, s)
          else
            ' (dlgs, s1) <- reselect fuel reselected s ;;   (* line 130 *)
            match s1 with
            | None => undefined
            | Some c1 =>
                store <- fill_table_loop fuel stmt [] ;;
                _ <- sqlite3_finalize stmt ;;
                ret (dlgs, SQLITE_OK, Some (set_tables_store c1 (Some store)))
            end
      | _, _ => ret ([], SQLITE_MISUSE, s)
      end
  end.

(** *** [s_on_open] ([ui.c], lines 217-269)

    [chosen] is the file name when the chooser was accepted and
    returned one.  The handler dereferences [s] at once. *)
Definition s_on_open (fuel : nat) (reselected : list (option string))
  (s : option context_td) (chosen : option string)
  : M (list dialog * option context_td) :=
  match s with
  | None => undefined
  | Some _ =>
      match chosen with
      | None => ret ([], s)
      | Some filename =>
          ok <- db_is_sqlite filename ;;
          if ok =? 0 then
            ret ([ErrorDialog
                    (snd (snprintf 1024
                            ("Cannot open file '" ++ filename
                             ++ "': not an SQLite database")%string))], s)
          else
            ' (rc, s1) <- db_open s filename ;;
            match s1 with
            | None => undefined
            | Some c1 =>
                if negb (rc =? SQLITE_OK) then
                  msg <- error_message "Failed to open database: " (db c1)
                           (sqlite3_errstr rc) ;;
                  s2 <- db_close s1 ;;
                  ret ([ErrorDialog msg], s2)
                else
                  ' (dlgs, rc, s2) <- db_fill_table_list_connected fuel
                                        reselected s1 ;;
                  match s2 with
                  | None => undefined
                  | Some c2 =>
                      if negb (rc =? SQLITE_OK) then
                        msg <- error_message
                                 "Opened database but failed to list tables: "
                                 (db c2) (sqlite3_errstr rc) ;;
                        ret (dlgs ++ [InfoDialog msg], s2)
                      else ret (dlgs, s2)
                  end
            end
      end
  end.

(** *** [s_on_cell_edited] ([ui.c], lines 99-136)

    [colidx] is the ["col-index"] datum of the renderer and [row] the
    row [path] names.  [gtk_tree_model_get_iter_from_string] fails when
    the view has no model or the model has no such row;
    [gtk_tree_model_get] leaves [rowid_text] NULL when the row has no
    column 0; [gtk_list_store_set] ignores a column the store does not
    have. *)
Definition store_set (rows : list (list string)) (row : nat) (colidx : Z)
  (text : string) : list (list string) :=
  match nth_error rows row with
  | Some r =>
      match array_store r colidx text with
      | Some r' => list_set rows row r'
      | None => rows
      end
  | None => rows
  end.

Definition s_on_cell_edited (s : option context_td) (colidx : Z)
  (row : nat) (new_text : string) : M (list dialog * option context_td) :=
  match s with
  | None => ret ([], s)
  | Some c =>
      match rows_view c with
      | None => ret ([], s)
      | Some v =>
          match tv_model v with
          | None => ret ([], s)
          | Some rows =>
              match nth_error rows row with
              | None => ret ([], s)
              | Some r =>
                  match array_load r 0 with
                  | None => ret ([], s)
                  | Some rowid_text =>
                      ' (rc, s1) <- db_apply_update_cell s colidx rowid_text
                                      new_text ;;
                      match s1 with
                      | None => undefined
                      | Some c1 =>
                          if negb (rc =? SQLITE_OK) then
                            msg <- error_message "Failed to update cell: "
                                     (db c1) "Unknown DB error" ;;
                            ret ([ErrorDialog msg], s1)
                          else
                            ret ([],
                                 Some (set_rows_view c1
                                         (Some {| tv_columns := tv_columns v;
                                                  tv_model :=
                                                    Some (store_set rows row
                                                            colidx new_text)
                                               |})))
                      end
                  end
              end
          end
      end
  end.

(** *** The end of [main] ([main.c], lines 32-33) *)
Definition main_cleanup (s : option context_td) : M (option context_td) :=
  s1 <- db_free_columns s ;;
  db_close s1.

End UiC.

(** ** Vocabulary of the further statements *)

(** The integers [i], [i + 1], ..., [n] of them. *)
Fixpoint zseq (i : Z) (n : nat) : list Z :=
  match n with
  | O => []
  | S n' => i :: zseq (i + 1) n'
  end.

(** The cells of the row a statement stands on, NULL read as the empty
    string, and the titles of its columns. *)
Definition row_cells {W : Type} {E : External W} (st : sqlite3_stmt)
  (ncol : Z) (w : W) : list string :=
  map (fun j => or_empty (ext_column_text st j w)) (zseq 0 (Z.to_nat ncol)).

Definition column_titles {W : Type} {E : External W} (st : sqlite3_stmt)
  (ncol : Z) (w : W) : list string :=
  map (fun j => or_empty (ext_column_name st j w)) (zseq 0 (Z.to_nat ncol)).

(** Stepping [st] from [w] returns [SQLITE_ROW] once for each element of
    the list, which is what [read] sees of each row, then another code,
    and ends in [w']. *)
Inductive yields {W : Type} {E : External W} {A : Type} (read : W -> A)
  (st : sqlite3_stmt) : W -> list A -> W -> Prop :=
| yields_end w :
    fst (ext_step st w) <> SQLITE_ROW ->
    yields read st w [] (snd (ext_step st w))
| yields_row w l w' :
    fst (ext_step st w) = SQLITE_ROW ->
    yields read st (snd (ext_step st w)) l w' ->
    yields read st w (read (snd (ext_step st w)) :: l) w'.

(** [yields], computed: what at most [fuel] steps of [st] from [w]
    give, if the statement ends within them. *)
Fixpoint steps_of {W : Type} {E : External W} {A : Type} (fuel : nat)
  (read : W -> A) (st : sqlite3_stmt) (w : W) : option (list A * W) :=
  match fuel with
  | O => None
  | S fuel' =>
      let r := ext_step st w in
      if fst r =? SQLITE_ROW then
        match steps_of fuel' read st (snd r) with
        | Some (l, w') => Some (read (snd r) :: l, w')
        | None => None
        end
      else Some ([], snd r)
  end.

(** The texts of the first [ncol] values of a row, a NULL or missing
    value read as the empty string. *)
Definition shown_row (ncol : Z) (r : list (option string)) : list string :=
  map (fun j => or_empty (match array_load r j with
                          | Some v => v
                          | None => None
                          end)) (zseq 0 (Z.to_nat ncol)).

(** The cell of a snapshot at a row and a column. *)
Definition cell (rows : list (list string)) (row : nat) (col : Z)
  : option string :=
  match nth_error rows row with
  | Some r => array_load r col
  | None => None
  end.

(** [ctx_wf], for a session that may be NULL. *)
Definition session_wf (s : option context_td) : Prop :=
  forall c, s = Some c -> ctx_wf c.

(** The session has a connection and nothing else changed. *)
Definition same_table_state (c c' : context_td) : Prop :=
  rows_view c' = rows_view c
  /\ tables_store c' = tables_store c
  /\ current_ncols c' = current_ncols c
  /\ current_colnames c' = current_colnames c
  /\ current_tablename c' = current_tablename c.

(** * Properties *)

Section Properties.

Context {W : Type} {E : External W}.

Implicit Types (c : context_td) (s : option context_td) (e : @env W).

(** ** Texts and buffers *)

Lemma substring_all (s : string) (n : nat) :
  (String.length s <= n)%nat -> substring 0 n s = s.
Proof.
  revert n; induction s as [|ch s IH]; intros [|n] H; simpl in *;
    try reflexivity; try lia.
  f_equal; apply IH; lia.
Qed.

Lemma fst_snprintf (size : Z) (full : string) :
  fst (snprintf size full)
  = if Z.of_nat (String.length full) <=? INT_MAX
    then Z.of_nat (String.length full) else -1.
Proof. reflexivity. Qed.

Lemma snd_snprintf (size : Z) (full : string) :
  snd (snprintf size full) = substring 0 (Z.to_nat (size - 1)) full.
Proof. reflexivity. Qed.

(** The text fits the buffer. *)
Lemma snprintf_fits (size : Z) (full : string) :
  0 <= fst (snprintf size full) < size -> snd (snprintf size full) = full.
Proof.
  rewrite fst_snprintf, snd_snprintf.
  destruct (Z.of_nat (String.length full) <=? INT_MAX); intros H; [|lia].
  apply substring_all; lia.
Qed.

(** The second [snprintf], into a block of [needed + 1] bytes. *)
Lemma snprintf_heap (size : Z) (full : string) :
  0 <= fst (snprintf size full) ->
  snd (snprintf (fst (snprintf size full) + 1) full) = full.
Proof.
  intros H; apply snprintf_fits.
  rewrite !fst_snprintf in *.
  destruct (Z.of_nat (String.length full) <=? INT_MAX); lia.
Qed.

(** ** Precondition failures *)

Lemma update_cell_rowid_is_noop_aux c h tablename a
  (rowid_text new_text : string) e :
  db c = Some h ->
  current_tablename c = Some tablename ->
  current_colnames c = Some a ->
  db_apply_update_cell (Some c) 0 rowid_text new_text e
  = Done (SQLITE_OK, Some c) e.
Proof.
  intros Hdb Htab Hcols.
  unfold db_apply_update_cell. rewrite Hdb, Htab, Hcols. reflexivity.
Qed.

(** C8. With a connection and a current table, [db_apply_update_cell]
    at column index 0 returns [SQLITE_OK] whatever the row identity and
    the new text are; the context, the engine and the log of calls are
    left as they were: no statement is prepared and nothing is stored. *)
Theorem update_cell_rowid_is_noop :
  forall c h tablename a (rowid_text new_text : string) e,
    db c = Some h ->
    current_tablename c = Some tablename ->
    current_colnames c = Some a ->
    db_apply_update_cell (Some c) 0 rowid_text new_text e
    = Done (SQLITE_OK, Some c) e.
Proof.
  intros c h tablename a rowid_text new_text e Hdb Htab Hcols.
  exact (update_cell_rowid_is_noop_aux c h tablename a rowid_text new_text e
           Hdb Htab Hcols).
Qed.

(** C10. When a precondition test of [db_populate_rows] (NULL context,
    no connection, no rows view, NULL table name) or of
    [db_apply_update_cell] (NULL context, no connection, no current
    table name, no column names) fails, the call returns
    [SQLITE_MISUSE] and the whole state is what it was: the context,
    the engine, the allocator and the log. *)
Theorem misuse_leaves_state_untouched :
  forall (fuel : nat) s (table : option string) (colidx : Z)
         (rowid_text new_text : string) e,
    (populate_precondition s table = false ->
     db_populate_rows fuel s table e = Done (SQLITE_MISUSE, s) e)
    /\ (update_precondition s = false ->
        db_apply_update_cell s colidx rowid_text new_text e
        = Done (SQLITE_MISUSE, s) e).
Proof.
  intros fuel s table colidx rowid_text new_text e; split; intros H.
  - unfold populate_precondition in H. unfold db_populate_rows.
    destruct s as [c|]; [|reflexivity].
    destruct (db c); [|reflexivity].
    destruct (rows_view c); [|reflexivity].
    destruct table; [discriminate H|reflexivity].
  - unfold update_precondition in H. unfold db_apply_update_cell.
    destruct s as [c|]; [|reflexivity].
    destruct (db c); [|reflexivity].
    destruct (current_tablename c); [|reflexivity].
    destruct (current_colnames c); [discriminate H|reflexivity].
Qed.

(** ** Closing *)

Lemma db_close_clears c e :
  exists e', db_close (Some c) e = Done (Some (set_db c None)) e'
             /\ world e' = match db c with
                           | Some h => snd (ext_close h (world e))
                           | None => world e
                           end.
Proof.
  unfold db_close. destruct (db c) as [h|] eqn:Hdb.
  - unfold bind, sqlite3_close, extcall.
    destruct (ext_close h (world e)) as [rc w] eqn:Hc.
    eexists; split; [reflexivity|reflexivity].
  - exists e; split; [|reflexivity].
    unfold ret. do 2 f_equal. destruct c; simpl in *; subst; reflexivity.
Qed.

(** C9. After an [db_open] that succeeded, [db_close] leaves the
    connection handle NULL; a second [db_close] changes nothing and
    makes no call; and [db_fill_table_list] and [db_populate_rows] on
    the closed session both return [SQLITE_MISUSE]. *)
Theorem close_after_open :
  forall c (filename : string) e s1 e1 (fuel : nat) (table : option string),
    db_open (Some c) filename e = Done (SQLITE_OK, s1) e1 ->
    exists c2 e2,
      db_close s1 e1 = Done (Some c2) e2
      /\ db c2 = None
      /\ db_close (Some c2) e2 = Done (Some c2) e2
      /\ db_fill_table_list fuel (Some c2) e2
         = Done (SQLITE_MISUSE, Some c2) e2
      /\ db_populate_rows fuel (Some c2) table e2
         = Done (SQLITE_MISUSE, Some c2) e2.
Proof.
  intros c filename e s1 e1 fuel table Hopen.
  assert (Hs1 : exists c1, s1 = Some c1).
  { unfold db_open, bind, sqlite3_close, sqlite3_open, extcall, ret in Hopen.
    destruct (db c) as [h0|];
      repeat match type of Hopen with
             | context [match ?x with _ => _ end] => destruct x
             end;
      try discriminate; inversion Hopen; subst; eauto. }
  destruct Hs1 as [c1 ->].
  destruct (db_close_clears c1 e1) as [e2 [Hclose _]].
  exists (set_db c1 None), e2. repeat split; try exact Hclose; reflexivity.
Qed.

(** ** Column indices *)

Lemma array_load_outside {A : Type} (a : list A) (i : Z) :
  i < 0 \/ Z.of_nat (List.length a) <= i -> array_load a i = None.
Proof.
  unfold array_load; intros [H|H].
  - destruct (0 <=? i) eqn:H0; [apply Z.leb_le in H0; lia|reflexivity].
  - destruct (i <? Z.of_nat (List.length a)) eqn:H1;
      [apply Z.ltb_lt in H1; lia|].
    rewrite andb_false_r; reflexivity.
Qed.

(** The one test on the column: an entry of the block that is NULL. *)
Lemma update_cell_null_name c h tablename a (colidx : Z)
  (rowid_text new_text : string) e :
  db c = Some h ->
  current_tablename c = Some tablename ->
  current_colnames c = Some a ->
  colidx <> 0 ->
  array_load a colidx = Some None ->
  db_apply_update_cell (Some c) colidx rowid_text new_text e
  = Done (SQLITE_MISUSE, Some c) e.
Proof.
  intros Hdb Htab Hcols Hz Hload.
  unfold db_apply_update_cell. rewrite Hdb, Htab, Hcols.
  destruct (colidx =? 0) eqn:H0; [apply Z.eqb_eq in H0; contradiction|].
  rewrite Hload. reflexivity.
Qed.

(** C1 (what the code does).  With a connection and a current table,
    a column index other than 0 that is negative or not below the number
    of stored column names makes line 265 read
    [current_colnames[colidx]] outside the allocated block: the call has
    no defined result, and in particular it does not return
    [SQLITE_MISUSE]. *)
Theorem update_cell_index_not_checked :
  forall c h tablename a (colidx : Z) (rowid_text new_text : string) e,
    db c = Some h ->
    current_tablename c = Some tablename ->
    current_colnames c = Some a ->
    colidx <> 0 ->
    colidx < 0 \/ Z.of_nat (List.length a) <= colidx ->
    db_apply_update_cell (Some c) colidx rowid_text new_text e = Undefined
    /\ db_apply_update_cell (Some c) colidx rowid_text new_text e
       <> Done (SQLITE_MISUSE, Some c) e.
Proof.
  intros c h tablename a colidx rowid_text new_text e Hdb Htab Hcols Hz Hout.
  assert (Hu : db_apply_update_cell (Some c) colidx rowid_text new_text e
               = Undefined).
  { unfold db_apply_update_cell. rewrite Hdb, Htab, Hcols.
    destruct (colidx =? 0) eqn:H0; [apply Z.eqb_eq in H0; contradiction|].
    rewrite (array_load_outside a colidx Hout). reflexivity. }
  split; [exact Hu|rewrite Hu; discriminate].
Qed.

(** ** Opening *)

(** C2 (as the code has it).  When [db_open] returns a code other than
    [SQLITE_OK], the connection the session held before the call has
    been closed and is not referenced any more; the handle in the
    context is the one [sqlite3_open] stored, NULL only when the engine
    stored none; the rest of the context is untouched; and the
    [db_close] that follows leaves the handle NULL. *)
Theorem open_failure_state :
  forall c (filename : string) e (rc : Z) s' e',
    db_open (Some c) filename e = Done (rc, s') e' ->
    rc <> SQLITE_OK ->
    let w1 := match db c with
              | Some h0 => snd (ext_close h0 (world e))
              | None => world e
              end in
    rc = fst (fst (ext_open filename w1))
    /\ s' = Some (set_db c (snd (fst (ext_open filename w1))))
    /\ calls e' = calls e
                  ++ match db c with Some h0 => [CallClose h0] | None => [] end
                  ++ [CallOpen filename]
    /\ exists e'', db_close s' e' = Done (Some (set_db c None)) e''.
Proof.
  intros c filename e rc s' e' Hopen _ w1; subst w1.
  unfold db_open, bind, sqlite3_close, sqlite3_open, extcall, ret in Hopen.
  destruct (db c) as [h0|] eqn:Hdb.
  - destruct (ext_close h0 (world e)) as [rc0 w0] eqn:Hc; simpl in Hopen.
    destruct (ext_open filename w0) as [[rc1 h1] w1] eqn:Ho.
    inversion Hopen; subst; simpl. rewrite Ho; simpl.
    repeat split; try reflexivity.
    + rewrite <- app_assoc; reflexivity.
    + destruct (db_close_clears (set_db (set_db c None) h1)
                  {| world := w1; alloc_ok := alloc_ok e;
                     alloc_count := alloc_count e;
                     calls := (calls e ++ [CallClose h0])
                              ++ [CallOpen filename] |}) as [e2 [H _]].
      exists e2; exact H.
  - destruct (ext_open filename (world e)) as [[rc1 h1] w1] eqn:Ho.
    inversion Hopen; subst; simpl.
    repeat split; try reflexivity.
    destruct (db_close_clears (set_db c h1)
                {| world := w1; alloc_ok := alloc_ok e;
                   alloc_count := alloc_count e;
                   calls := calls e ++ [CallOpen filename] |}) as [e2 [H _]].
    exists e2; exact H.
Qed.

(** ** Running a sequence *)

Lemma bind_inv {A B : Type} (m : @M W A) (k : A -> @M W B) e (b : B) e' :
  bind m k e = Done b e' ->
  exists a e1, m e = Done a e1 /\ k a e1 = Done b e'.
Proof.
  unfold bind. destruct (m e) as [a e1| |]; try discriminate. eauto.
Qed.

Lemma bind_done {A B : Type} (m : @M W A) (k : A -> @M W B) e (a : A) e1 :
  m e = Done a e1 -> bind m k e = k a e1.
Proof. unfold bind; intros ->; reflexivity. Qed.

Lemma bind_ret {A B : Type} (a : A) (k : A -> @M W B) e :
  bind (ret a) k e = k a e.
Proof. reflexivity. Qed.

Lemma bind_assoc {A B C : Type} (m : @M W A) (k1 : A -> @M W B)
  (k2 : B -> @M W C) e :
  bind (bind m k1) k2 e = bind m (fun a => bind (k1 a) k2) e.
Proof. unfold bind. destruct (m e); reflexivity. Qed.

Lemma bind_extcall {A B : Type} (cl : call) (f : W -> A * W)
  (k : A -> @M W B) e :
  bind (extcall cl f) k e
  = k (fst (f (world e)))
      {| world := snd (f (world e)); alloc_ok := alloc_ok e;
         alloc_count := alloc_count e; calls := calls e ++ [cl] |}.
Proof. unfold bind, extcall. destruct (f (world e)); reflexivity. Qed.

Lemma extcall_done {A : Type} (cl : call) (f : W -> A * W) e :
  extcall cl f e
  = Done (fst (f (world e)))
      {| world := snd (f (world e)); alloc_ok := alloc_ok e;
         alloc_count := alloc_count e; calls := calls e ++ [cl] |}.
Proof. unfold extcall. destruct (f (world e)); reflexivity. Qed.

Lemma sql_texts_app (l1 l2 : list call) :
  sql_texts (l1 ++ l2) = sql_texts l1 ++ sql_texts l2.
Proof. apply flat_map_app. Qed.

Lemma bound_values_app (l1 l2 : list call) :
  bound_values (l1 ++ l2) = bound_values l1 ++ bound_values l2.
Proof. apply flat_map_app. Qed.

(** One step of a run that ended: [H : (x <- m ;; k) e = Done b e'] is
    split into the run of [m] and the run of the rest. *)
Ltac step_in H a e1 Hm :=
  apply bind_inv in H; destruct H as (a & e1 & Hm & H);
  cbv beta iota zeta in H.

(** ** Building the fetch statement *)

Lemma db_free_columns_done c e s1 e1 :
  db_free_columns (Some c) e = Done s1 e1 ->
  s1 = Some (clear_columns c) /\ e1 = e.
Proof.
  unfold db_free_columns, clear_columns, undefined, ret.
  destruct (current_colnames c) as [a|] eqn:Hc.
  - destruct (Z.of_nat (List.length a) <? current_ncols c); [discriminate|].
    intros H; inversion H; subst; split; reflexivity.
  - intros H; inversion H; subst.
    unfold set_current_ncols, set_current_tablename; simpl.
    rewrite Hc; split; reflexivity.
Qed.

Lemma db_free_columns_wf c e :
  ctx_wf c -> db_free_columns (Some c) e = Done (Some (clear_columns c)) e.
Proof.
  intros Hwf. unfold db_free_columns, clear_columns, undefined, ret.
  destruct (current_colnames c) as [a|] eqn:Hc;
    [|unfold set_current_ncols, set_current_tablename; simpl;
      rewrite Hc; reflexivity].
  specialize (Hwf a Hc).
  destruct (Z.of_nat (List.length a) <? current_ncols c) eqn:Hlt;
    [apply Z.ltb_lt in Hlt; lia|reflexivity].
Qed.

Lemma allocated_0 e : allocated 0 e = e.
Proof. destruct e; reflexivity. Qed.

(** [s_make_select_rowid_all] always returns, touches neither the
    engine nor the log, and its result is NULL or the whole text. *)
Lemma s_make_select_rowid_all_done (table : string) e :
  exists r n,
    s_make_select_rowid_all table e = Done r (allocated n e)
    /\ (r = None \/ r = Some (fmt_select table SQL_QUERY_MAX_LIMIT)).
Proof.
  unfold s_make_select_rowid_all.
  set (full := fmt_select table SQL_QUERY_MAX_LIMIT).
  destruct (snprintf 256 full) as [needed buf] eqn:Hs.
  assert (Hn : needed = fst (snprintf 256 full)) by (rewrite Hs; reflexivity).
  assert (Hb : buf = snd (snprintf 256 full)) by (rewrite Hs; reflexivity).
  destruct (needed <? 0) eqn:Hneg.
  { exists None, 0%nat. rewrite allocated_0. split; [reflexivity|now left]. }
  apply Z.ltb_ge in Hneg.
  destruct (256 <=? needed) eqn:Hbig.
  - unfold bind, malloc, ret.
    destruct (alloc_ok e (alloc_count e) (needed + 1)); simpl.
    + exists (Some (snd (snprintf (needed + 1) full))), 1%nat.
      split; [reflexivity|right; f_equal].
      rewrite Hn. apply snprintf_heap. lia.
    + exists None, 1%nat. split; [reflexivity|now left].
  - apply Z.leb_gt in Hbig.
    unfold strdup, bind, malloc, ret.
    assert (Hfull : buf = full).
    { rewrite Hb. apply snprintf_fits. lia. }
    rewrite Hfull.
    destruct (alloc_ok e (alloc_count e)
                (Z.of_nat (String.length full) + 1)).
    + exists (Some full), 1%nat. split; [reflexivity|now right].
    + exists None, 1%nat. split; [reflexivity|now left].
Qed.

Lemma strdup_done (x : string) e :
  strdup x e
  = Done (if alloc_ok e (alloc_count e) (Z.of_nat (String.length x) + 1)
          then Some x else None) (allocated 1 e).
Proof. reflexivity. Qed.

Lemma calloc_done (n size : Z) e :
  exists r k, calloc n size e = Done r (allocated k e).
Proof.
  unfold calloc.
  destruct (SIZE_MAX <? n mod (SIZE_MAX + 1) * size).
  - exists None, 0%nat. rewrite allocated_0. reflexivity.
  - unfold bind, malloc, ret. eexists; exists 1%nat. reflexivity.
Qed.

(** ** A table load that fails *)

Lemma fmt_select_limit (t : string) :
  fmt_select t SQL_QUERY_MAX_LIMIT = select_statement t.
Proof. reflexivity. Qed.

(** What [calloc] returns depends on the allocator alone. *)
Lemma calloc_result (n size : Z) e1 e2 :
  alloc_ok e1 = alloc_ok e2 ->
  alloc_count e1 = alloc_count e2 ->
  result_of (calloc n size e1) = result_of (calloc n size e2).
Proof.
  intros Hok Hcnt. unfold calloc.
  destruct (SIZE_MAX <? n mod (SIZE_MAX + 1) * size); [reflexivity|].
  unfold bind, malloc, ret. cbn [result_of]. rewrite Hok, Hcnt. reflexivity.
Qed.

(** C4 (as the code has it).  When [db_populate_rows] has passed its
    precondition tests and returns a code other than [SQLITE_OK], the
    column names are cleared and the rows view has no model and no
    columns; the current table name is not cleared: it is the copy of
    the requested name made at line 181 (NULL only if that copy could
    not be allocated); and every later [db_apply_update_cell] on that
    session returns [SQLITE_MISUSE].  The column count is 0, but in one
    case: the text of the statement was allocated, the engine prepared
    it, and the allocation of the column array (line 208) failed; the
    code returned is then [SQLITE_NOMEM] and the count is the number of
    columns of the statement, stored at line 207.  In that case the
    count is never reset. *)
Theorem populate_failure_state :
  forall (fuel : nat) c h v (t : string) e (rc : Z) s' e',
    db c = Some h ->
    rows_view c = Some v ->
    db_populate_rows fuel (Some c) (Some t) e = Done (rc, s') e' ->
    rc <> SQLITE_OK ->
    exists c',
      s' = Some c'
      /\ current_colnames c' = None
      /\ current_tablename c'
         = (if alloc_ok e (alloc_count e) (Z.of_nat (String.length t) + 1)
            then Some t else None)
      /\ (current_ncols c' = 0
          \/ (rc = SQLITE_NOMEM
              /\ exists (n : nat) (st : option sqlite3_stmt) (w1 : W),
                   s_make_select_rowid_all t (allocated 1 e)
                   = Done (Some (select_statement t))
                       (allocated n (allocated 1 e))
                   /\ ext_prepare_v2 h (select_statement t) (world e)
                      = ((SQLITE_OK, st), w1)
                   /\ current_ncols c'
                      = match st with
                        | Some p => int_of (ext_column_count p w1)
                        | None => 0
                        end
                   /\ result_of (calloc (current_ncols c') sizeof_ptr
                                   (allocated n (allocated 1 e)))
                      = Some None))
      /\ (forall (n : nat) (st : option sqlite3_stmt) (w1 : W),
             s_make_select_rowid_all t (allocated 1 e)
             = Done (Some (select_statement t)) (allocated n (allocated 1 e)) ->
             ext_prepare_v2 h (select_statement t) (world e)
             = ((SQLITE_OK, st), w1) ->
             rc = SQLITE_NOMEM
             /\ current_ncols c'
                = match st with
                  | Some p => int_of (ext_column_count p w1)
                  | None => 0
                  end)
      /\ rows_view c' = Some empty_view
      /\ db c' = db c
      /\ forall (colidx : Z) (rowid_text new_text : string) e0,
           db_apply_update_cell (Some c') colidx rowid_text new_text e0
           = Done (SQLITE_MISUSE, Some c') e0.
Proof.
  intros fuel c h v t e rc s' e' Hdb Hview Hrun Hrc.
  assert (Hmis : forall c',
             current_colnames c' = None ->
             forall (colidx : Z) (rowid_text new_text : string) e0,
               db_apply_update_cell (Some c') colidx rowid_text new_text e0
               = Done (SQLITE_MISUSE, Some c') e0).
  { intros c' Hc' colidx rowid_text new_text e0.
    unfold db_apply_update_cell. rewrite Hc'.
    destruct (db c'); [|reflexivity].
    destruct (current_tablename c'); reflexivity. }
  unfold db_populate_rows in Hrun. rewrite Hdb, Hview in Hrun.
  step_in Hrun s1 e1 Hfree.
  apply db_free_columns_done in Hfree. destruct Hfree as [-> ->].
  step_in Hrun name e1 Hname.
  rewrite strdup_done in Hname. inversion Hname; subst name e1; clear Hname.
  step_in Hrun r e2 Hsql.
  destruct (s_make_select_rowid_all_done t (allocated 1 e))
    as [r' [n [Hsql' Hr]]].
  rewrite Hsql' in Hsql. inversion Hsql; subst r' e2. clear Hsql.
  rewrite fmt_select_limit in Hr.
  destruct Hr as [-> | ->].
  { unfold ret in Hrun. inversion Hrun; subst.
    eexists; split; [reflexivity|].
    split; [reflexivity|]. split; [reflexivity|]. split; [now left|].
    split.
    { intros n0 st w1 Htext _. rewrite Hsql' in Htext. discriminate Htext. }
    split; [reflexivity|]. split; [reflexivity|].
    apply Hmis; reflexivity. }
  step_in Hrun x e3 Hprep. destruct x as [rc0 stmt]. cbv beta iota in Hrun.
  unfold sqlite3_prepare_v2 in Hprep. rewrite extcall_done in Hprep.
  change (world (allocated n (allocated 1 e))) with (world e) in Hprep.
  destruct (ext_prepare_v2 h (select_statement t) (world e))
    as [[rc1 st1] w1] eqn:Hengine.
  cbn [fst snd] in Hprep. inversion Hprep; subst rc1 st1 e3. clear Hprep.
  destruct (rc0 =? SQLITE_OK) eqn:Hok; cbn [negb] in Hrun.
  2:{ unfold ret in Hrun. inversion Hrun; subst.
      eexists; split; [reflexivity|].
      split; [reflexivity|]. split; [reflexivity|]. split; [now left|].
      split.
      { intros n0 st w0 _ Hp. inversion Hp; subst.
        rewrite Z.eqb_refl in Hok. discriminate Hok. }
      split; [reflexivity|]. split; [reflexivity|].
      apply Hmis; reflexivity. }
  apply Z.eqb_eq in Hok. subst rc0.
  step_in Hrun ncol e4 Hcnt.
  assert (Hn : ncol = match stmt with
                      | Some p0 => int_of (ext_column_count p0 w1)
                      | None => 0
                      end
               /\ alloc_ok e4 = alloc_ok (allocated n (allocated 1 e))
               /\ alloc_count e4 = alloc_count (allocated n (allocated 1 e))).
  { destruct stmt as [p0|]; cbn [sqlite3_column_count] in Hcnt;
      unfold extread, ret in Hcnt; inversion Hcnt; subst;
      repeat split. }
  destruct Hn as [Hn [Hal Hac]].
  step_in Hrun blk e5 Hblk.
  assert (Hres : result_of (calloc ncol sizeof_ptr
                              (allocated n (allocated 1 e)))
                 = Some blk).
  { rewrite <- (calloc_result ncol sizeof_ptr e4 _ Hal Hac).
    rewrite Hblk. reflexivity. }
  destruct blk as [cnt|].
  - exfalso.
    step_in Hrun x e6 Hcols. destruct x as [a cols]. cbv beta iota in Hrun.
    step_in Hrun rows e7 Hrows.
    step_in Hrun rcf e8 Hfin.
    unfold ret in Hrun. inversion Hrun; subst.
    apply Hrc; reflexivity.
  - step_in Hrun rcf e6 Hfin.
    unfold ret in Hrun. inversion Hrun; subst rc s' e6.
    eexists; split; [reflexivity|].
    split; [reflexivity|]. split; [reflexivity|].
    cbn [current_ncols set_current_colnames set_current_ncols].
    split.
    { right. split; [reflexivity|]. exists n, stmt, w1.
      split; [exact Hsql'|]. split; [reflexivity|].
      split; [exact Hn|exact Hres]. }
    split.
    { intros n0 st w0 _ Hp. inversion Hp; subst st w0.
      split; [reflexivity|exact Hn]. }
    split; [reflexivity|]. split; [reflexivity|].
    apply Hmis; reflexivity.
Qed.

(** ** The update statement *)

(** Lines 270-290: the text of the statement, in the stack buffer or in
    a block of its own. *)
Lemma update_sql_done (full : string) (needed : Z) (sqlbuf : string) e :
  snprintf 512 full = (needed, sqlbuf) ->
  (needed <? 0) = false ->
  exists r n,
    (if 512 <=? needed then
       let len := needed + 1 in
       p <- malloc len ;;
       if negb p then ret None
       else ret (Some (snd (snprintf len full)))
     else ret (Some sqlbuf)) e = Done r (allocated n e)
    /\ (r = None \/ r = Some full).
Proof.
  intros Hs Hneg. apply Z.ltb_ge in Hneg.
  assert (Hn : needed = fst (snprintf 512 full)) by (rewrite Hs; reflexivity).
  assert (Hb : sqlbuf = snd (snprintf 512 full)) by (rewrite Hs; reflexivity).
  destruct (512 <=? needed) eqn:Hbig.
  - cbv zeta. unfold bind, malloc.
    destruct (alloc_ok e (alloc_count e) (needed + 1)); cbv beta iota.
    + exists (Some (snd (snprintf (needed + 1) full))), 1%nat.
      split; [reflexivity|right; f_equal].
      rewrite Hn. apply snprintf_heap. lia.
    + exists None, 1%nat. split; [reflexivity|now left].
  - apply Z.leb_gt in Hbig.
    exists (Some sqlbuf), 0%nat. rewrite allocated_0.
    split; [reflexivity|right; f_equal].
    rewrite Hb. apply snprintf_fits. lia.
Qed.

(** The two ways a call with a usable column index goes: it stops
    before the engine is reached, the same way whatever the values are,
    or it prepares the text made of the table and column names and
    nothing else. *)
Lemma update_cell_shape c h tablename a colname (colidx : Z) e :
  db c = Some h ->
  current_tablename c = Some tablename ->
  current_colnames c = Some a ->
  colidx <> 0 ->
  array_load a colidx = Some (Some colname) ->
  (exists rc n, forall rowid_text new_text : string,
      db_apply_update_cell (Some c) colidx rowid_text new_text e
      = Done (rc, Some c) (allocated n e))
  \/ (forall rowid_text new_text : string,
        exists rc e' tail,
          db_apply_update_cell (Some c) colidx rowid_text new_text e
          = Done (rc, Some c) e'
          /\ calls e'
             = calls e ++ CallPrepare h (fmt_update tablename colname) :: tail
          /\ sql_texts tail = []
          /\ (bound_values tail = []
              \/ bound_values tail = [(1, new_text); (2, rowid_text)])).
Proof.
  intros Hdb Htab Hcols Hz Hload.
  unfold db_apply_update_cell. rewrite Hdb, Htab, Hcols.
  destruct (colidx =? 0) eqn:H0; [apply Z.eqb_eq in H0; contradiction|].
  rewrite Hload.
  destruct (snprintf 512 (fmt_update tablename colname))
    as [needed sqlbuf] eqn:Hs.
  destruct (needed <? 0) eqn:Hneg.
  { left. exists SQLITE_ERROR, 0%nat. intros. rewrite allocated_0. reflexivity. }
  destruct (update_sql_done _ _ _ e Hs Hneg) as [r [n [Hsql Hr]]].
  destruct Hr as [-> | ->].
  { left. exists SQLITE_NOMEM, n. intros.
    rewrite (bind_done _ _ _ _ _ Hsql). reflexivity. }
  right. intros rowid_text new_text.
  rewrite (bind_done _ _ _ _ _ Hsql). cbv beta iota.
  unfold sqlite3_prepare_v2. rewrite bind_extcall.
  destruct (ext_prepare_v2 h (fmt_update tablename colname)
              (world (allocated n e))) as [[rc0 stmt] w2].
  cbv beta iota. unfold fst, snd.
  destruct (negb (rc0 =? SQLITE_OK)).
  - destruct stmt as [p|]; unfold sqlite3_finalize.
    + rewrite bind_extcall. unfold ret.
      eexists _, _, _. split; [reflexivity|]. simpl calls.
      split; [rewrite <- !app_assoc; reflexivity|].
      split; [reflexivity|left; reflexivity].
    + rewrite bind_ret. unfold ret.
      eexists _, _, _. split; [reflexivity|]. simpl calls.
      split; [reflexivity|].
      split; [reflexivity|left; reflexivity].
  - destruct stmt as [p|];
      unfold sqlite3_bind_text, sqlite3_step, sqlite3_finalize.
    + rewrite !bind_extcall.
      match goal with
      | |- context [negb (?x =? SQLITE_DONE)] =>
          destruct (negb (x =? SQLITE_DONE))
      end; unfold ret;
        (eexists _, _, _; split; [reflexivity|]; simpl calls;
         split; [rewrite <- !app_assoc; reflexivity|];
         split; [reflexivity|right; reflexivity]).
    + rewrite !bind_ret.
      destruct (negb (SQLITE_MISUSE =? SQLITE_DONE)); unfold ret;
        (eexists _, _, _; split; [reflexivity|]; simpl calls;
         split; [reflexivity|];
         split; [reflexivity|left; reflexivity]).
Qed.


(** ** Loading a table *)

Lemma int_of_range (z : Z) : INT_MIN <= int_of z <= INT_MAX.
Proof.
  unfold int_of, INT_MIN, INT_MAX.
  pose proof (Z.mod_pos_bound (z - -2147483648) (2 ^ 32) ltac:(lia)). lia.
Qed.

(** A block [calloc] returned for a count of type [int] has that many
    elements. *)
Lemma calloc_some (n : Z) e (cnt : nat) e' :
  INT_MIN <= n <= INT_MAX ->
  calloc n sizeof_ptr e = Done (Some cnt) e' ->
  0 <= n /\ cnt = Z.to_nat n /\ exists k, e' = allocated k e.
Proof.
  unfold calloc, sizeof_ptr, INT_MIN, INT_MAX, SIZE_MAX. intros Hr H.
  replace (2 ^ 64 - 1 + 1) with (2 ^ 64) in H by lia.
  destruct (Z_lt_le_dec n 0) as [Hneg|Hpos].
  - exfalso.
    assert (Hm : n mod 2 ^ 64 = n + 2 ^ 64).
    { symmetry. apply (Z.mod_unique n (2 ^ 64) (-1)); lia. }
    rewrite Hm in H.
    destruct (2 ^ 64 - 1 <? (n + 2 ^ 64) * 8) eqn:Hc;
      [unfold ret in H; discriminate|].
    apply Z.ltb_ge in Hc. lia.
  - rewrite (Z.mod_small n (2 ^ 64)) in H by lia.
    destruct (2 ^ 64 - 1 <? n * 8); [unfold ret in H; discriminate|].
    unfold bind, malloc, ret in H.
    destruct (alloc_ok e (alloc_count e) (n * 8)); inversion H; subst.
    repeat split; try lia. exists 1%nat. reflexivity.
Qed.

Lemma list_set_length {A : Type} (a : list A) (n : nat) (v : A) :
  List.length (list_set a n v) = List.length a.
Proof.
  revert n; induction a as [|x a IH]; intros [|n]; simpl; auto.
Qed.

Lemma column_name_done (stmt : option sqlite3_stmt) (i : Z) e :
  exists r, sqlite3_column_name stmt i e = Done r e.
Proof. destruct stmt; eexists; reflexivity. Qed.

Lemma column_text_done (stmt : option sqlite3_stmt) (i : Z) e :
  exists r, sqlite3_column_text stmt i e = Done r e.
Proof. destruct stmt; eexists; reflexivity. Qed.

(** The loop of lines 223-233 stays inside the block and only
    allocates. *)
Lemma make_columns_done (n : nat) :
  forall (i : Z) (stmt : option sqlite3_stmt) (a : list (option string))
         (cols : list string) e,
    0 <= i ->
    i + Z.of_nat n <= Z.of_nat (List.length a) ->
    exists a' cols' k,
      make_columns n i stmt a cols e = Done (a', cols') (allocated k e)
      /\ List.length a' = List.length a.
Proof.
  induction n as [|n IH]; intros i stmt a cols e Hi Hlen.
  - exists a, cols, 0%nat. rewrite allocated_0. split; reflexivity.
  - cbn [make_columns].
    destruct (column_name_done stmt i e) as [colname Hname].
    rewrite (bind_done _ _ _ _ _ Hname).
    rewrite (bind_done _ _ _ _ _ (strdup_done (or_empty colname) e)).
    unfold array_store.
    destruct (0 <=? i) eqn:H0; [|apply Z.leb_gt in H0; lia].
    destruct (i <? Z.of_nat (List.length a)) eqn:H1;
      [|apply Z.ltb_ge in H1; lia].
    cbn [andb].
    match goal with
    | |- context [list_set a (Z.to_nat i) ?v] =>
        destruct (IH (i + 1) stmt (list_set a (Z.to_nat i) v)
                    (cols ++ [or_empty colname]) (allocated 1 e))
          as [a' [cols' [k [Hrun Hl]]]]
    end.
    + lia.
    + rewrite list_set_length. lia.
    + exists a', cols', (k + 1)%nat. rewrite Hrun. split.
      * f_equal. unfold allocated; simpl. f_equal. lia.
      * rewrite Hl. apply list_set_length.
Qed.

(** Reading a row does not change anything. *)
Lemma read_row_done (n : nat) :
  forall (i : Z) (stmt : option sqlite3_stmt) (row : list string) e,
    exists row', read_row n i stmt row e = Done row' e.
Proof.
  induction n as [|n IH]; intros i stmt row e.
  - exists row; reflexivity.
  - cbn [read_row].
    destruct (column_text_done stmt i e) as [txt Htxt].
    rewrite (bind_done _ _ _ _ _ Htxt). apply IH.
Qed.

Lemma column_count_done (stmt : option sqlite3_stmt) e :
  exists ncol, sqlite3_column_count stmt e = Done ncol e
               /\ INT_MIN <= ncol <= INT_MAX.
Proof.
  destruct stmt as [p|].
  - eexists; split; [reflexivity|apply int_of_range].
  - exists 0; split; [reflexivity|unfold INT_MIN, INT_MAX; lia].
Qed.

Lemma finalize_done (stmt : option sqlite3_stmt) e :
  exists rc e', sqlite3_finalize stmt e = Done rc e'
                /\ sql_texts (calls e') = sql_texts (calls e).
Proof.
  destruct stmt as [p|]; unfold sqlite3_finalize.
  - rewrite extcall_done. eexists _, _. split; [reflexivity|]. simpl.
    rewrite sql_texts_app, app_nil_r. reflexivity.
  - eexists _, _. split; reflexivity.
Qed.

End Properties.

(** * The code on the reference engine *)

Section OnReferenceEngine.

Import Sqlite3Model Demo.

Implicit Types (c : context_td) (e : @env machine).

(** Runs the call to the engine at the head of the goal. *)
Ltac run_extcall :=
  match goal with
  | |- context [bind (extcall ?cl ?f) ?k ?e0] =>
      rewrite (bind_extcall cl f k e0)
  end.

(** ** Opening a file that does not exist *)

(** C2 (counterexample).  [a.db] is open; opening a path at which no
    file exists or can be created returns [SQLITE_CANTOPEN], and the
    context then holds the handle the failed open left, not NULL. *)
Lemma open_failure_keeps_handle :
  result_of (db_open (Some opened_ctx) "nowhere/x.db" opened_env)
  = Some (SQLITE_CANTOPEN, Some (set_db opened_ctx (Some 2%nat)))
  /\ SQLITE_CANTOPEN <> SQLITE_OK
  /\ db (set_db opened_ctx (Some 2%nat)) <> None.
Proof.
  split; [vm_compute; reflexivity|].
  split; [unfold SQLITE_CANTOPEN, SQLITE_OK; lia|discriminate].
Qed.


Lemma open_missing (filename : string) (w : machine) :
  assoc String.eqb filename (files w) = None ->
  ext_open filename w
  = if existsb (String.eqb filename) (creatable w)
    then ((SQLITE_OK, Some (next_id w)),
          with_conns (with_files w ((filename, Database []) :: files w))
            ((next_id w, Some filename) :: conns w) (S (next_id w)))
    else ((SQLITE_CANTOPEN, Some (next_id w)),
          with_conns w ((next_id w, None) :: conns w) (S (next_id w))).
Proof.
  intros H. cbn [ext_open engine]. unfold open, open_v2. rewrite H.
  change (has_flag (Z.lor SQLITE_OPEN_READWRITE SQLITE_OPEN_CREATE)
            SQLITE_OPEN_CREATE) with true.
  cbn [andb]. reflexivity.
Qed.

(** Closing a connection leaves the files alone. *)
Lemma close_files (h : sqlite3) (w : machine) :
  files (snd (ext_close h w)) = files w
  /\ creatable (snd (ext_close h w)) = creatable w.
Proof.
  cbn [ext_close engine]. unfold close.
  destruct (existsb _ (stmts w)); split; reflexivity.
Qed.


(** The read-only probe rejects such a path and creates nothing. *)
Lemma probe_missing_file (filename : string) e :
  assoc String.eqb filename (files (world e)) = None ->
  exists e', db_is_sqlite filename e = Done 0 e'
             /\ files (world e') = files (world e).
Proof.
  intros H. unfold db_is_sqlite, sqlite3_open_v2. run_extcall.
  cbn [ext_open_v2 engine]. unfold open_v2. rewrite H.
  change (has_flag (Z.lor SQLITE_OPEN_READONLY SQLITE_OPEN_URI)
            SQLITE_OPEN_CREATE) with false.
  cbn [andb fst snd]. cbv beta iota.
  change (negb (SQLITE_CANTOPEN =? SQLITE_OK)) with true. cbv iota.
  unfold sqlite3_close. run_extcall.
  eexists. split; [reflexivity|].
  cbn [world]. rewrite (proj1 (close_files _ _)). reflexivity.
Qed.

(** ** A table load that fails *)

(** C4 (counterexample).  [a.db] is open and has no table [nosuch]:
    loading it fails at [sqlite3_prepare_v2] and leaves [nosuch] as the
    current table name; and when the column array of [t] cannot be
    allocated the load fails with the table name and a column count of
    3 in place. *)
Lemma populate_failure_keeps_tablename :
  result_of (db_populate_rows 101 (Some opened_ctx) (Some "nosuch") opened_env)
  = Some (SQLITE_ERROR,
          Some (set_current_tablename opened_ctx (Some "nosuch")))
  /\ current_tablename (set_current_tablename opened_ctx (Some "nosuch"))
     <> None
  /\ result_of (db_populate_rows 101 (Some opened_ctx) (Some "t")
                  opened_env_nomem)
     = Some (SQLITE_NOMEM,
             Some (set_current_ncols
                     (set_current_tablename opened_ctx (Some "t")) 3)).
Proof.
  split; [vm_compute; reflexivity|].
  split; [discriminate|vm_compute; reflexivity].
Qed.

(** ** A table name with a double quote in it *)


(** ** Listing the tables *)

(** What the catalog query keeps and in which order. *)

Lemma like_percent (s : string) : like "%" s = true.
Proof.
  induction s as [|a s IH]; [reflexivity|].
  cbn in *. rewrite IH. reflexivity.
Qed.

(** A name that begins with [sqlite_] matches the pattern. *)
Lemma like_reserved_prefix (n : string) :
  prefix "sqlite_" n = true -> like "sqlite_%" n = true.
Proof.
  intros H.
  do 7 (destruct n as [|? n]; [discriminate H|];
        cbn [prefix] in H;
        match type of H with
        | context [ascii_dec ?a ?b] =>
            destruct (ascii_dec a b) as [<-|]; [|discriminate H]
        end).
  exact (like_percent n).
Qed.

Lemma in_insert_sorted (x y : string) (l : list string) :
  In y (insert_sorted x l) <-> y = x \/ In y l.
Proof.
  induction l as [|z l IH]; simpl.
  - intuition auto.
  - destruct (String.leb x z); simpl; [intuition auto|].
    rewrite IH. intuition auto.
Qed.

Lemma in_order_by (y : string) (l : list string) :
  In y (order_by l) <-> In y l.
Proof.
  induction l as [|x l IH]; simpl; [reflexivity|].
  rewrite in_insert_sorted, IH. intuition auto.
Qed.

Lemma insert_sorted_sorted (x : string) (l : list string) :
  Sorted leb_rel l -> Sorted leb_rel (insert_sorted x l).
Proof.
  induction l as [|y l IH]; intros Hs; simpl.
  - repeat constructor.
  - destruct (String.leb x y) eqn:Hxy.
    + constructor; [exact Hs|constructor; exact Hxy].
    + inversion Hs as [|? ? Hs' Hhd]; subst.
      constructor; [apply IH; exact Hs'|].
      destruct l as [|z l]; simpl.
      * constructor. destruct (String.leb_total x y) as [H|H];
          [rewrite H in Hxy; discriminate|exact H].
      * destruct (String.leb x z); constructor.
        -- destruct (String.leb_total x y) as [H|H];
             [rewrite H in Hxy; discriminate|exact H].
        -- inversion Hhd; assumption.
Qed.

Lemma order_by_sorted (l : list string) : Sorted leb_rel (order_by l).
Proof.
  induction l as [|x l IH]; simpl; [constructor|].
  apply insert_sorted_sorted; exact IH.
Qed.

Lemma insert_sorted_nodup (x : string) (l : list string) :
  ~ In x l -> NoDup l -> NoDup (insert_sorted x l).
Proof.
  induction l as [|y l IH]; intros Hx Hl; simpl.
  - repeat constructor. auto.
  - destruct (String.leb x y).
    + constructor; assumption.
    + inversion Hl; subst. constructor.
      * rewrite in_insert_sorted. simpl in Hx. intuition auto.
      * apply IH; [simpl in Hx; intuition auto|assumption].
Qed.

Lemma order_by_nodup (l : list string) : NoDup l -> NoDup (order_by l).
Proof.
  induction l as [|x l IH]; intros H; simpl; [constructor|].
  inversion H; subst.
  apply insert_sorted_nodup; [rewrite in_order_by; assumption|auto].
Qed.

Lemma sorted_nodup_strict (l : list string) :
  Sorted leb_rel l -> NoDup l ->
  Sorted (fun x y => String.ltb x y = true) l.
Proof.
  induction l as [|x l IH]; intros Hs Hn; [constructor|].
  inversion Hs as [|? ? Hs' Hhd]; subst. inversion Hn; subst.
  constructor; [apply IH; assumption|].
  destruct l as [|y l]; constructor.
  inversion Hhd as [|? ? Hxy]; subst.
  unfold leb_rel, String.leb in Hxy. unfold String.ltb.
  destruct (String.compare x y) eqn:Hc; try reflexivity; try discriminate.
  apply String.compare_eq_iff in Hc. subst. simpl in *. intuition auto.
Qed.

Lemma nodup_map_filter {A B : Type} (f : A -> B) (p q : A -> bool)
  (l : list A) :
  NoDup (map f (filter p l)) ->
  NoDup (map f (filter (fun x => (p x && q x)%bool) l)).
Proof.
  induction l as [|a l IH]; simpl; intros H; [constructor|].
  destruct (p a) eqn:Hp; simpl in *; [|apply IH; exact H].
  inversion H; subst. destruct (q a); simpl; [|apply IH; assumption].
  constructor; [|apply IH; assumption].
  intros Hin. match goal with Hn : ~ In _ _ |- _ => apply Hn end.
  apply in_map_iff in Hin. destruct Hin as [b [Hb Hin]].
  apply filter_In in Hin. destruct Hin as [Hin Hpq].
  apply andb_true_iff in Hpq. destruct Hpq as [Hpb _].
  apply in_map_iff. exists b. split; [exact Hb|].
  apply filter_In. split; assumption.
Qed.

(** The names the query lists are the tables of the catalog whose name
    does not match the pattern; none of them begins with [sqlite_]; and
    they come in strictly increasing order when the tables of the
    catalog have distinct names. *)
Lemma list_tables_query_spec (d : database) :
  (forall n,
      In n (list_tables_query d)
      <-> exists x : schema_entry,
                      In x d /\ e_type x = "table" /\ e_name x = n
                    /\ like "sqlite_%" n = false)
  /\ (forall n, In n (list_tables_query d) -> prefix "sqlite_" n = false)
  /\ (NoDup (map e_name (filter is_table d)) ->
      Sorted (fun x y => String.ltb x y = true) (list_tables_query d)).
Proof.
  assert (Hin : forall n,
             In n (list_tables_query d)
             <-> exists x : schema_entry,
                      In x d /\ e_type x = "table" /\ e_name x = n
                           /\ like "sqlite_%" n = false).
  { intros n. unfold list_tables_query. rewrite in_order_by, in_map_iff.
    split.
    - intros [e [Hn He]]. apply filter_In in He. destruct He as [He Hp].
      apply andb_true_iff in Hp. destruct Hp as [Ht Hl].
      apply String.eqb_eq in Ht. apply negb_true_iff in Hl.
      exists e. subst n. repeat split; assumption.
    - intros [e [He [Ht [Hn Hl]]]]. exists e. split; [exact Hn|].
      apply filter_In. split; [exact He|].
      apply andb_true_iff. split.
      + apply String.eqb_eq; exact Ht.
      + apply negb_true_iff. rewrite Hn; exact Hl. }
  split; [exact Hin|]. split.
  - intros n H. apply Hin in H. destruct H as [e [_ [_ [_ Hl]]]].
    destruct (prefix "sqlite_" n) eqn:Hp; [|reflexivity].
    apply like_reserved_prefix in Hp. rewrite Hp in Hl. discriminate.
  - intros Hnd. unfold list_tables_query.
    apply sorted_nodup_strict; [apply order_by_sorted|].
    apply order_by_nodup.
    apply (nodup_map_filter e_name is_table
             (fun x => negb (like "sqlite_%" (e_name x))) d Hnd).
Qed.

(** C7 (what the code does).  The catalog of [a.db] has the tables
    [t], [sqlitex], [sqlite_sequence], [users] and [log].  [sqlitex] does not
    begin with [sqlite_], yet [db_fill_table_list] leaves it out: in
    the pattern ['sqlite_%'] the underscore stands for any character. *)
Theorem list_tables_hides_user_table :
  result_of (db_fill_table_list 101 (Some opened_ctx) opened_env)
  = Some (SQLITE_OK,
          Some (set_tables_store opened_ctx
                  (Some [Some "log"; Some "t"; Some "users"])))
  /\ In (entry "table" "sqlitex") demo_db
  /\ prefix "sqlite_" "sqlitex" = false.
Proof.
  split; [vm_compute; reflexivity|].
  split; [simpl; auto|reflexivity].
Qed.

End OnReferenceEngine.

(** * The theorems at work on [a.db] *)

Section Instances.

Import Sqlite3Model Demo.

Lemma update_cell_index_not_checked_witness :
  db loaded_ctx = Some 1%nat
  /\ current_tablename loaded_ctx = Some "t"
  /\ current_colnames loaded_ctx = Some three_names
  /\ 3 <> 0
  /\ (3 < 0 \/ Z.of_nat (List.length three_names) <= 3)
  /\ db_apply_update_cell (Some loaded_ctx) 3 "1" "z" opened_env = Undefined
  /\ db_apply_update_cell (Some loaded_ctx) 3 "1" "z" opened_env
     <> Done (SQLITE_MISUSE, Some loaded_ctx) opened_env.
Proof.
  assert (H3 : 3 <> 0) by discriminate.
  assert (Hout : 3 < 0 \/ Z.of_nat (List.length three_names) <= 3)
    by (right; simpl; lia).
  repeat (split; [first [reflexivity | assumption]|]).
  apply (update_cell_index_not_checked loaded_ctx 1%nat "t" three_names 3
           "1" "z" opened_env eq_refl eq_refl eq_refl H3 Hout).
Defined.

Lemma open_failure_state_witness :
  db_open (Some opened_ctx) "nowhere/x.db" opened_env
  = Done (SQLITE_CANTOPEN, Some (set_db opened_ctx (Some 2%nat)))
      (after (db_open (Some opened_ctx) "nowhere/x.db"))
  /\ SQLITE_CANTOPEN <> SQLITE_OK
  /\ calls (after (db_open (Some opened_ctx) "nowhere/x.db"))
     = calls opened_env ++ [CallClose 1%nat] ++ [CallOpen "nowhere/x.db"]
  /\ exists e'',
       db_close (Some (set_db opened_ctx (Some 2%nat)))
         (after (db_open (Some opened_ctx) "nowhere/x.db"))
       = Done (Some (set_db opened_ctx None)) e''.
Proof.
  assert (Hrun : db_open (Some opened_ctx) "nowhere/x.db" opened_env
                 = Done (SQLITE_CANTOPEN,
                         Some (set_db opened_ctx (Some 2%nat)))
                     (after (db_open (Some opened_ctx) "nowhere/x.db")))
    by (vm_compute; reflexivity).
  assert (Hrc : SQLITE_CANTOPEN <> SQLITE_OK) by discriminate.
  destruct (open_failure_state opened_ctx "nowhere/x.db" opened_env
              SQLITE_CANTOPEN _ _ Hrun Hrc) as (_ & _ & Hcalls & Hclose).
  repeat split; assumption.
Defined.


Lemma populate_failure_state_witness :
  db opened_ctx = Some 1%nat
  /\ rows_view opened_ctx = Some empty_view
  /\ db_populate_rows 101 (Some opened_ctx) (Some "nosuch") opened_env
     = Done (SQLITE_ERROR,
             Some (set_current_tablename opened_ctx (Some "nosuch")))
         (after (db_populate_rows 101 (Some opened_ctx) (Some "nosuch")))
  /\ SQLITE_ERROR <> SQLITE_OK
  /\ exists c',
       Some (set_current_tablename opened_ctx (Some "nosuch")) = Some c'
       /\ current_colnames c' = None
       /\ current_tablename c'
          = (if alloc_ok opened_env (alloc_count opened_env)
                  (Z.of_nat (String.length "nosuch") + 1)
             then Some "nosuch" else None)
       /\ current_ncols c' = 0
       /\ rows_view c' = Some empty_view
       /\ db c' = db opened_ctx
       /\ forall (colidx : Z) (rowid_text new_text : string)
                 (e0 : @env machine),
            db_apply_update_cell (Some c') colidx rowid_text new_text e0
            = Done (SQLITE_MISUSE, Some c') e0.
Proof.
  assert (Hrun : db_populate_rows 101 (Some opened_ctx) (Some "nosuch")
                   opened_env
                 = Done (SQLITE_ERROR,
                         Some (set_current_tablename opened_ctx
                                 (Some "nosuch")))
                     (after (db_populate_rows 101 (Some opened_ctx)
                               (Some "nosuch"))))
    by (vm_compute; reflexivity).
  assert (Hrc : SQLITE_ERROR <> SQLITE_OK) by discriminate.
  repeat (split; [first [reflexivity | assumption]|]).
  destruct (populate_failure_state 101 opened_ctx 1%nat empty_view "nosuch"
              opened_env SQLITE_ERROR _ _ eq_refl eq_refl Hrun Hrc)
    as (c' & Hc & Hcols & Hname & Hcount & _ & Hview & Hdb & Hupd).
  exists c'. repeat (split; [assumption|]).
  split; [|split; [assumption|split; assumption]].
  destruct Hcount as [H0 | [Hbad _]]; [exact H0|discriminate Hbad].
Defined.


Lemma update_cell_rowid_is_noop_witness :
  db loaded_ctx = Some 1%nat
  /\ current_tablename loaded_ctx = Some "t"
  /\ current_colnames loaded_ctx = Some three_names
  /\ db_apply_update_cell (Some loaded_ctx) 0 "1" "z" opened_env
     = Done (SQLITE_OK, Some loaded_ctx) opened_env.
Proof.
  repeat (split; [reflexivity|]).
  apply (update_cell_rowid_is_noop loaded_ctx 1%nat "t" three_names "1" "z"
           opened_env eq_refl eq_refl eq_refl).
Defined.

Lemma close_after_open_witness :
  db_open (Some fresh_ctx) "a.db" demo_env
  = Done (SQLITE_OK, Some opened_ctx) opened_env
  /\ exists c2 e2,
       db_close (Some opened_ctx) opened_env = Done (Some c2) e2
       /\ db c2 = None
       /\ db_close (Some c2) e2 = Done (Some c2) e2
       /\ db_fill_table_list 101 (Some c2) e2
          = Done (SQLITE_MISUSE, Some c2) e2
       /\ db_populate_rows 101 (Some c2) (Some "t") e2
          = Done (SQLITE_MISUSE, Some c2) e2.
Proof.
  assert (Hopen : db_open (Some fresh_ctx) "a.db" demo_env
                  = Done (SQLITE_OK, Some opened_ctx) opened_env)
    by (vm_compute; reflexivity).
  split; [exact Hopen|].
  apply (close_after_open fresh_ctx "a.db" demo_env (Some opened_ctx)
           opened_env 101%nat (Some "t") Hopen).
Defined.

Lemma misuse_leaves_state_untouched_witness :
  populate_precondition (Some fresh_ctx) (Some "t") = false
  /\ update_precondition (Some fresh_ctx) = false
  /\ db_populate_rows 101 (Some fresh_ctx) (Some "t") demo_env
     = Done (SQLITE_MISUSE, Some fresh_ctx) demo_env
  /\ db_apply_update_cell (Some fresh_ctx) 2 "1" "z" demo_env
     = Done (SQLITE_MISUSE, Some fresh_ctx) demo_env.
Proof.
  destruct (misuse_leaves_state_untouched 101%nat (Some fresh_ctx) (Some "t")
              2 "1" "z" demo_env) as [Hp Hu].
  split; [reflexivity|]. split; [reflexivity|].
  split; [exact (Hp eq_refl)|exact (Hu eq_refl)].
Defined.

End Instances.

(** * Further properties of [db.c] and of its callers *)

Section MoreProperties.

Context {W : Type} {E : External W}.

Implicit Types (c : context_td) (s : option context_td) (e : @env W).

Ltac step_in H a e1 Hm :=
  apply bind_inv in H; destruct H as (a & e1 & Hm & H);
  cbv beta iota zeta in H.

Ltac run_extcall :=
  match goal with
  | |- context [bind (extcall ?cl ?f) ?k ?e0] =>
      rewrite (bind_extcall cl f k e0);
      cbn [world alloc_ok alloc_count calls]
  end.

(** ** [s_make_select_rowid_all] *)

(** X1. [s_make_select_rowid_all] returns NULL in two cases only: the
    text is longer than [INT_MAX], and then nothing is allocated; or
    the one allocation it makes, of the length of the text plus one
    byte on the stack-buffer path as on the heap path, fails. *)
Theorem select_builder_null_cases :
  forall (t : string) e,
    (INT_MAX < Z.of_nat (String.length (select_statement t)) ->
     s_make_select_rowid_all t e = Done None e)
    /\ (Z.of_nat (String.length (select_statement t)) <= INT_MAX ->
        s_make_select_rowid_all t e
        = Done (if alloc_ok e (alloc_count e)
                     (Z.of_nat (String.length (select_statement t)) + 1)
                then Some (select_statement t) else None)
            (allocated 1 e)).
Proof.
  intros t e. unfold s_make_select_rowid_all. rewrite fmt_select_limit.
  set (full := select_statement t).
  destruct (snprintf 256 full) as [needed buf] eqn:Hs.
  assert (Hn : needed = fst (snprintf 256 full)) by (rewrite Hs; reflexivity).
  assert (Hb : buf = snd (snprintf 256 full)) by (rewrite Hs; reflexivity).
  rewrite fst_snprintf in Hn.
  split; intros Hlen.
  - destruct (Z.of_nat (String.length full) <=? INT_MAX) eqn:Hle;
      [apply Z.leb_le in Hle; lia|].
    subst needed. reflexivity.
  - destruct (Z.of_nat (String.length full) <=? INT_MAX) eqn:Hle;
      [|apply Z.leb_gt in Hle; lia].
    destruct (needed <? 0) eqn:Hneg; [apply Z.ltb_lt in Hneg; lia|].
    destruct (256 <=? needed) eqn:Hbig.
    + unfold bind, malloc, ret. cbv zeta. rewrite <- Hn.
      destruct (alloc_ok e (alloc_count e) (needed + 1)); cbv beta iota;
        [|reflexivity].
      replace (snd (snprintf (needed + 1) full)) with full; [reflexivity|].
      symmetry. apply snprintf_fits. rewrite fst_snprintf.
      destruct (Z.of_nat (String.length full) <=? INT_MAX); lia.
    + apply Z.leb_gt in Hbig.
      assert (Hfull : buf = full).
      { rewrite Hb. apply snprintf_fits. rewrite fst_snprintf.
        destruct (Z.of_nat (String.length full) <=? INT_MAX); lia. }
      rewrite Hfull. rewrite strdup_done. reflexivity.
Qed.

(** ** [db_is_sqlite] *)

(** The calls of [db_is_sqlite], path by path. *)
Lemma db_is_sqlite_trace :
  forall (filename : string) e,
    let flags := Z.lor SQLITE_OPEN_READONLY SQLITE_OPEN_URI in
    let o := ext_open_v2 filename flags (world e) in
    exists r e' mid,
      db_is_sqlite filename e = Done r e'
      /\ (r = 0 \/ r = 1)
      /\ (r = 1 <->
          fst (fst o) = SQLITE_OK
          /\ exists h, snd (fst o) = Some h
                       /\ fst (fst (ext_prepare_v2 h sql_schema_version
                                      (snd o))) = SQLITE_OK)
      /\ alloc_count e' = alloc_count e
      /\ calls e'
         = calls e ++ CallOpenV2 filename flags :: mid
           ++ match snd (fst o) with Some h => [CallClose h] | None => [] end
      /\ (mid = []
          \/ exists h, snd (fst o) = Some h
                       /\ (mid = [CallPrepare h sql_schema_version]
                           /\ snd (fst (ext_prepare_v2 h sql_schema_version
                                          (snd o))) = None
                           \/ exists st,
                               snd (fst (ext_prepare_v2 h sql_schema_version
                                           (snd o))) = Some st
                               /\ mid = [CallPrepare h sql_schema_version;
                                         CallFinalize st])).
Proof.
  intros filename e flags o. subst o.
  unfold db_is_sqlite, sqlite3_open_v2. fold flags. run_extcall.
  destruct (ext_open_v2 filename flags (world e)) as [[rc tmp] w1] eqn:Hopen.
  cbn [fst snd]. cbv beta iota.
  destruct (rc =? SQLITE_OK) eqn:Hrc; cbn [negb].
  - apply Z.eqb_eq in Hrc. subst rc.
    destruct tmp as [h|].
    + unfold sqlite3_prepare_v2. run_extcall.
      destruct (ext_prepare_v2 h sql_schema_version w1)
        as [[rc2 stmt] w2] eqn:Hprep.
      cbn [fst snd]. cbv beta iota.
      assert (Hiff : forall r : Z,
                 r = (if rc2 =? SQLITE_OK then 1 else 0) ->
                 (r = 1 <->
                  SQLITE_OK = SQLITE_OK
                  /\ exists h0, Some h = Some h0
                                /\ fst (fst (ext_prepare_v2 h0
                                               sql_schema_version w1))
                                   = SQLITE_OK)).
      { intros r ->. split.
        - intros H. split; [reflexivity|]. exists h. split; [reflexivity|].
          rewrite Hprep. cbn [fst].
          destruct (rc2 =? SQLITE_OK) eqn:X;
            [apply Z.eqb_eq; exact X|discriminate H].
        - intros [_ [h0 [Hh Hp]]]. inversion Hh; subst h0.
          rewrite Hprep in Hp. cbn [fst] in Hp. subst rc2. reflexivity. }
      assert (Hmid : forall mid : list call,
                 mid = CallPrepare h sql_schema_version
                       :: match stmt with
                          | Some st => [CallFinalize st]
                          | None => []
                          end ->
                 mid = []
                 \/ exists h0, Some h = Some h0
                   /\ (mid = [CallPrepare h0 sql_schema_version]
                       /\ snd (fst (ext_prepare_v2 h0 sql_schema_version w1))
                          = None
                       \/ exists st,
                           snd (fst (ext_prepare_v2 h0 sql_schema_version w1))
                           = Some st
                           /\ mid = [CallPrepare h0 sql_schema_version;
                                     CallFinalize st])).
      { intros mid ->. right. exists h. split; [reflexivity|].
        rewrite Hprep. cbn [fst snd]. destruct stmt as [st|].
        - right. exists st. split; reflexivity.
        - left. split; reflexivity. }
      exists (if rc2 =? SQLITE_OK then 1 else 0).
      destruct stmt as [st|]; unfold sqlite3_finalize, sqlite3_close.
      * exists (allocated 0
                  {| world := snd (ext_close h (snd (ext_finalize st w2)));
                     alloc_ok := alloc_ok e; alloc_count := alloc_count e;
                     calls := calls e
                              ++ [CallOpenV2 filename flags;
                                  CallPrepare h sql_schema_version;
                                  CallFinalize st; CallClose h] |}),
          [CallPrepare h sql_schema_version; CallFinalize st].
        split.
        { destruct (rc2 =? SQLITE_OK); cbn [negb];
            repeat run_extcall; unfold ret; rewrite <- !app_assoc;
            reflexivity. }
        cbn [calls alloc_count allocated].
        split; [destruct (rc2 =? SQLITE_OK); [right|left]; reflexivity|].
        split; [apply Hiff; reflexivity|].
        split; [reflexivity|].
        split; [reflexivity|apply Hmid; reflexivity].
      * exists (allocated 0
                  {| world := snd (ext_close h w2);
                     alloc_ok := alloc_ok e; alloc_count := alloc_count e;
                     calls := calls e
                              ++ [CallOpenV2 filename flags;
                                  CallPrepare h sql_schema_version;
                                  CallClose h] |}),
          [CallPrepare h sql_schema_version].
        split.
        { destruct (rc2 =? SQLITE_OK); cbn [negb];
            rewrite bind_ret; run_extcall; unfold ret;
            rewrite <- !app_assoc; reflexivity. }
        cbn [calls alloc_count allocated].
        split; [destruct (rc2 =? SQLITE_OK); [right|left]; reflexivity|].
        split; [apply Hiff; reflexivity|].
        split; [reflexivity|].
        split; [reflexivity|apply Hmid; reflexivity].
    + unfold ret. exists 0; eexists; exists []. split; [reflexivity|].
      cbn [calls alloc_count]. split; [left; reflexivity|].
      split.
      { split; [intros H; discriminate H|].
        intros [_ [h' [Hh _]]]; discriminate Hh. }
      split; [reflexivity|]. split; [|left; reflexivity].
      rewrite app_nil_r. reflexivity.
  - destruct tmp as [h|]; unfold sqlite3_close;
      repeat first [run_extcall | rewrite bind_ret]; unfold ret;
      exists 0; eexists; exists []; (split; [reflexivity|]);
      cbn [calls alloc_count app]; (split; [left; reflexivity|]);
      (split;
       [split; [intros H; discriminate H|];
        intros [Hok _]; rewrite Hok in Hrc; discriminate Hrc|]);
      (split; [reflexivity|]);
      (split; [rewrite <- ?app_assoc, ?app_nil_r; reflexivity
              |left; reflexivity]).
Qed.

(** X2. [db_is_sqlite] always returns, 0 or 1, and 1 exactly when the
    read-only open and the preparation of the pragma both return
    [SQLITE_OK].  Whatever happens, the handle the open returned is
    closed by the last call, the statement the engine handed back is
    finalized, [sqlite3_open] is never called and nothing is
    allocated. *)
Theorem probe_releases_what_it_opens :
  forall (filename : string) e,
    let flags := Z.lor SQLITE_OPEN_READONLY SQLITE_OPEN_URI in
    let o := ext_open_v2 filename flags (world e) in
    exists r e' mid,
      db_is_sqlite filename e = Done r e'
      /\ (r = 0 \/ r = 1)
      /\ (r = 1 <->
          fst (fst o) = SQLITE_OK
          /\ exists h, snd (fst o) = Some h
                       /\ fst (fst (ext_prepare_v2 h sql_schema_version
                                      (snd o))) = SQLITE_OK)
      /\ alloc_count e' = alloc_count e
      /\ calls e'
         = calls e ++ CallOpenV2 filename flags :: mid
           ++ match snd (fst o) with Some h => [CallClose h] | None => [] end
      /\ (mid = []
          \/ exists h, snd (fst o) = Some h
                       /\ (mid = [CallPrepare h sql_schema_version]
                           /\ snd (fst (ext_prepare_v2 h sql_schema_version
                                          (snd o))) = None
                           \/ exists st,
                               snd (fst (ext_prepare_v2 h sql_schema_version
                                           (snd o))) = Some st
                               /\ mid = [CallPrepare h sql_schema_version;
                                         CallFinalize st])).
Proof. exact db_is_sqlite_trace. Qed.


(** ** [db_close] and [db_free_columns] *)

Lemma update_cell_without_connection c (colidx : Z)
  (rowid_text new_text : string) e :
  db c = None ->
  db_apply_update_cell (Some c) colidx rowid_text new_text e
  = Done (SQLITE_MISUSE, Some c) e.
Proof. intros H. unfold db_apply_update_cell. rewrite H. reflexivity. Qed.

Lemma update_cell_without_columns c (colidx : Z)
  (rowid_text new_text : string) e :
  current_colnames c = None ->
  db_apply_update_cell (Some c) colidx rowid_text new_text e
  = Done (SQLITE_MISUSE, Some c) e.
Proof.
  intros H. unfold db_apply_update_cell. rewrite H.
  destruct (db c); [|reflexivity].
  destruct (current_tablename c); reflexivity.
Qed.

(** X3. [db_close] always returns, on any session: it calls the engine
    once, to close the handle the session holds, or not at all when
    there is none; it allocates nothing and changes no other field of
    the context, so the current table stays recorded; and every
    [db_apply_update_cell] after it returns [SQLITE_MISUSE] without
    reaching the engine. *)
Theorem close_always_returns :
  forall c e,
    exists e',
      db_close (Some c) e = Done (Some (set_db c None)) e'
      /\ calls e' = calls e
                    ++ match db c with Some h => [CallClose h] | None => [] end
      /\ alloc_count e' = alloc_count e
      /\ same_table_state c (set_db c None)
      /\ db_close None e = Done None e
      /\ forall (colidx : Z) (rowid_text new_text : string) e0,
           db_apply_update_cell (Some (set_db c None)) colidx rowid_text
             new_text e0
           = Done (SQLITE_MISUSE, Some (set_db c None)) e0.
Proof.
  intros c e.
  assert (Hmis : forall (colidx : Z) (rowid_text new_text : string) e0,
             db_apply_update_cell (Some (set_db c None)) colidx rowid_text
               new_text e0
             = Done (SQLITE_MISUSE, Some (set_db c None)) e0)
    by (intros; apply update_cell_without_connection; reflexivity).
  assert (Hsame : same_table_state c (set_db c None))
    by (repeat split).
  unfold db_close. destruct (db c) as [h|] eqn:Hdb.
  - unfold sqlite3_close. run_extcall. unfold ret.
    eexists. split; [reflexivity|]. cbn [calls alloc_count].
    repeat split; try assumption; apply Hsame.
  - exists e. rewrite app_nil_r. unfold ret.
    split; [|repeat split; try assumption; apply Hsame].
    do 2 f_equal. destruct c; cbn in *; subst; reflexivity.
Qed.

(** X4. On a context whose column count fits its column block,
    [db_free_columns] returns with the table name, the column names and
    the column count cleared, and the connection, the rows view and the
    tables list as they were; it reaches neither the engine nor the
    allocator; running it again changes nothing; and every
    [db_apply_update_cell] after it returns [SQLITE_MISUSE]. *)
Theorem free_columns_clears_once :
  forall c e,
    ctx_wf c ->
    db_free_columns (Some c) e = Done (Some (clear_columns c)) e
    /\ db_free_columns (Some (clear_columns c)) e
       = Done (Some (clear_columns c)) e
    /\ ctx_wf (clear_columns c)
    /\ db (clear_columns c) = db c
    /\ rows_view (clear_columns c) = rows_view c
    /\ tables_store (clear_columns c) = tables_store c
    /\ forall (colidx : Z) (rowid_text new_text : string) e0,
         db_apply_update_cell (Some (clear_columns c)) colidx rowid_text
           new_text e0
         = Done (SQLITE_MISUSE, Some (clear_columns c)) e0.
Proof.
  intros c e Hwf.
  assert (Hwf' : ctx_wf (clear_columns c))
    by (intros a Ha; discriminate Ha).
  split; [apply db_free_columns_wf; exact Hwf|].
  split; [apply (db_free_columns_wf (clear_columns c) e Hwf')|].
  repeat split; try assumption.
  intros. apply update_cell_without_columns. reflexivity.
Qed.

(** An index past the column block is what makes it undefined. *)
Lemma free_columns_undefined c (a : list (option string)) e :
  current_colnames c = Some a ->
  Z.of_nat (List.length a) < current_ncols c ->
  db_free_columns (Some c) e = Undefined.
Proof.
  intros Ha Hlt. unfold db_free_columns. rewrite Ha.
  destruct (Z.of_nat (List.length a) <? current_ncols c) eqn:H;
    [reflexivity|apply Z.ltb_ge in H; lia].
Qed.

(** ** [db_apply_update_cell], call by call *)

(** What a call that reaches line 270 does, whatever the engine
    answers. *)
Lemma update_cell_trace c h tablename a colname (colidx : Z)
  (rowid_text new_text : string) e :
  db c = Some h ->
  current_tablename c = Some tablename ->
  current_colnames c = Some a ->
  colidx <> 0 ->
  array_load a colidx = Some (Some colname) ->
  exists rc e',
    db_apply_update_cell (Some c) colidx rowid_text new_text e
    = Done (rc, Some c) e'
    /\ ((calls e' = calls e
         /\ world e' = world e
         /\ (rc = SQLITE_ERROR \/ rc = SQLITE_NOMEM))
        \/ (let q := fmt_update tablename colname in
            let p := ext_prepare_v2 h q (world e) in
            match snd (fst p) with
            | None =>
                calls e' = calls e ++ [CallPrepare h q]
                /\ rc <> SQLITE_OK
            | Some st =>
                if fst (fst p) =? SQLITE_OK then
                  let w2 := snd (ext_bind_text st 1 new_text (snd p)) in
                  let w3 := snd (ext_bind_text st 2 rowid_text w2) in
                  calls e'
                  = calls e ++ [CallPrepare h q;
                                CallBindText st 1 new_text;
                                CallBindText st 2 rowid_text;
                                CallStep st; CallFinalize st]
                  /\ rc = (if fst (ext_step st w3) =? SQLITE_DONE
                           then SQLITE_OK else fst (ext_step st w3))
                else
                  calls e' = calls e ++ [CallPrepare h q; CallFinalize st]
                  /\ rc = fst (fst p)
            end)).
Proof.
  intros Hdb Htab Hcols Hz Hload.
  unfold db_apply_update_cell. rewrite Hdb, Htab, Hcols.
  destruct (colidx =? 0) eqn:H0; [apply Z.eqb_eq in H0; contradiction|].
  rewrite Hload.
  destruct (snprintf 512 (fmt_update tablename colname))
    as [needed sqlbuf] eqn:Hs.
  destruct (needed <? 0) eqn:Hneg.
  { exists SQLITE_ERROR, e. split; [reflexivity|].
    left. repeat split. left; reflexivity. }
  destruct (update_sql_done _ _ _ e Hs Hneg) as [r [n [Hsql Hr]]].
  rewrite (bind_done _ _ _ _ _ Hsql).
  destruct Hr as [-> | ->].
  { exists SQLITE_NOMEM, (allocated n e). split; [reflexivity|].
    left. repeat split. right; reflexivity. }
  cbv beta iota.
  unfold sqlite3_prepare_v2. run_extcall.
  change (world (allocated n e)) with (world e).
  destruct (ext_prepare_v2 h (fmt_update tablename colname) (world e))
    as [[rc0 stmt] w1] eqn:Hprep.
  cbn [fst snd]. cbv beta iota zeta.
  destruct stmt as [st|];
    unfold sqlite3_finalize, sqlite3_bind_text, sqlite3_step.
  - destruct (rc0 =? SQLITE_OK) eqn:Hok; cbn [negb].
    + repeat run_extcall.
      match goal with
      | |- context [negb (?x =? SQLITE_DONE)] =>
          destruct (x =? SQLITE_DONE) eqn:Hdone
      end; cbn [negb]; unfold ret;
        (eexists _, _; split; [reflexivity|]); right;
        cbn [calls]; (split; [rewrite <- !app_assoc; reflexivity|]);
        reflexivity.
    + run_extcall. unfold ret.
      eexists _, _. split; [reflexivity|]. right. cbn [calls].
      split; [rewrite <- !app_assoc; reflexivity|reflexivity].
  - destruct (rc0 =? SQLITE_OK) eqn:Hok; cbn [negb];
      rewrite ?bind_ret; unfold ret;
      (eexists _, _; split; [reflexivity|]); right; cbn [calls];
      (split; [reflexivity|]).
    + discriminate.
    + intros H. rewrite H in Hok. discriminate Hok.
Qed.

(** X5. [db_apply_update_cell] never changes the session, whatever it
    returns.  Either it stops before the engine is reached, or it
    prepares the update statement for the stored table and column
    names, once, and then what it does follows what
    [sqlite3_prepare_v2] gave back.  With no statement, nothing more is
    called and the result is not [SQLITE_OK].  With a statement and a
    code other than [SQLITE_OK], that statement is finalized and the
    code returned.  With a statement and [SQLITE_OK], the new text is
    bound at index 1 and the row identity at index 2, the statement is
    stepped once and finalized.  So a statement the engine gave is
    finalized on every path, none is stepped before both values are
    bound, and there is at most one. *)
Theorem update_cell_call_sequences :
  forall s (colidx : Z) (rowid_text new_text : string) e (rc : Z) s' e',
    db_apply_update_cell s colidx rowid_text new_text e = Done (rc, s') e' ->
    s' = s
    /\ ((calls e' = calls e /\ world e' = world e)
        \/ exists c h tablename a colname,
             s = Some c
             /\ db c = Some h
             /\ current_tablename c = Some tablename
             /\ current_colnames c = Some a
             /\ array_load a colidx = Some (Some colname)
             /\ let q := fmt_update tablename colname in
                let p := ext_prepare_v2 h q (world e) in
                match snd (fst p) with
                | None =>
                    calls e' = calls e ++ [CallPrepare h q]
                    /\ rc <> SQLITE_OK
                | Some st =>
                    if fst (fst p) =? SQLITE_OK then
                      let w2 := snd (ext_bind_text st 1 new_text (snd p)) in
                      let w3 := snd (ext_bind_text st 2 rowid_text w2) in
                      calls e'
                      = calls e ++ [CallPrepare h q;
                                    CallBindText st 1 new_text;
                                    CallBindText st 2 rowid_text;
                                    CallStep st; CallFinalize st]
                      /\ rc = (if fst (ext_step st w3) =? SQLITE_DONE
                               then SQLITE_OK else fst (ext_step st w3))
                    else
                      calls e' = calls e ++ [CallPrepare h q; CallFinalize st]
                      /\ rc = fst (fst p)
                end).
Proof.
  intros s colidx rowid_text new_text e rc s' e' Hrun.
  assert (Hquiet : forall rc0,
             db_apply_update_cell s colidx rowid_text new_text e
             = Done (rc0, s) e ->
             s' = s /\ e' = e).
  { intros rc0 H. rewrite H in Hrun. inversion Hrun; subst.
    split; reflexivity. }
  assert (Hstop : s' = s /\ e' = e ->
                  s' = s
                  /\ ((calls e' = calls e /\ world e' = world e)
                      \/ exists c h tablename a colname,
                           s = Some c
                           /\ db c = Some h
                           /\ current_tablename c = Some tablename
                           /\ current_colnames c = Some a
                           /\ array_load a colidx = Some (Some colname)
                           /\ let q := fmt_update tablename colname in
                              let p := ext_prepare_v2 h q (world e) in
                              match snd (fst p) with
                              | None =>
                                  calls e' = calls e ++ [CallPrepare h q]
                                  /\ rc <> SQLITE_OK
                              | Some st =>
                                  if fst (fst p) =? SQLITE_OK then
                                    let w2 := snd (ext_bind_text st 1 new_text
                                                     (snd p)) in
                                    let w3 := snd (ext_bind_text st 2
                                                     rowid_text w2) in
                                    calls e'
                                    = calls e
                                      ++ [CallPrepare h q;
                                          CallBindText st 1 new_text;
                                          CallBindText st 2 rowid_text;
                                          CallStep st; CallFinalize st]
                                    /\ rc = (if fst (ext_step st w3)
                                                =? SQLITE_DONE
                                             then SQLITE_OK
                                             else fst (ext_step st w3))
                                  else
                                    calls e'
                                    = calls e
                                      ++ [CallPrepare h q; CallFinalize st]
                                    /\ rc = fst (fst p)
                              end)).
  { intros [-> ->]. split; [reflexivity|]. left. split; reflexivity. }
  destruct s as [c|];
    [|apply Hstop; apply (Hquiet SQLITE_MISUSE); reflexivity].
  destruct (db c) as [h|] eqn:Hdb;
    [|apply Hstop; apply (Hquiet SQLITE_MISUSE);
      apply update_cell_without_connection; exact Hdb].
  destruct (current_colnames c) as [a|] eqn:Hcols;
    [|apply Hstop; apply (Hquiet SQLITE_MISUSE);
      apply update_cell_without_columns; exact Hcols].
  destruct (current_tablename c) as [tablename|] eqn:Htab;
    [|apply Hstop; apply (Hquiet SQLITE_MISUSE); unfold db_apply_update_cell;
      rewrite Hdb, Htab; reflexivity].
  destruct (Z.eq_dec colidx 0) as [->|Hz];
    [apply Hstop; apply (Hquiet SQLITE_OK);
     apply (update_cell_rowid_is_noop_aux c h tablename a); assumption|].
  destruct (array_load a colidx) as [[colname|]|] eqn:Hload.
  - clear Hstop Hquiet.
    destruct (update_cell_trace c h tablename a colname colidx rowid_text
                new_text e Hdb Htab Hcols Hz Hload)
      as [rc1 [e1 [Hrun1 Hshape]]].
    rewrite Hrun1 in Hrun. inversion Hrun; subst rc1 s' e1.
    split; [reflexivity|].
    destruct Hshape as [[Hc [Hw _]] | Hshape].
    { left. split; assumption. }
    right. exists c, h, tablename, a, colname.
    repeat (split; [first [reflexivity | assumption]|]).
    exact Hshape.
  - apply Hstop. apply (Hquiet SQLITE_MISUSE).
    apply (update_cell_null_name c h tablename a); assumption.
  - exfalso. unfold db_apply_update_cell in Hrun.
    rewrite Hdb, Htab, Hcols in Hrun.
    destruct (colidx =? 0) eqn:H0; [apply Z.eqb_eq in H0; contradiction|].
    rewrite Hload in Hrun. discriminate Hrun.
Qed.

(** X6. When [db_apply_update_cell] returns [SQLITE_OK] for a column
    index other than 0, the statement was prepared from the stored
    table and column names, both values were bound, and the step
    returned [SQLITE_DONE] (or [SQLITE_OK] itself, which the test of
    line 305 lets through): success is the engine's word that the
    statement ran to completion. *)
Theorem update_cell_ok_means_done :
  forall c (colidx : Z) (rowid_text new_text : string) e s' e',
    db_apply_update_cell (Some c) colidx rowid_text new_text e
    = Done (SQLITE_OK, s') e' ->
    colidx <> 0 ->
    exists h tablename a colname st,
      db c = Some h
      /\ current_tablename c = Some tablename
      /\ current_colnames c = Some a
      /\ array_load a colidx = Some (Some colname)
      /\ ext_prepare_v2 h (fmt_update tablename colname) (world e)
         = ((SQLITE_OK, Some st),
            snd (ext_prepare_v2 h (fmt_update tablename colname) (world e)))
      /\ calls e'
         = calls e ++ [CallPrepare h (fmt_update tablename colname);
                       CallBindText st 1 new_text;
                       CallBindText st 2 rowid_text;
                       CallStep st; CallFinalize st]
      /\ let w1 := snd (ext_prepare_v2 h (fmt_update tablename colname)
                          (world e)) in
         let w2 := snd (ext_bind_text st 1 new_text w1) in
         let w3 := snd (ext_bind_text st 2 rowid_text w2) in
         fst (ext_step st w3) = SQLITE_DONE
         \/ fst (ext_step st w3) = SQLITE_OK.
Proof.
  intros c colidx rowid_text new_text e s' e' Hrun Hz.
  destruct (db c) as [h|] eqn:Hdb;
    [|rewrite update_cell_without_connection in Hrun by exact Hdb;
      discriminate Hrun].
  destruct (current_colnames c) as [a|] eqn:Hcols;
    [|rewrite update_cell_without_columns in Hrun by exact Hcols;
      discriminate Hrun].
  destruct (current_tablename c) as [tablename|] eqn:Htab;
    [|unfold db_apply_update_cell in Hrun; rewrite Hdb, Htab in Hrun;
      discriminate Hrun].
  destruct (array_load a colidx) as [[colname|]|] eqn:Hload.
  - destruct (update_cell_trace c h tablename a colname colidx rowid_text
                new_text e Hdb Htab Hcols Hz Hload)
      as [rc1 [e1 [Hrun1 Hshape]]].
    rewrite Hrun1 in Hrun. inversion Hrun; subst rc1 s' e1.
    destruct Hshape as [[_ [_ [H|H]]] | Hshape]; try discriminate H.
    cbv zeta in Hshape.
    destruct (ext_prepare_v2 h (fmt_update tablename colname) (world e))
      as [[rc0 stmt] w1] eqn:Hprep.
    cbn [fst snd] in Hshape.
    destruct stmt as [st|]; [|destruct Hshape as [_ H]; contradiction].
    destruct (rc0 =? SQLITE_OK) eqn:Hok.
    + apply Z.eqb_eq in Hok. subst rc0.
      destruct Hshape as [Hc Hrc].
      exists h, tablename, a, colname, st.
      rewrite !Hprep. cbn [snd].
      repeat split; try reflexivity; try assumption.
      destruct (fst (ext_step st
                       (snd (ext_bind_text st 2 rowid_text
                               (snd (ext_bind_text st 1 new_text w1)))))
                =? SQLITE_DONE) eqn:Hd.
      * left. apply Z.eqb_eq. exact Hd.
      * right. symmetry. exact Hrc.
    + destruct Hshape as [_ Hrc]. subst rc0. discriminate Hok.
  - rewrite (update_cell_null_name c h tablename a colidx rowid_text
               new_text e Hdb Htab Hcols Hz Hload) in Hrun.
    discriminate Hrun.
  - unfold db_apply_update_cell in Hrun. rewrite Hdb, Htab, Hcols in Hrun.
    destruct (colidx =? 0) eqn:H0; [apply Z.eqb_eq in H0; contradiction|].
    rewrite Hload in Hrun. discriminate Hrun.
Qed.

(** ** [db_open] and the current table *)

(** What [db_open] and [db_close] return and call. *)
Lemma db_open_done c (filename : string) e :
  let w0 := match db c with
            | Some h0 => snd (ext_close h0 (world e))
            | None => world e
            end in
  let o := ext_open filename w0 in
  exists e',
    db_open (Some c) filename e
    = Done (fst (fst o), Some (set_db c (snd (fst o)))) e'
    /\ world e' = snd o
    /\ alloc_ok e' = alloc_ok e
    /\ alloc_count e' = alloc_count e
    /\ calls e'
       = calls e
         ++ match db c with Some h0 => [CallClose h0] | None => [] end
         ++ [CallOpen filename].
Proof.
  intros w0 o. subst o w0. unfold db_open. destruct (db c) as [h0|] eqn:Hdb.
  - unfold sqlite3_close, sqlite3_open. rewrite bind_assoc. run_extcall.
    rewrite bind_ret. run_extcall. unfold ret.
    destruct (ext_open filename (snd (ext_close h0 (world e))))
      as [[rc h1] w1].
    cbn [fst snd].
    eexists. split; [reflexivity|]. cbn [world calls alloc_ok alloc_count].
    repeat split. rewrite <- app_assoc. reflexivity.
  - rewrite bind_ret. unfold sqlite3_open. run_extcall. unfold ret.
    destruct (ext_open filename (world e)) as [[rc h1] w1].
    cbn [fst snd].
    eexists. split; [reflexivity|]. cbn [world calls alloc_ok alloc_count].
    repeat split.
Qed.

Lemma db_close_done c e :
  exists e',
    db_close (Some c) e = Done (Some (set_db c None)) e'
    /\ world e' = match db c with
                  | Some h => snd (ext_close h (world e))
                  | None => world e
                  end
    /\ calls e'
       = calls e ++ match db c with Some h => [CallClose h] | None => [] end.
Proof.
  unfold db_close. destruct (db c) as [h|] eqn:Hdb.
  - unfold sqlite3_close. run_extcall. unfold ret.
    eexists. split; [reflexivity|]. split; reflexivity.
  - exists e. rewrite app_nil_r. unfold ret.
    split; [|split; reflexivity].
    do 2 f_equal. destruct c; cbn in *; subst; reflexivity.
Qed.


(** ** [db_fill_table_list] *)

Lemma repeat_snoc {A : Type} (x : A) (n : nat) :
  repeat x n ++ [x] = x :: repeat x n.
Proof. induction n as [|n IH]; simpl; [reflexivity|rewrite IH; reflexivity]. Qed.

(** The loop of lines 131-137 appends the names the engine yields. *)
Lemma fill_table_loop_yields (st : sqlite3_stmt) (w : W)
  (names : list (option string)) (w' : W) :
  yields (ext_column_text st 0) st w names w' ->
  forall (fuel : nat) (store : list (option string)) e,
    world e = w ->
    (List.length names < fuel)%nat ->
    fill_table_loop fuel (Some st) store e
    = Done (store ++ names)
        {| world := w'; alloc_ok := alloc_ok e;
           alloc_count := alloc_count e;
           calls := calls e ++ repeat (CallStep st) (S (List.length names)) |}.
Proof.
  induction 1 as [w Hstop | w l w' Hrow Hrest IH];
    intros fuel store e Hw Hfuel;
    (destruct fuel as [|fuel]; [simpl in Hfuel; lia|]);
    cbn [fill_table_loop]; unfold sqlite3_step; run_extcall; rewrite Hw.
  - destruct (fst (ext_step st w) =? SQLITE_ROW) eqn:Hc;
      [apply Z.eqb_eq in Hc; contradiction|].
    unfold ret. rewrite app_nil_r. reflexivity.
  - rewrite Hrow, Z.eqb_refl.
    unfold sqlite3_column_text, extread. unfold bind at 1.
    cbn [world].
    rewrite IH by (cbn [world List.length] in *; first [reflexivity | lia]).
    cbn [alloc_ok alloc_count calls List.length].
    rewrite <- !app_assoc. cbn [app]. reflexivity.
Qed.


(** ** [db_populate_rows]: what is stored *)

Lemma nth_error_list_set_same {A : Type} (a : list A) (n : nat) (v : A) :
  (n < List.length a)%nat -> nth_error (list_set a n v) n = Some v.
Proof.
  revert n; induction a as [|x a IH]; intros [|n] H; simpl in *;
    try lia; [reflexivity|apply IH; lia].
Qed.

Lemma nth_error_list_set_other {A : Type} (a : list A) (n m : nat) (v : A) :
  n <> m -> nth_error (list_set a n v) m = nth_error a m.
Proof.
  revert n m; induction a as [|x a IH]; intros [|n] [|m] H; simpl;
    try reflexivity; try contradiction.
  apply IH. intros ->. apply H; reflexivity.
Qed.

Lemma array_load_list_set_same {A : Type} (a : list A) (i : Z) (v : A) :
  0 <= i < Z.of_nat (List.length a) ->
  array_load (list_set a (Z.to_nat i) v) i = Some v.
Proof.
  intros H. unfold array_load. rewrite list_set_length.
  destruct (0 <=? i) eqn:H0; [|apply Z.leb_gt in H0; lia].
  destruct (i <? Z.of_nat (List.length a)) eqn:H1;
    [|apply Z.ltb_ge in H1; lia].
  cbn [andb]. apply nth_error_list_set_same. lia.
Qed.

Lemma array_load_list_set_other {A : Type} (a : list A) (i j : Z) (v : A) :
  0 <= i -> i <> j ->
  array_load (list_set a (Z.to_nat i) v) j = array_load a j.
Proof.
  intros Hi Hij. unfold array_load. rewrite list_set_length.
  destruct ((0 <=? j) && (j <? Z.of_nat (List.length a)))%bool eqn:Hb;
    [|reflexivity].
  apply andb_true_iff in Hb. destruct Hb as [H0 _]. apply Z.leb_le in H0.
  apply nth_error_list_set_other. lia.
Qed.

(** The loop of lines 223-233: the titles of the view are the names the
    engine gives, NULL read as the empty string, and each entry of the
    block is a copy of the title, or NULL when the copy failed. *)
Lemma make_columns_titles (st : sqlite3_stmt) (n : nat) :
  forall (i : Z) (a : list (option string)) (cols : list string) e,
    0 <= i ->
    i + Z.of_nat n <= Z.of_nat (List.length a) ->
    exists a' k,
      make_columns n i (Some st) a cols e
      = Done (a', cols ++ map (fun j => or_empty (ext_column_name st j (world e)))
                            (zseq i n))
          (allocated k e)
      /\ List.length a' = List.length a
      /\ (forall j, j < i -> array_load a' j = array_load a j)
      /\ (forall j, i <= j < i + Z.of_nat n ->
                    array_load a' j = Some None
                    \/ array_load a' j
                       = Some (Some (or_empty (ext_column_name st j (world e))))).
Proof.
  induction n as [|n IH]; intros i a cols e Hi Hlen.
  - exists a, 0%nat. rewrite allocated_0. cbn [zseq map]. rewrite app_nil_r.
    repeat split; try reflexivity. intros j Hj; lia.
  - cbn [make_columns]. unfold sqlite3_column_name, extread.
    unfold bind at 1. rewrite (bind_done _ _ _ _ _ (strdup_done _ e)).
    unfold array_store.
    destruct (0 <=? i) eqn:H0; [|apply Z.leb_gt in H0; lia].
    destruct (i <? Z.of_nat (List.length a)) eqn:H1;
      [|apply Z.ltb_ge in H1; lia].
    cbn [andb].
    set (nm := or_empty (ext_column_name st i (world e))).
    set (p := if alloc_ok e (alloc_count e) (Z.of_nat (String.length nm) + 1)
              then Some nm else None).
    destruct (IH (i + 1) (list_set a (Z.to_nat i) p) (cols ++ [nm])
                (allocated 1 e) ltac:(lia)
                ltac:(rewrite list_set_length; lia))
      as [a' [k [Hrun [Hl [Hlow Hhigh]]]]].
    exists a', (k + 1)%nat. rewrite Hrun. split.
    { cbn [zseq map world allocated]. rewrite <- app_assoc. cbn [app].
      f_equal. unfold allocated; cbn. f_equal. lia. }
    split; [rewrite Hl; apply list_set_length|].
    split.
    + intros j Hj. rewrite Hlow by lia.
      apply array_load_list_set_other; lia.
    + intros j Hj. destruct (Z.eq_dec j i) as [->|Hne].
      * rewrite Hlow by lia.
        rewrite array_load_list_set_same by (apply Z.ltb_lt in H1; lia).
        subst p. destruct (alloc_ok e (alloc_count e) _);
          [right|left]; reflexivity.
      * apply Hhigh. lia.
Qed.

(** The loop of lines 239-243: one cell for each column, NULL read as
    the empty string. *)
Lemma read_row_cells (st : sqlite3_stmt) (n : nat) :
  forall (i : Z) (row : list string) e,
    read_row n i (Some st) row e
    = Done (row ++ map (fun j => or_empty (ext_column_text st j (world e)))
                     (zseq i n)) e.
Proof.
  induction n as [|n IH]; intros i row e.
  - cbn [read_row zseq map]. rewrite app_nil_r. reflexivity.
  - cbn [read_row]. unfold sqlite3_column_text, extread. unfold bind at 1.
    rewrite IH. cbn [zseq map]. rewrite <- app_assoc. reflexivity.
Qed.

(** The loop of lines 236-244 appends the rows the engine yields. *)
Lemma fill_rows_loop_yields (st : sqlite3_stmt) (ncol : Z) (w : W)
  (rows : list (list string)) (w' : W) :
  yields (row_cells st ncol) st w rows w' ->
  forall (fuel : nat) (store : list (list string)) e,
    world e = w ->
    (List.length rows < fuel)%nat ->
    fill_rows_loop fuel (Some st) ncol store e
    = Done (store ++ rows)
        {| world := w'; alloc_ok := alloc_ok e;
           alloc_count := alloc_count e;
           calls := calls e ++ repeat (CallStep st) (S (List.length rows)) |}.
Proof.
  induction 1 as [w Hstop | w l w' Hrow Hrest IH];
    intros fuel store e Hw Hfuel;
    (destruct fuel as [|fuel]; [simpl in Hfuel; lia|]);
    cbn [fill_rows_loop]; unfold sqlite3_step; run_extcall; rewrite Hw.
  - destruct (fst (ext_step st w) =? SQLITE_ROW) eqn:Hc;
      [apply Z.eqb_eq in Hc; contradiction|].
    unfold ret. rewrite app_nil_r. reflexivity.
  - rewrite Hrow, Z.eqb_refl.
    rewrite (bind_done _ _ _ _ _ (read_row_cells st (Z.to_nat ncol) 0 [] _)).
    cbn [world app].
    rewrite IH by (cbn [world List.length] in *; first [reflexivity | lia]).
    cbn [alloc_ok alloc_count calls List.length].
    rewrite <- !app_assoc. cbn [app]. reflexivity.
Qed.

Lemma zseq_length (i : Z) (n : nat) : List.length (zseq i n) = n.
Proof.
  revert i; induction n as [|n IH]; intros i; simpl; [reflexivity|].
  rewrite IH; reflexivity.
Qed.

Lemma yields_rows_width (st : sqlite3_stmt) (ncol : Z) (w : W)
  (rows : list (list string)) (w' : W) :
  yields (row_cells st ncol) st w rows w' ->
  Forall (fun r => List.length r = Z.to_nat ncol) rows.
Proof.
  induction 1; constructor; [|assumption].
  unfold row_cells. rewrite length_map, zseq_length. reflexivity.
Qed.

(** What a load stores when the engine prepares its statement. *)
Lemma db_populate_rows_yields :
  forall c h v (t : string) e (st : sqlite3_stmt) (w1 : W)
         (rows : list (list string)) (w2 : W) (fuel : nat),
    db c = Some h ->
    rows_view c = Some v ->
    ctx_wf c ->
    ext_prepare_v2 h (select_statement t) (world e)
    = ((SQLITE_OK, Some st), w1) ->
    yields (row_cells st (int_of (ext_column_count st w1))) st w1 rows w2 ->
    (List.length rows < fuel)%nat ->
    exists rc c' e',
      db_populate_rows fuel (Some c) (Some t) e = Done (rc, Some c') e'
      /\ db c' = db c
      /\ tables_store c' = tables_store c
      /\ ((rc = SQLITE_NOMEM
           /\ current_colnames c' = None
           /\ rows_view c' = Some empty_view)
          \/ (rc = SQLITE_OK
              /\ 0 <= int_of (ext_column_count st w1)
              /\ rows_view c'
                 = Some {| tv_columns :=
                             column_titles st
                               (int_of (ext_column_count st w1)) w1;
                           tv_model := Some rows |}
              /\ Forall (fun r => List.length r
                                  = Z.to_nat (int_of (ext_column_count st w1)))
                   rows
              /\ current_ncols c' = int_of (ext_column_count st w1)
              /\ (exists a,
                     current_colnames c' = Some a
                     /\ List.length a
                        = Z.to_nat (int_of (ext_column_count st w1))
                     /\ forall j,
                          0 <= j < int_of (ext_column_count st w1) ->
                          array_load a j = Some None
                          \/ array_load a j
                             = Some (Some (or_empty
                                             (ext_column_name st j w1))))
              /\ (current_tablename c' = Some t
                  \/ current_tablename c' = None)
              /\ world e' = snd (ext_finalize st w2))).
Proof.
  intros c h v t e st w1 rows w2 fuel Hdb Hview Hwf Hprep Hy Hfuel.
  set (ncol := int_of (ext_column_count st w1)) in *.
  unfold db_populate_rows. rewrite Hdb, Hview.
  rewrite (bind_done _ _ _ _ _ (db_free_columns_wf c e Hwf)). cbv beta iota.
  rewrite (bind_done _ _ _ _ _ (strdup_done t e)). cbv beta iota zeta.
  destruct (s_make_select_rowid_all_done t (allocated 1 e))
    as [r [n [Hsql Hr]]].
  rewrite (bind_done _ _ _ _ _ Hsql).
  destruct Hr as [-> | ->].
  { eexists _, _, _. split; [reflexivity|].
    split; [exact Hdb|]. split; [reflexivity|].
    left. repeat split. }
  rewrite fmt_select_limit.
  unfold sqlite3_prepare_v2. run_extcall.
  change (world (allocated n (allocated 1 e))) with (world e).
  rewrite Hprep. cbn [fst snd]. cbv beta iota.
  change (negb (SQLITE_OK =? SQLITE_OK)) with false. cbv iota.
  unfold sqlite3_column_count, extread. unfold bind at 1.
  cbn [world]. fold ncol.
  match goal with
  | |- context [bind (calloc ncol sizeof_ptr) _ ?e3] =>
      destruct (calloc_done ncol sizeof_ptr e3) as [blk [k Hblk]];
      rewrite (bind_done _ _ _ _ _ Hblk)
  end.
  destruct blk as [cnt|].
  - apply calloc_some in Hblk; [|apply int_of_range].
    destruct Hblk as [Hpos [-> _]].
    match goal with
    | |- context [bind (make_columns ?m 0 (Some st) ?a0 []) _ ?e4] =>
        destruct (make_columns_titles st m 0 a0 [] e4 ltac:(lia))
          as [a [k2 [Hcols [Hlen [_ Hnames]]]]];
        [rewrite repeat_length; lia|];
        rewrite (bind_done _ _ _ _ _ Hcols)
    end.
    cbv beta iota.
    erewrite bind_done
      by (apply (fill_rows_loop_yields st ncol w1 rows w2 Hy fuel []);
          [reflexivity|exact Hfuel]).
    unfold sqlite3_finalize. run_extcall. unfold ret.
    eexists _, _, _. split; [reflexivity|].
    split; [exact Hdb|]. split; [reflexivity|].
    right. cbn [current_ncols current_colnames current_tablename rows_view
                set_rows_view set_current_colnames set_current_ncols
                set_current_tablename clear_columns world app].
    split; [reflexivity|]. split; [exact Hpos|].
    split; [reflexivity|].
    split; [apply (yields_rows_width st ncol w1 rows w2 Hy)|].
    split; [reflexivity|].
    split.
    { exists a. split; [reflexivity|].
      split; [rewrite Hlen, repeat_length; reflexivity|].
      intros j Hj. apply Hnames. lia. }
    split; [|reflexivity].
    destruct (alloc_ok e (alloc_count e) (Z.of_nat (String.length t) + 1));
      [left|right]; reflexivity.
  - unfold sqlite3_finalize. run_extcall. unfold ret.
    eexists _, _, _. split; [reflexivity|].
    split; [exact Hdb|]. split; [reflexivity|].
    left. repeat split.
Qed.

(** X9. A load whose statement the engine prepares returns
    [SQLITE_NOMEM], with no column names and an empty rows view, when
    the text or the column block cannot be allocated; otherwise it
    returns [SQLITE_OK] and stores what the engine gave: the view has
    one column for each result column, titled with its name; the
    snapshot holds the rows the engine yields, in order, each with one
    cell for each column, a NULL value read as the empty string; the
    column count is the engine's and the column block has that many
    entries, each a copy of the title or NULL.  The connection and the
    tables list are not touched. *)
Theorem populate_rows_snapshot :
  forall c h v (t : string) e (st : sqlite3_stmt) (w1 : W)
         (rows : list (list string)) (w2 : W) (fuel : nat),
    db c = Some h ->
    rows_view c = Some v ->
    ctx_wf c ->
    ext_prepare_v2 h (select_statement t) (world e)
    = ((SQLITE_OK, Some st), w1) ->
    yields (row_cells st (int_of (ext_column_count st w1))) st w1 rows w2 ->
    (List.length rows < fuel)%nat ->
    exists rc c' e',
      db_populate_rows fuel (Some c) (Some t) e = Done (rc, Some c') e'
      /\ db c' = db c
      /\ tables_store c' = tables_store c
      /\ ((rc = SQLITE_NOMEM
           /\ current_colnames c' = None
           /\ rows_view c' = Some empty_view)
          \/ (rc = SQLITE_OK
              /\ 0 <= int_of (ext_column_count st w1)
              /\ rows_view c'
                 = Some {| tv_columns :=
                             column_titles st
                               (int_of (ext_column_count st w1)) w1;
                           tv_model := Some rows |}
              /\ Forall (fun r => List.length r
                                  = Z.to_nat (int_of (ext_column_count st w1)))
                   rows
              /\ current_ncols c' = int_of (ext_column_count st w1)
              /\ (exists a,
                     current_colnames c' = Some a
                     /\ List.length a
                        = Z.to_nat (int_of (ext_column_count st w1))
                     /\ forall j,
                          0 <= j < int_of (ext_column_count st w1) ->
                          array_load a j = Some None
                          \/ array_load a j
                             = Some (Some (or_empty
                                             (ext_column_name st j w1))))
              /\ (current_tablename c' = Some t
                  \/ current_tablename c' = None)
              /\ world e' = snd (ext_finalize st w2))).
Proof. exact db_populate_rows_yields. Qed.

(** ** The column count and the column block *)

Lemma ctx_wf_same_columns c c' :
  current_ncols c' = current_ncols c ->
  current_colnames c' = current_colnames c ->
  ctx_wf c -> ctx_wf c'.
Proof.
  intros Hn Hc Hwf a Ha. rewrite Hn. apply Hwf. rewrite <- Hc. exact Ha.
Qed.

Lemma db_open_result c (filename : string) e (rc : Z) s' e' :
  db_open (Some c) filename e = Done (rc, s') e' ->
  exists h, s' = Some (set_db c h).
Proof.
  unfold db_open. intros H.
  destruct (db c) as [h0|].
  - unfold sqlite3_close in H. rewrite bind_assoc, bind_extcall in H.
    rewrite bind_ret in H. unfold sqlite3_open in H.
    rewrite bind_extcall in H.
    destruct (fst (ext_open filename _)) as [rc1 h1].
    unfold ret in H. inversion H; subst. exists h1. reflexivity.
  - rewrite bind_ret in H. unfold sqlite3_open in H.
    rewrite bind_extcall in H.
    destruct (fst (ext_open filename _)) as [rc1 h1].
    unfold ret in H. inversion H; subst. exists h1. reflexivity.
Qed.

Lemma db_fill_table_list_result (fuel : nat) c e (rc : Z) s' e' :
  db_fill_table_list fuel (Some c) e = Done (rc, s') e' ->
  s' = Some c \/ exists l, s' = Some (set_tables_store c l).
Proof.
  unfold db_fill_table_list. intros H.
  destruct (db c) as [h|]; [|unfold ret in H; inversion H; left; reflexivity].
  destruct (tables_store c) as [old|];
    [|unfold ret in H; inversion H; left; reflexivity].
  step_in H x e1 Hprep. destruct x as [rc0 stmt]. cbv beta iota in H.
  destruct (negb (rc0 =? SQLITE_OK)).
  - unfold ret in H. inversion H. left; reflexivity.
  - step_in H store e2 Hloop. step_in H rcf e3 Hfin.
    unfold ret in H. inversion H. right. eexists; reflexivity.
Qed.

Lemma db_populate_rows_wf (fuel : nat) c (table : option string) e (rc : Z)
  s' e' :
  ctx_wf c ->
  db_populate_rows fuel (Some c) table e = Done (rc, s') e' ->
  session_wf s'.
Proof.
  intros Hwf Hrun c' ->.
  assert (Hnone : forall x : context_td,
             current_colnames x = None -> ctx_wf x)
    by (intros x Hx a Ha; rewrite Hx in Ha; discriminate Ha).
  unfold db_populate_rows in Hrun.
  destruct (db c) as [h|];
    [|unfold ret in Hrun; inversion Hrun; subst; exact Hwf].
  destruct (rows_view c) as [v|];
    [|unfold ret in Hrun; inversion Hrun; subst; exact Hwf].
  destruct table as [t|];
    [|unfold ret in Hrun; inversion Hrun; subst; exact Hwf].
  step_in Hrun s1 e1 Hfree.
  apply db_free_columns_done in Hfree. destruct Hfree as [-> ->].
  step_in Hrun name e1 Hname.
  step_in Hrun r e2 Hsql.
  destruct r as [q|].
  - step_in Hrun x e3 Hprep. destruct x as [rc0 stmt]. cbv beta iota in Hrun.
    destruct (negb (rc0 =? SQLITE_OK)).
    + unfold ret in Hrun. inversion Hrun; subst. apply Hnone; reflexivity.
    + step_in Hrun ncol e4 Hcnt.
      destruct (column_count_done stmt e3) as [ncol' [Hcnt' Hrange]].
      rewrite Hcnt' in Hcnt. inversion Hcnt; subst ncol' e4. clear Hcnt.
      step_in Hrun blk e5 Hblk.
      destruct blk as [cnt|].
      * apply calloc_some in Hblk; [|exact Hrange].
        destruct Hblk as [Hpos [-> [k ->]]].
        step_in Hrun x e6 Hcols. destruct x as [a cols].
        cbv beta iota in Hrun.
        destruct (make_columns_done (Z.to_nat ncol) 0 stmt
                    (repeat None (Z.to_nat ncol)) [] (allocated k e3)
                    ltac:(lia) ltac:(rewrite repeat_length; lia))
          as [a' [cols' [k2 [Hcols' Hlen]]]].
        rewrite Hcols' in Hcols. inversion Hcols; subst a' cols' e6.
        step_in Hrun rows e7 Hrows.
        step_in Hrun rcf e8 Hfin.
        unfold ret in Hrun. inversion Hrun; subst.
        intros a0 Ha0. cbn in Ha0. inversion Ha0; subst a0. cbn.
        rewrite Hlen, repeat_length. lia.
      * step_in Hrun rcf e6 Hfin.
        unfold ret in Hrun. inversion Hrun; subst. apply Hnone; reflexivity.
  - unfold ret in Hrun. inversion Hrun; subst. apply Hnone; reflexivity.
Qed.

(** A load leaves the connection and the tables list alone, and the
    table name is the one it had, or the requested one, or NULL. *)
Lemma db_populate_rows_frame (fuel : nat) c (t : string) e (rc : Z) s' e' :
  db_populate_rows fuel (Some c) (Some t) e = Done (rc, s') e' ->
  exists c',
    s' = Some c'
    /\ db c' = db c
    /\ tables_store c' = tables_store c
    /\ (current_tablename c' = current_tablename c
        \/ current_tablename c' = Some t
        \/ current_tablename c' = None).
Proof.
  intros Hrun. unfold db_populate_rows in Hrun.
  destruct (db c) as [h|] eqn:Hdb;
    [|unfold ret in Hrun; inversion Hrun; subst; exists c;
      repeat split; [exact Hdb|left; reflexivity]].
  destruct (rows_view c) as [v|];
    [|unfold ret in Hrun; inversion Hrun; subst; exists c;
      repeat split; [exact Hdb|left; reflexivity]].
  step_in Hrun s1 e1 Hfree.
  apply db_free_columns_done in Hfree. destruct Hfree as [-> ->].
  step_in Hrun name e1 Hname.
  rewrite strdup_done in Hname. inversion Hname; subst name e1. clear Hname.
  assert (Hname : forall x : option string,
             x = (if alloc_ok e (alloc_count e)
                       (Z.of_nat (String.length t) + 1)
                  then Some t else None) ->
             x = current_tablename c \/ x = Some t \/ x = None).
  { intros x ->. destruct (alloc_ok e (alloc_count e) _);
      [right; left|right; right]; reflexivity. }
  step_in Hrun r e2 Hsql.
  destruct r as [q|].
  - step_in Hrun x e3 Hprep. destruct x as [rc0 stmt]. cbv beta iota in Hrun.
    destruct (negb (rc0 =? SQLITE_OK)).
    + unfold ret in Hrun. inversion Hrun; subst. eexists.
      split; [reflexivity|]. split; [exact Hdb|]. split; [reflexivity|].
      apply Hname. reflexivity.
    + step_in Hrun ncol e4 Hcnt.
      step_in Hrun blk e5 Hblk.
      destruct blk as [cnt|].
      * step_in Hrun x e6 Hcols. destruct x as [a cols].
        cbv beta iota in Hrun.
        step_in Hrun rows e7 Hrows.
        step_in Hrun rcf e8 Hfin.
        unfold ret in Hrun. inversion Hrun; subst. eexists.
        split; [reflexivity|]. split; [exact Hdb|]. split; [reflexivity|].
        apply Hname. reflexivity.
      * step_in Hrun rcf e6 Hfin.
        unfold ret in Hrun. inversion Hrun; subst. eexists.
        split; [reflexivity|]. split; [exact Hdb|]. split; [reflexivity|].
        apply Hname. reflexivity.
  - unfold ret in Hrun. inversion Hrun; subst. eexists.
    split; [reflexivity|]. split; [exact Hdb|]. split; [reflexivity|].
    apply Hname. reflexivity.
Qed.

(** X10. The column count never exceeds the column block, which is what
    the loop of [db_free_columns] relies on: if it holds of a session,
    it holds of the session every function of [db.c] returns, whatever
    the engine and the allocator answer and whether the call succeeds
    or fails.  [db_populate_rows] establishes it on every return past
    its precondition tests. *)
Theorem operations_keep_the_column_count :
  forall s,
    session_wf s ->
    (forall (filename : string) e rc s' e',
        db_open s filename e = Done (rc, s') e' -> session_wf s')
    /\ (forall e s' e', db_close s e = Done s' e' -> session_wf s')
    /\ (forall (fuel : nat) e rc s' e',
           db_fill_table_list fuel s e = Done (rc, s') e' -> session_wf s')
    /\ (forall e s' e', db_free_columns s e = Done s' e' -> session_wf s')
    /\ (forall (fuel : nat) (table : option string) e rc s' e',
           db_populate_rows fuel s table e = Done (rc, s') e' ->
           session_wf s')
    /\ (forall (colidx : Z) (rowid_text new_text : string) e rc s' e',
           db_apply_update_cell s colidx rowid_text new_text e
           = Done (rc, s') e' ->
           session_wf s').
Proof.
  intros s Hs.
  assert (Hnull : session_wf None) by (intros c Hc; discriminate Hc).
  destruct s as [c|].
  - assert (Hwf : ctx_wf c) by (apply Hs; reflexivity).
    repeat split.
    + intros filename e rc s' e' H.
      apply db_open_result in H. destruct H as [h ->].
      intros c' Hc'. inversion Hc'; subst c'.
      apply (ctx_wf_same_columns c); [reflexivity|reflexivity|exact Hwf].
    + intros e s' e' H.
      destruct (db_close_clears c e) as [e1 [H1 _]].
      rewrite H1 in H. inversion H; subst.
      intros c' Hc'. inversion Hc'; subst c'.
      apply (ctx_wf_same_columns c); [reflexivity|reflexivity|exact Hwf].
    + intros fuel e rc s' e' H.
      apply db_fill_table_list_result in H.
      destruct H as [-> | [l ->]]; [exact Hs|].
      intros c' Hc'. inversion Hc'; subst c'.
      apply (ctx_wf_same_columns c); [reflexivity|reflexivity|exact Hwf].
    + intros e s' e' H.
      apply db_free_columns_done in H. destruct H as [-> _].
      intros c' Hc' a Ha. inversion Hc'; subst c'. discriminate Ha.
    + intros fuel table e rc s' e' H.
      apply (db_populate_rows_wf fuel c table e rc s' e' Hwf H).
    + intros colidx rowid_text new_text e rc s' e' H.
      assert (Hsame : s' = Some c).
      { unfold db_apply_update_cell in H.
        destruct (db c) as [h|];
          [|unfold ret in H; inversion H; reflexivity].
        destruct (current_tablename c) as [tn|] eqn:Htab;
          [|unfold ret in H; inversion H; reflexivity].
        destruct (current_colnames c) as [a|] eqn:Hcols;
          [|unfold ret in H; inversion H; reflexivity].
        destruct (colidx =? 0) eqn:H0;
          [unfold ret in H; inversion H; reflexivity|].
        destruct (array_load a colidx) as [[cn|]|];
          [|unfold ret in H; inversion H; reflexivity
           |unfold undefined in H; discriminate H].
        destruct (snprintf 512 (fmt_update tn cn)) as [needed sqlbuf].
        destruct (needed <? 0);
          [unfold ret in H; inversion H; reflexivity|].
        step_in H sql e1 Hsql. destruct sql as [q|];
          [|unfold ret in H; inversion H; reflexivity].
        step_in H x e2 Hprep. destruct x as [rc0 stmt].
        cbv beta iota in H.
        destruct (negb (rc0 =? SQLITE_OK)).
        - step_in H rcf e3 Hfin. unfold ret in H. inversion H; reflexivity.
        - step_in H b1 e3 Hb1. step_in H b2 e4 Hb2.
          step_in H rs e5 Hstep. step_in H rcf e6 Hfin.
          destruct (negb (rs =? SQLITE_DONE));
            unfold ret in H; inversion H; reflexivity. }
      subst s'. exact Hs.
  - repeat split; intros.
    + unfold db_open, ret in H. inversion H; subst. exact Hnull.
    + unfold db_close, ret in H. inversion H; subst. exact Hnull.
    + unfold db_fill_table_list, ret in H. inversion H; subst. exact Hnull.
    + unfold db_free_columns, ret in H. inversion H; subst. exact Hnull.
    + unfold db_populate_rows, ret in H. inversion H; subst. exact Hnull.
    + unfold db_apply_update_cell, ret in H. inversion H; subst. exact Hnull.
Qed.

Lemma steps_of_yields {A : Type} (read : W -> A) (st : sqlite3_stmt)
  (fuel : nat) :
  forall (w : W) (l : list A) (w' : W),
    steps_of fuel read st w = Some (l, w') ->
    yields read st w l w' /\ (List.length l < fuel)%nat.
Proof.
  induction fuel as [|fuel IH]; intros w l w' H; [discriminate H|].
  cbn [steps_of] in H. cbv zeta in H.
  destruct (fst (ext_step st w) =? SQLITE_ROW) eqn:Hrow.
  - apply Z.eqb_eq in Hrow.
    destruct (steps_of fuel read st (snd (ext_step st w))) as [[l0 w0]|]
      eqn:Hrest; [|discriminate H].
    inversion H; subst. apply IH in Hrest. destruct Hrest as [Hy Hlen].
    split; [apply yields_row; assumption|cbn [List.length]; lia].
  - apply Z.eqb_neq in Hrow. inversion H; subst.
    split; [apply yields_end; exact Hrow|cbn [List.length]; lia].
Qed.

(** The context a call returns is the one it was given. *)
Lemma update_cell_frame c (colidx : Z) (rowid_text new_text : string) e
  (rc : Z) s' e' :
  db_apply_update_cell (Some c) colidx rowid_text new_text e
  = Done (rc, s') e' ->
  s' = Some c.
Proof.
  intros H. unfold db_apply_update_cell in H.
  destruct (db c) as [h|];
    [|unfold ret in H; inversion H; reflexivity].
  destruct (current_tablename c) as [tn|] eqn:Htab;
    [|unfold ret in H; inversion H; reflexivity].
  destruct (current_colnames c) as [a|] eqn:Hcols;
    [|unfold ret in H; inversion H; reflexivity].
  destruct (colidx =? 0) eqn:H0;
    [unfold ret in H; inversion H; reflexivity|].
  destruct (array_load a colidx) as [[cn|]|];
    [|unfold ret in H; inversion H; reflexivity
     |unfold undefined in H; discriminate H].
  destruct (snprintf 512 (fmt_update tn cn)) as [needed sqlbuf].
  destruct (needed <? 0);
    [unfold ret in H; inversion H; reflexivity|].
  step_in H sql e1 Hsql. destruct sql as [q|];
    [|unfold ret in H; inversion H; reflexivity].
  step_in H x e2 Hprep. destruct x as [rc0 stmt].
  cbv beta iota in H.
  destruct (negb (rc0 =? SQLITE_OK)).
  - step_in H rcf e3 Hfin. unfold ret in H. inversion H; reflexivity.
  - step_in H b1 e3 Hb1. step_in H b2 e4 Hb2.
    step_in H rs e5 Hstep. step_in H rcf e6 Hfin.
    destruct (negb (rs =? SQLITE_DONE));
      unfold ret in H; inversion H; reflexivity.
Qed.

End MoreProperties.

(** * The handlers of [ui.c] and the end of [main] *)

Section UiProperties.

Context {W : Type} {E : External W}.

Variable errmsg : sqlite3 -> W -> string.
Variable errstr : Z -> string.

Implicit Types (c : context_td) (s : option context_td) (e : @env W).

Ltac step_in H a e1 Hm :=
  apply bind_inv in H; destruct H as (a & e1 & Hm & H);
  cbv beta iota zeta in H.

Lemma error_message_inv (prefix : string) (h : option sqlite3)
  (fallback : string) e (m : string) e' :
  error_message errmsg prefix h fallback e = Done m e' -> e' = e.
Proof.
  unfold error_message. intros H. step_in H x e1 Hx.
  unfold ret in H. inversion H; subst.
  destruct h; unfold extread, ret in Hx; inversion Hx; reflexivity.
Qed.

Lemma db_open_inv c (filename : string) e (rc : Z) s' e' :
  db_open (Some c) filename e = Done (rc, s') e' ->
  exists h,
    s' = Some (set_db c h)
    /\ calls e'
       = calls e
         ++ match db c with Some h0 => [CallClose h0] | None => [] end
         ++ [CallOpen filename].
Proof.
  unfold db_open. intros H.
  destruct (db c) as [h0|].
  - unfold sqlite3_close in H. rewrite bind_assoc, bind_extcall in H.
    rewrite bind_ret in H. unfold sqlite3_open in H.
    rewrite bind_extcall in H.
    destruct (fst (ext_open filename _)) as [rc1 h1].
    unfold ret in H. inversion H; subst. exists h1.
    split; [reflexivity|]. cbn [calls]. rewrite <- app_assoc. reflexivity.
  - rewrite bind_ret in H. unfold sqlite3_open in H.
    rewrite bind_extcall in H.
    destruct (fst (ext_open filename _)) as [rc1 h1].
    unfold ret in H. inversion H; subst. exists h1.
    split; reflexivity.
Qed.

Lemma db_close_inv c e s' e' :
  db_close (Some c) e = Done s' e' ->
  s' = Some (set_db c None)
  /\ calls e'
     = calls e ++ match db c with Some h => [CallClose h] | None => [] end.
Proof.
  unfold db_close. intros H. destruct (db c) as [h|] eqn:Hdb.
  - unfold sqlite3_close in H. rewrite bind_extcall in H.
    unfold ret in H. inversion H; subst. split; reflexivity.
  - unfold ret in H. inversion H; subst. rewrite app_nil_r.
    split; [|reflexivity].
    f_equal. destruct c; cbn in *; subst; reflexivity.
Qed.

Lemma probe_never_opens (filename : string) e (r : Z) e' :
  db_is_sqlite filename e = Done r e' ->
  forall f, In (CallOpen f) (calls e') -> In (CallOpen f) (calls e).
Proof.
  intros H f Hin.
  destruct (db_is_sqlite_trace filename e)
    as [r1 [e1 [mid [Hrun [_ [_ [_ [Hcalls Hmid]]]]]]]].
  rewrite Hrun in H. inversion H; subst r1 e1. clear H.
  rewrite Hcalls in Hin. apply in_app_or in Hin.
  destruct Hin as [Hin|Hin]; [exact Hin|]. exfalso.
  destruct Hin as [Hin|Hin]; [discriminate Hin|].
  apply in_app_or in Hin. destruct Hin as [Hin|Hin].
  - destruct Hmid as [-> | [h [_ [[-> _] | [st [_ ->]]]]]]; cbn in Hin;
      intuition discriminate.
  - destruct (snd (fst (ext_open_v2 filename _ (world e)))); cbn in Hin;
      intuition discriminate.
Qed.

(** ** [s_on_open] *)

Lemma error_message_done (prefix : string) (h : option sqlite3)
  (fallback : string) e :
  error_message errmsg prefix h fallback e
  = Done (snd (snprintf 1024
                 (prefix ++ match h with
                            | Some p => errmsg p (world e)
                            | None => fallback
                            end)%string)) e.
Proof. destruct h; reflexivity. Qed.

(** X11. The two error paths of [s_on_open].  When [db_is_sqlite]
    rejects the chosen file the handler shows its error dialog and
    returns: the session is what it was, its connection still open, and
    [sqlite3_open] was not called, so that no file was created.  When
    the file is accepted and [db_open] fails, the handler shows the
    message of the engine and runs [db_close]: the handle the failed
    open left is closed, as was the one the session held before, and
    the session is left with no connection.  Neither path reaches the
    tables list. *)
Theorem s_on_open_error_paths :
  forall (fuel : nat) (reselected : list (option string)) c
         (filename : string) e (r : Z) e1,
    db_is_sqlite filename e = Done r e1 ->
    (r = 0 ->
     s_on_open errmsg errstr fuel reselected (Some c) (Some filename) e
     = Done ([ErrorDialog
                (snd (snprintf 1024
                        ("Cannot open file '" ++ filename
                         ++ "': not an SQLite database")%string))],
             Some c) e1
     /\ forall f, In (CallOpen f) (calls e1) -> In (CallOpen f) (calls e))
    /\ (r <> 0 ->
        let w0 := match db c with
                  | Some h0 => snd (ext_close h0 (world e1))
                  | None => world e1
                  end in
        let o := ext_open filename w0 in
        fst (fst o) <> SQLITE_OK ->
        exists e',
          s_on_open errmsg errstr fuel reselected (Some c) (Some filename) e
          = Done ([ErrorDialog
                     (snd (snprintf 1024
                             ("Failed to open database: "
                              ++ match snd (fst o) with
                                 | Some h1 => errmsg h1 (snd o)
                                 | None => errstr (fst (fst o))
                                 end)%string))],
                  Some (set_db c None)) e'
          /\ calls e'
             = calls e1
               ++ match db c with Some h0 => [CallClose h0] | None => [] end
               ++ [CallOpen filename]
               ++ match snd (fst o) with
                  | Some h1 => [CallClose h1]
                  | None => []
                  end
          /\ world e'
             = match snd (fst o) with
               | Some h1 => snd (ext_close h1 (snd o))
               | None => snd o
               end).
Proof.
  intros fuel reselected c filename e r e1 Hprobe. split.
  - intros ->. split; [|apply (probe_never_opens filename e 0 e1 Hprobe)].
    unfold s_on_open. rewrite (bind_done _ _ _ _ _ Hprobe). reflexivity.
  - intros Hr w0 o Hfail.
    destruct (db_open_done c filename e1)
      as (e2 & Hopen & Hw2 & _ & _ & Hcalls2).
    fold w0 in Hopen, Hw2. fold o in Hopen, Hw2.
    destruct (db_close_done (set_db c (snd (fst o))) e2)
      as (e3 & Hclose & Hw3 & Hcalls3).
    cbn [db set_db] in Hw3, Hcalls3.
    exists e3.
    split.
    + unfold s_on_open. rewrite (bind_done _ _ _ _ _ Hprobe).
      destruct (r =? 0) eqn:H0; [apply Z.eqb_eq in H0; contradiction|].
      rewrite (bind_done _ _ _ _ _ Hopen). cbv beta iota.
      destruct (fst (fst o) =? SQLITE_OK) eqn:Hok;
        [apply Z.eqb_eq in Hok; contradiction|].
      cbn [negb db set_db].
      rewrite (bind_done _ _ _ _ _ (error_message_done _ _ _ _)).
      rewrite (bind_done _ _ _ _ _ Hclose). rewrite Hw2. reflexivity.
    + split.
      * rewrite Hcalls3, Hcalls2. rewrite <- !app_assoc. reflexivity.
      * rewrite Hw3, Hw2. reflexivity.
Qed.

(** Runs of the handler that read no name leave everything as it is. *)
Lemma reselect_none (fuel : nat) (l : list (option string)) s e :
  Forall (fun n : option string => n = None) l ->
  reselect errmsg fuel l s e = Done ([], s) e.
Proof.
  induction 1 as [|n l Hn _ IH]; [reflexivity|].
  subst n. cbn [reselect]. exact IH.
Qed.

(** With no such run but of that kind, the listing is [db_fill_table_list]
    itself. *)
Lemma db_fill_table_list_connected_quiet (fuel : nat)
  (l : list (option string)) s e :
  Forall (fun n : option string => n = None) l ->
  db_fill_table_list_connected errmsg fuel l s e
  = match db_fill_table_list fuel s e with
    | Done (rc, s') e' => Done ([], rc, s') e'
    | Undefined => Undefined
    | OutOfFuel => OutOfFuel
    end.
Proof.
  intros Hl. unfold db_fill_table_list_connected, db_fill_table_list.
  destruct s as [c|]; [|reflexivity].
  destruct (db c) as [h|]; [|reflexivity].
  destruct (tables_store c) as [old|]; [|reflexivity].
  unfold sqlite3_prepare_v2. rewrite !bind_extcall.
  destruct (fst (ext_prepare_v2 h sql_list_tables (world e))) as [rc stmt].
  cbv beta iota.
  destruct (negb (rc =? SQLITE_OK)); [reflexivity|].
  rewrite (bind_done _ _ _ _ _ (reselect_none fuel l (Some c) _ Hl)).
  cbv beta iota.
  unfold bind at 1 3.
  destruct (fill_table_loop fuel stmt [] _) as [store e3| |];
    try reflexivity.
  unfold bind. destruct (sqlite3_finalize stmt e3); reflexivity.
Qed.

(** The runs of the handler inside the clearing of the list leave the
    connection and the list alone; the table name they leave is the one
    the session had, or one they were run with, or NULL. *)
Lemma reselect_frame (fuel : nat) (l : list (option string)) :
  forall c e d s' e',
    reselect errmsg fuel l (Some c) e = Done (d, s') e' ->
    exists c',
      s' = Some c'
      /\ db c' = db c
      /\ tables_store c' = tables_store c
      /\ (current_tablename c' = current_tablename c
          \/ exists name,
              In (Some name) l
              /\ (current_tablename c' = Some name
                  \/ current_tablename c' = None)).
Proof.
  induction l as [|n l IH]; intros c e d s' e' H.
  - unfold ret in H. inversion H; subst. exists c.
    repeat split. left. reflexivity.
  - destruct n as [tname|]; cbn [reselect] in H.
    + step_in H x e1 Hload. destruct x as [[d1 rs1] s1].
      cbv beta iota in H.
      step_in H y e2 Hrest. destruct y as [d2 s2]. cbv beta iota in H.
      unfold ret in H. inversion H; subst d s' e'. clear H.
      unfold load_selected in Hload.
      step_in Hload z e3 Hpop. destruct z as [rc s3].
      cbv beta iota in Hload.
      apply db_populate_rows_frame in Hpop.
      destruct Hpop as (c3 & -> & Hdb3 & Hst3 & Hname3).
      assert (Hs1 : s1 = Some c3).
      { destruct (negb (rc =? SQLITE_OK)).
        - step_in Hload msg e4 Hmsg. unfold ret in Hload.
          inversion Hload; reflexivity.
        - unfold ret in Hload. inversion Hload; reflexivity. }
      subst s1.
      apply IH in Hrest. destruct Hrest as (c' & -> & Hdb & Hst & Hname).
      exists c'. split; [reflexivity|].
      split; [rewrite Hdb; exact Hdb3|].
      split; [rewrite Hst; exact Hst3|].
      destruct Hname as [Hsame | (name & Hin & Hn)].
      * rewrite Hsame.
        destruct Hname3 as [H0 | [H1 | H2]];
          [left; exact H0
          |right; exists tname; split; [left; reflexivity|left; exact H1]
          |right; exists tname; split; [left; reflexivity|right; exact H2]].
      * right. exists name. split; [right; exact Hin|exact Hn].
    + apply IH in H. destruct H as (c' & -> & Hdb & Hst & Hname).
      exists c'. split; [reflexivity|]. split; [exact Hdb|].
      split; [exact Hst|].
      destruct Hname as [Hsame | (name & Hin & Hn)]; [left; exact Hsame|].
      right. exists name. split; [right; exact Hin|exact Hn].
Qed.

Lemma db_fill_table_list_connected_frame (fuel : nat)
  (l : list (option string)) c e d (rc : Z) s' e' :
  db_fill_table_list_connected errmsg fuel l (Some c) e = Done (d, rc, s') e' ->
  exists c',
    s' = Some c'
    /\ (current_tablename c' = current_tablename c
        \/ exists name,
            In (Some name) l
            /\ (current_tablename c' = Some name
                \/ current_tablename c' = None)).
Proof.
  intros H. unfold db_fill_table_list_connected in H.
  destruct (db c) as [h|];
    [|unfold ret in H; inversion H; subst; exists c;
      split; [reflexivity|left; reflexivity]].
  destruct (tables_store c) as [old|];
    [|unfold ret in H; inversion H; subst; exists c;
      split; [reflexivity|left; reflexivity]].
  step_in H x e1 Hprep. destruct x as [rc0 stmt]. cbv beta iota in H.
  destruct (negb (rc0 =? SQLITE_OK));
    [unfold ret in H; inversion H; subst; exists c;
     split; [reflexivity|left; reflexivity]|].
  step_in H y e2 Hre. destruct y as [d1 s1]. cbv beta iota in H.
  apply reselect_frame in Hre. destruct Hre as (c1 & -> & _ & _ & Hname).
  step_in H store e3 Hloop. step_in H rcf e4 Hfin.
  unfold ret in H. inversion H; subst. eexists.
  split; [reflexivity|exact Hname].
Qed.

(** X12. [s_on_open] does not reset the current table itself: the one
    part of it that may is the selection handler, when GTK runs it with
    a table name while [db_fill_table_list] clears the tables list.
    After [s_on_open] the table name is the one the session had, or a
    name that handler was run with, or NULL.  When every such run reads
    no name (no row was selected, or the selection was dropped with the
    last row), then whatever the handler shows and whether or not
    another database was opened, the rows view, the table name, the
    column names and the column count are those the session had: the
    view still shows the rows loaded from the old connection, and an
    edit is sent to the new one. *)
Theorem s_on_open_keeps_current_table :
  forall (fuel : nat) (reselected : list (option string)) c
         (chosen : option string) e dlgs s' e',
    s_on_open errmsg errstr fuel reselected (Some c) chosen e
    = Done (dlgs, s') e' ->
    exists c',
      s' = Some c'
      /\ (current_tablename c' = current_tablename c
          \/ exists name,
              In (Some name) reselected
              /\ (current_tablename c' = Some name
                  \/ current_tablename c' = None))
      /\ (Forall (fun n : option string => n = None) reselected ->
          rows_view c' = rows_view c
          /\ current_tablename c' = current_tablename c
          /\ current_colnames c' = current_colnames c
          /\ current_ncols c' = current_ncols c).
Proof.
  intros fuel reselected c chosen e dlgs s' e' H.
  assert (Hsame : forall x : context_td,
             rows_view x = rows_view c ->
             current_tablename x = current_tablename c ->
             current_colnames x = current_colnames c ->
             current_ncols x = current_ncols c ->
             exists c',
               Some x = Some c'
               /\ (current_tablename c' = current_tablename c
                   \/ exists name,
                       In (Some name) reselected
                       /\ (current_tablename c' = Some name
                           \/ current_tablename c' = None))
               /\ (Forall (fun n : option string => n = None) reselected ->
                   rows_view c' = rows_view c
                   /\ current_tablename c' = current_tablename c
                   /\ current_colnames c' = current_colnames c
                   /\ current_ncols c' = current_ncols c)).
  { intros x H1 H2 H3 H4. exists x. split; [reflexivity|].
    split; [left; exact H2|]. intros _. repeat split; assumption. }
  unfold s_on_open in H. destruct chosen as [filename|];
    [|unfold ret in H; inversion H; subst; apply Hsame; reflexivity].
  step_in H ok e1 Hprobe.
  destruct (ok =? 0);
    [unfold ret in H; inversion H; subst; apply Hsame; reflexivity|].
  step_in H x e2 Hopen. destruct x as [rc s1]. cbv beta iota in H.
  apply db_open_inv in Hopen. destruct Hopen as [h [-> _]].
  destruct (negb (rc =? SQLITE_OK)).
  { step_in H msg e3 Hmsg. step_in H s2 e4 Hclose.
    apply db_close_inv in Hclose. destruct Hclose as [-> _].
    unfold ret in H. inversion H; subst. apply Hsame; reflexivity. }
  step_in H y e3 Hfill. destruct y as [[d0 rc2] s2]. cbv beta iota in H.
  assert (Hs2 : exists c2,
             s2 = Some c2
             /\ (current_tablename c2 = current_tablename c
                 \/ exists name,
                     In (Some name) reselected
                     /\ (current_tablename c2 = Some name
                         \/ current_tablename c2 = None))
             /\ (Forall (fun n : option string => n = None) reselected ->
                 rows_view c2 = rows_view c
                 /\ current_tablename c2 = current_tablename c
                 /\ current_colnames c2 = current_colnames c
                 /\ current_ncols c2 = current_ncols c)).
  { destruct (db_fill_table_list_connected_frame fuel reselected _ _ _ _ _ _
                Hfill) as (c2 & Hc2 & Hname).
    exists c2. split; [exact Hc2|]. split; [exact Hname|].
    intros Hq.
    rewrite (db_fill_table_list_connected_quiet fuel reselected _ _ Hq)
      in Hfill.
    destruct (db_fill_table_list fuel (Some (set_db c h)) e2)
      as [[rc3 s3] e5| |] eqn:Hlist; try discriminate Hfill.
    inversion Hfill; subst d0 rc3 s3 e5. clear Hfill.
    apply db_fill_table_list_result in Hlist.
    destruct Hlist as [Hs | [l Hs]]; rewrite Hs in Hc2;
      inversion Hc2; subst c2; repeat split. }
  destruct Hs2 as (c2 & -> & Hname & Hquiet).
  exists c2.
  destruct (negb (rc2 =? SQLITE_OK));
    [step_in H msg e4 Hmsg|]; unfold ret in H; inversion H; subst;
    (split; [reflexivity|split; assumption]).
Qed.

(** ** The end of [main] *)

(** X13. On a session whose column count fits its column block, the
    two calls that end [main] return and leave nothing behind: no
    connection, no table name, no column names, a column count of 0;
    the engine is called once, to close the connection, or not at all
    when there was none. *)
Theorem main_cleanup_leaves_nothing :
  forall c e,
    ctx_wf c ->
    exists e',
      main_cleanup (Some c) e = Done (Some (set_db (clear_columns c) None)) e'
      /\ db (set_db (clear_columns c) None) = None
      /\ current_tablename (set_db (clear_columns c) None) = None
      /\ current_colnames (set_db (clear_columns c) None) = None
      /\ current_ncols (set_db (clear_columns c) None) = 0
      /\ calls e'
         = calls e ++ match db c with Some h => [CallClose h] | None => [] end
      /\ alloc_count e' = alloc_count e.
Proof.
  intros c e Hwf. unfold main_cleanup.
  rewrite (bind_done _ _ _ _ _ (db_free_columns_wf c e Hwf)).
  unfold db_close. cbn [db clear_columns].
  destruct (db c) as [h|] eqn:Hdb.
  - unfold sqlite3_close. rewrite bind_extcall. unfold ret.
    eexists. split; [reflexivity|]. repeat split.
  - unfold ret. exists e. rewrite app_nil_r.
    split; [|repeat split].
    do 2 f_equal. unfold set_db, clear_columns. cbn. rewrite Hdb.
    reflexivity.
Qed.

(** ** [s_on_table_selected] *)

Lemma make_columns_inv (n : nat) :
  forall (i : Z) (stmt : option sqlite3_stmt) (a : list (option string))
         (cols : list string) e a' cols' e',
    make_columns n i stmt a cols e = Done (a', cols') e' ->
    List.length a' = List.length a
    /\ List.length cols' = (List.length cols + n)%nat
    /\ calls e' = calls e.
Proof.
  induction n as [|n IH]; intros i stmt a cols e a' cols' e' H.
  - cbn [make_columns] in H. unfold ret in H. inversion H; subst.
    repeat split. lia.
  - cbn [make_columns] in H.
    step_in H colname e1 Hname.
    destruct (column_name_done stmt i e) as [r Hr].
    rewrite Hr in Hname. inversion Hname; subst r e1. clear Hname.
    step_in H p e2 Hdup. rewrite strdup_done in Hdup.
    inversion Hdup; subst p e2. clear Hdup.
    unfold array_store in H.
    destruct ((0 <=? i) && (i <? Z.of_nat (List.length a)))%bool;
      [|discriminate H].
    apply IH in H. destruct H as [Hl [Hc Hcalls]].
    rewrite list_set_length in Hl. rewrite length_app in Hc. cbn in Hc.
    repeat split; [exact Hl|lia|exact Hcalls].
Qed.

Lemma fill_rows_loop_inv (stmt : option sqlite3_stmt) (ncol : Z)
  (fuel : nat) :
  forall (store : list (list string)) e rows e',
    fill_rows_loop fuel stmt ncol store e = Done rows e' ->
    sql_texts (calls e') = sql_texts (calls e).
Proof.
  induction fuel as [|fuel IH]; intros store e rows e' H.
  - discriminate H.
  - cbn [fill_rows_loop] in H. step_in H rc e1 Hstep.
    assert (Hs : sql_texts (calls e1) = sql_texts (calls e)).
    { destruct stmt as [st|]; unfold sqlite3_step in Hstep.
      - rewrite extcall_done in Hstep. inversion Hstep; subst. cbn [calls].
        rewrite sql_texts_app, app_nil_r. reflexivity.
      - unfold ret in Hstep. inversion Hstep; subst. reflexivity. }
    destruct (rc =? SQLITE_ROW).
    + step_in H row e2 Hrow.
      destruct (read_row_done (Z.to_nat ncol) 0 stmt [] e1) as [row' Hr].
      rewrite Hr in Hrow. inversion Hrow; subst row' e2.
      apply IH in H. rewrite H. exact Hs.
    + unfold ret in H. inversion H; subst. exact Hs.
Qed.

(** What a load that returned leaves: at most the fetch statement in
    the log and, on success, as many view columns as entries in the
    column block. *)
Lemma db_populate_rows_inv (fuel : nat) c (t : string) e (rc : Z) s' e' :
  db_populate_rows fuel (Some c) (Some t) e = Done (rc, s') e' ->
  exists c',
    s' = Some c'
    /\ ((sql_texts (calls e') = sql_texts (calls e)
         /\ (rc = SQLITE_MISUSE \/ rc = SQLITE_NOMEM))
        \/ sql_texts (calls e') = sql_texts (calls e) ++ [select_statement t])
    /\ (rc = SQLITE_OK ->
        exists a cols rows,
          current_colnames c' = Some a
          /\ rows_view c'
             = Some {| tv_columns := cols; tv_model := Some rows |}
          /\ List.length cols = List.length a).
Proof.
  intros Hrun. unfold db_populate_rows in Hrun.
  assert (Hmis : forall x : context_td,
             Done (SQLITE_MISUSE, Some x) e = Done (rc, s') e' ->
             exists c',
               s' = Some c'
               /\ ((sql_texts (calls e') = sql_texts (calls e)
                    /\ (rc = SQLITE_MISUSE \/ rc = SQLITE_NOMEM))
                   \/ sql_texts (calls e')
                      = sql_texts (calls e) ++ [select_statement t])
               /\ (rc = SQLITE_OK ->
                   exists a cols rows,
                     current_colnames c' = Some a
                     /\ rows_view c'
                        = Some {| tv_columns := cols; tv_model := Some rows |}
                     /\ List.length cols = List.length a)).
  { intros x H. inversion H; subst. eexists. split; [reflexivity|].
    split; [left; split; [reflexivity|left; reflexivity]|].
    intros Hbad; discriminate Hbad. }
  destruct (db c) as [h|]; [|apply (Hmis c); exact Hrun].
  destruct (rows_view c) as [v|]; [|apply (Hmis c); exact Hrun].
  clear Hmis.
  step_in Hrun s1 e1 Hfree.
  apply db_free_columns_done in Hfree. destruct Hfree as [-> ->].
  step_in Hrun name e1 Hname.
  rewrite strdup_done in Hname. inversion Hname; subst name e1. clear Hname.
  step_in Hrun r e2 Hsql.
  destruct (s_make_select_rowid_all_done t (allocated 1 e))
    as [r' [n [Hsql' Hr]]].
  rewrite Hsql' in Hsql. inversion Hsql; subst r' e2. clear Hsql.
  destruct Hr as [-> | ->].
  { unfold ret in Hrun. inversion Hrun; subst. eexists.
    split; [reflexivity|].
    split; [left; split; [reflexivity|right; reflexivity]|].
    intros Hbad; discriminate Hbad. }
  rewrite fmt_select_limit in Hrun.
  step_in Hrun x e3 Hprep. destruct x as [rc0 stmt]. cbv beta iota in Hrun.
  unfold sqlite3_prepare_v2 in Hprep. rewrite extcall_done in Hprep.
  inversion Hprep; subst e3. clear Hprep.
  assert (Hone : forall l : list call,
             sql_texts l
             = sql_texts
                 (calls (allocated n (allocated 1 e))
                  ++ [CallPrepare h (select_statement t)]) ->
             sql_texts l = sql_texts (calls e) ++ [select_statement t]).
  { intros l ->. rewrite sql_texts_app. reflexivity. }
  destruct (negb (rc0 =? SQLITE_OK)) eqn:Hok.
  { unfold ret in Hrun. inversion Hrun; subst. eexists.
    split; [reflexivity|]. split; [right; apply Hone; reflexivity|].
    intros Hbad. rewrite Hbad in Hok. discriminate Hok. }
  step_in Hrun ncol e4 Hcnt.
  match type of Hcnt with
  | sqlite3_column_count _ ?e3 = _ =>
      destruct (column_count_done stmt e3) as [ncol' [Hcnt' Hrange]]
  end.
  rewrite Hcnt' in Hcnt. inversion Hcnt; subst ncol' e4. clear Hcnt.
  step_in Hrun blk e5 Hblk.
  destruct blk as [cnt|].
  - apply calloc_some in Hblk; [|exact Hrange].
    destruct Hblk as [Hpos [-> [k ->]]].
    step_in Hrun x e6 Hcols. destruct x as [a cols]. cbv beta iota in Hrun.
    apply make_columns_inv in Hcols. destruct Hcols as [Hla [Hlc Hcalls6]].
    rewrite repeat_length in Hla. cbn [List.length] in Hlc.
    step_in Hrun rows e7 Hrows. apply fill_rows_loop_inv in Hrows.
    step_in Hrun rcf e8 Hfin.
    destruct (finalize_done stmt e7) as [rcf' [e8' [Hfin' Htx]]].
    rewrite Hfin' in Hfin. inversion Hfin; subst rcf' e8'. clear Hfin.
    unfold ret in Hrun. inversion Hrun; subst. eexists.
    split; [reflexivity|]. split.
    + right. apply Hone. rewrite Htx, Hrows, Hcalls6. reflexivity.
    + intros _. exists a, cols, rows.
      split; [reflexivity|]. split; [reflexivity|]. lia.
  - step_in Hrun rcf e6 Hfin.
    match type of Hfin with
    | sqlite3_finalize _ ?e5 = _ =>
        destruct (finalize_done stmt e5) as [rcf' [e6' [Hfin' Htx]]]
    end.
    rewrite Hfin' in Hfin. inversion Hfin; subst rcf' e6'. clear Hfin.
    unfold ret in Hrun. inversion Hrun; subst. eexists.
    split; [reflexivity|]. split.
    + right. apply Hone. rewrite Htx.
      match type of Hblk with
      | calloc _ _ ?e4 = _ =>
          destruct (calloc_done ncol sizeof_ptr e4) as [blk' [k Hblk']]
      end.
      rewrite Hblk' in Hblk. inversion Hblk; subst. reflexivity.
    + intros Hbad; discriminate Hbad.
Qed.

Lemma configure_renderers_zseq (cols : list string) :
  forall (pos : Z),
    configure_renderers cols pos
    = map (fun i => {| editable := negb (i =? 0); col_index := i |})
        (zseq pos (List.length cols)).
Proof.
  induction cols as [|x cols IH]; intros pos; [reflexivity|].
  cbn [configure_renderers List.length zseq map]. rewrite IH. reflexivity.
Qed.

Lemma in_zseq (n : nat) :
  forall (i j : Z), In j (zseq i n) -> i <= j < i + Z.of_nat n.
Proof.
  induction n as [|n IH]; intros i j Hin; [destruct Hin|].
  cbn [zseq] in Hin. destruct Hin as [<- | Hin]; [lia|].
  apply IH in Hin. lia.
Qed.

Lemma in_selected_name c (i : nat) (name : string) :
  selected_name (Some c) (Some i) = Some name ->
  exists store, tables_store c = Some store /\ In (Some name) store.
Proof.
  unfold selected_name. destruct (tables_store c) as [store|];
    [|discriminate].
  destruct (nth_error store i) as [[x|]|] eqn:Hn; try discriminate.
  intros H. inversion H; subst x. exists store.
  split; [reflexivity|]. apply (nth_error_In store i Hn).
Qed.

(** An update with an index inside the column block, or with index 0,
    always has a result. *)
Lemma update_cell_defined c (colidx : Z) (rowid_text new_text : string) e :
  (forall a, current_colnames c = Some a ->
             colidx = 0 \/ 0 <= colidx < Z.of_nat (List.length a)) ->
  exists rc e',
    db_apply_update_cell (Some c) colidx rowid_text new_text e
    = Done (rc, Some c) e'.
Proof.
  intros Hin.
  destruct (db c) as [h|] eqn:Hdb;
    [|eexists _, _; apply update_cell_without_connection; exact Hdb].
  destruct (current_colnames c) as [a|] eqn:Hcols;
    [|eexists _, _; apply update_cell_without_columns; exact Hcols].
  destruct (current_tablename c) as [tablename|] eqn:Htab;
    [|eexists _, _; unfold db_apply_update_cell; rewrite Hdb, Htab;
      reflexivity].
  destruct (Z.eq_dec colidx 0) as [->|Hz];
    [eexists _, _;
     apply (update_cell_rowid_is_noop_aux c h tablename a); assumption|].
  destruct (Hin a eq_refl) as [H0|Hr]; [contradiction|].
  destruct (array_load a colidx) as [[colname|]|] eqn:Hload.
  - destruct (update_cell_trace c h tablename a colname colidx rowid_text
                new_text e Hdb Htab Hcols Hz Hload) as [rc [e' [H _]]].
    exists rc, e'. exact H.
  - eexists _, _.
    apply (update_cell_null_name c h tablename a); assumption.
  - exfalso. unfold array_load in Hload.
    destruct (0 <=? colidx) eqn:Ha; [|apply Z.leb_gt in Ha; lia].
    destruct (colidx <? Z.of_nat (List.length a)) eqn:Hb;
      [|apply Z.ltb_ge in Hb; lia].
    cbn [andb] in Hload. apply nth_error_None in Hload. lia.
Qed.

(** X14. [s_on_table_selected] does nothing when no row is selected
    or the row has no name.  Otherwise the name it loads is an entry of
    the tables list, and what it does is [db_populate_rows] for that
    name: on a code other than [SQLITE_OK] it shows the message of the
    engine and configures nothing; on [SQLITE_OK] it shows nothing and
    configures one renderer for each column of the view, in order, each
    with its position as index, editable except the one of column 0.
    The view then has as many columns as the column block has entries,
    so that an edit made through any of these renderers stays inside
    the block in [db_apply_update_cell]. *)
Theorem s_on_table_selected_renderers :
  forall (fuel : nat) c (selected : option nat) e dlgs rs s' e',
    s_on_table_selected errmsg fuel (Some c) selected e
    = Done (dlgs, rs, s') e' ->
    match selected_name (Some c) selected with
    | None => dlgs = [] /\ rs = [] /\ s' = Some c /\ e' = e
    | Some name =>
        (exists store, tables_store c = Some store /\ In (Some name) store)
        /\ exists rc c',
             db_populate_rows fuel (Some c) (Some name) e
             = Done (rc, Some c') e'
             /\ s' = Some c'
             /\ (rc <> SQLITE_OK ->
                 rs = []
                 /\ dlgs
                    = [ErrorDialog
                         (snd (snprintf 1024
                                 ("Failed to populate rows: "
                                  ++ match db c' with
                                     | Some h => errmsg h (world e')
                                     | None => "Unknown DB error"
                                     end)%string))])
             /\ (rc = SQLITE_OK ->
                 dlgs = []
                 /\ exists a cols rows,
                      current_colnames c' = Some a
                      /\ rows_view c'
                         = Some {| tv_columns := cols;
                                   tv_model := Some rows |}
                      /\ List.length cols = List.length a
                      /\ rs = map (fun i => {| editable := negb (i =? 0);
                                               col_index := i |})
                                (zseq 0 (List.length a))
                      /\ forall r (rowid_text new_text : string) e0,
                           In r rs ->
                           exists rc1 e1,
                             db_apply_update_cell (Some c') (col_index r)
                               rowid_text new_text e0
                             = Done (rc1, Some c') e1)
    end.
Proof.
  intros fuel c selected e dlgs rs s' e' H.
  unfold s_on_table_selected in H.
  destruct selected as [i|];
    [|unfold ret in H; inversion H; subst; cbn [selected_name];
      repeat split].
  destruct (selected_name (Some c) (Some i)) as [tname|] eqn:Hsel;
    [|unfold ret in H; inversion H; subst; repeat split].
  split; [apply (in_selected_name c i tname Hsel)|].
  unfold load_selected in H.
  step_in H x e1 Hpop. destruct x as [rc s1]. cbv beta iota in H.
  pose proof Hpop as Hrun.
  apply db_populate_rows_inv in Hpop.
  destruct Hpop as [c1 [-> [_ Hok]]].
  exists rc, c1.
  destruct (rc =? SQLITE_OK) eqn:Hrc; cbn [negb] in H.
  - apply Z.eqb_eq in Hrc.
    destruct (Hok Hrc) as [a [cols [rows [Ha [Hv Hlen]]]]].
    rewrite Hv in H. cbn [tv_columns] in H.
    unfold ret in H. inversion H; subst dlgs rs s' e'. clear H.
    split; [exact Hrun|]. split; [reflexivity|].
    split; [intros Hne; contradiction|]. intros _.
    split; [reflexivity|]. exists a, cols, rows.
    split; [exact Ha|]. split; [exact Hv|]. split; [exact Hlen|].
    rewrite configure_renderers_zseq, Hlen.
    split; [reflexivity|].
    intros r rowid_text new_text e0 Hr.
    apply in_map_iff in Hr. destruct Hr as [j [<- Hj]].
    apply in_zseq in Hj. cbn [col_index].
    apply update_cell_defined. intros a0 Ha0.
    rewrite Ha in Ha0. inversion Ha0; subst a0. right. lia.
  - rewrite (bind_done _ _ _ _ _ (error_message_done _ _ _ _)) in H.
    unfold ret in H. inversion H; subst dlgs rs s' e'. clear H.
    split; [exact Hrun|]. split; [reflexivity|].
    split; [intros _; split; reflexivity|].
    intros Hbad. rewrite Hbad in Hrc. discriminate Hrc.
Qed.

(** ** [s_on_cell_edited] *)

Lemma store_set_cells (rows : list (list string)) (row : nat) (colidx : Z)
  (text : string) :
  (cell (store_set rows row colidx text) row colidx = Some text
   \/ (cell rows row colidx = None
       /\ store_set rows row colidx text = rows))
  /\ forall (i : nat) (j : Z),
       i <> row \/ j <> colidx ->
       cell (store_set rows row colidx text) i j = cell rows i j.
Proof.
  unfold store_set, cell.
  destruct (nth_error rows row) as [r|] eqn:Hr.
  - unfold array_store.
    destruct ((0 <=? colidx) && (colidx <? Z.of_nat (List.length r)))%bool
      eqn:Hb.
    + apply andb_true_iff in Hb. destruct Hb as [H0 H1].
      apply Z.leb_le in H0. apply Z.ltb_lt in H1.
      assert (Hrow : (row < List.length rows)%nat)
        by (apply nth_error_Some; rewrite Hr; discriminate).
      split.
      * left. rewrite nth_error_list_set_same by exact Hrow.
        apply array_load_list_set_same. lia.
      * intros i j Hij. destruct (Nat.eq_dec i row) as [->|Hne].
        -- rewrite nth_error_list_set_same by exact Hrow. rewrite Hr.
           destruct Hij as [Hi|Hj]; [contradiction|].
           apply array_load_list_set_other; [lia|].
           intros Heq. apply Hj. symmetry. exact Heq.
        -- rewrite nth_error_list_set_other
             by (intros Heq; apply Hne; symmetry; exact Heq).
           reflexivity.
    + split.
      * right. split; [|reflexivity].
        unfold array_load. rewrite Hb. reflexivity.
      * intros; reflexivity.
  - split; [right; split; reflexivity|intros; reflexivity].
Qed.


End UiProperties.

(** * Loading a table on the reference engine *)

Section FetchOnReferenceEngine.

Import Sqlite3Model.

Implicit Types (c : context_td) (e : @env machine).

(** ** The fetch statement as the engine reads it *)

Lemma strip_prefix_app (p s : string) :
  strip_prefix p (p ++ s) = Some s.
Proof.
  induction p as [|a p IH]; [destruct s; reflexivity|].
  cbn [append strip_prefix]. rewrite Ascii.eqb_refl. exact IH.
Qed.

(** A name that holds no double quote is read whole. *)
Lemma read_quoted_plain (t : string) (a : ascii) (r : string) :
  has_dquote t = false ->
  Ascii.eqb a dquote_char = false ->
  read_quoted (t ++ String dquote_char (String a r)) = Some (t, String a r).
Proof.
  induction t as [|x t IH]; intros Hq Ha.
  - cbn [append read_quoted]. rewrite Ascii.eqb_refl, Ha. reflexivity.
  - unfold has_dquote in Hq. cbn [list_ascii_of_string existsb] in Hq.
    apply orb_false_iff in Hq. destruct Hq as [Hx Hq].
    cbn [append read_quoted]. rewrite Ascii.eqb_sym, Hx.
    rewrite (IH Hq Ha). reflexivity.
Qed.

Lemma parse_select_plain (t : string) :
  has_dquote t = false ->
  parse_select (select_statement t) = Some (t, Some 100%nat).
Proof.
  intros Hq. unfold parse_select, select_statement.
  rewrite strip_prefix_app.
  change (dq ++ t ++ dq ++ " LIMIT 100;")%string
    with (String dquote_char
            (t ++ String dquote_char (String " " "LIMIT 100;")))%string.
  cbv beta iota. rewrite Ascii.eqb_refl.
  rewrite (read_quoted_plain t " " "LIMIT 100;" Hq eq_refl).
  reflexivity.
Qed.

Lemma compile_select (h : sqlite3) (t : string) (d : database)
  (x : schema_entry) :
  has_dquote t = false ->
  find_table t d = Some x ->
  compile h (select_statement t) d
  = Some (mk_statement h (PSelect (e_name x) (Some 100%nat))
            (key_name x :: e_cols x)
            (map (result_row x) (firstn 100 (e_rows x)))).
Proof.
  intros Hq Hx. unfold compile.
  change (String.eqb (select_statement t) sql_schema_version) with false.
  change (String.eqb (select_statement t) list_tables_text) with false.
  cbv iota. rewrite (parse_select_plain t Hq), Hx. reflexivity.
Qed.

(** ** The rows a statement yields *)

Lemma step_of_query (st : sqlite3_stmt) (w : machine) (s : statement)
  (path : string) (d : database) :
  assoc Nat.eqb st (stmts w) = Some s ->
  conn_database (st_conn s) w = Some (path, Database d) ->
  parameters (st_prog s) = 0 ->
  ext_step st w = step_rows st s w.
Proof.
  intros Hs Hc Hp. cbn [ext_step engine]. unfold step. rewrite Hs, Hc.
  destruct (st_prog s); try reflexivity. discriminate Hp.
Qed.

Lemma row_cells_of_row (st : sqlite3_stmt) (ncol : Z) (w : machine)
  (s : statement) (r : list (option string)) :
  assoc Nat.eqb st (stmts w) = Some s ->
  st_row s = Some r ->
  row_cells st ncol w = shown_row ncol r.
Proof.
  intros Hs Hr. unfold row_cells, shown_row. apply map_ext. intros j.
  cbn [ext_column_text engine]. unfold column_text. rewrite Hs, Hr.
  reflexivity.
Qed.

(** A statement that is not an update yields its pending rows, in
    order. *)
Lemma model_yields (st : sqlite3_stmt) (ncol : Z) (path : string)
  (d : database) (pending : list (list (option string))) :
  forall (w : machine) (s : statement),
    assoc Nat.eqb st (stmts w) = Some s ->
    conn_database (st_conn s) w = Some (path, Database d) ->
    parameters (st_prog s) = 0 ->
    st_pending s = pending ->
    exists w',
      yields (row_cells st ncol) st w (map (shown_row ncol) pending) w'.
Proof.
  induction pending as [|r rest IH]; intros w s Hs Hc Hp Hpend.
  - exists (snd (ext_step st w)). apply yields_end.
    rewrite (step_of_query st w s path d Hs Hc Hp).
    unfold step_rows. rewrite Hpend. cbn [fst]. discriminate.
  - assert (Hstep : ext_step st w = step_rows st s w)
      by (apply (step_of_query st w s path d Hs Hc Hp)).
    unfold step_rows in Hstep. rewrite Hpend in Hstep.
    set (s1 := {| st_conn := st_conn s; st_prog := st_prog s;
                  st_names := st_names s; st_pending := rest;
                  st_row := Some r; st_binds := st_binds s |}) in Hstep.
    set (w1 := with_stmts w (put Nat.eqb st s1 (stmts w)) (next_id w))
      in Hstep.
    assert (Hs1 : assoc Nat.eqb st (stmts w1) = Some s1).
    { subst w1. cbn [stmts with_stmts]. unfold put. cbn [assoc].
      rewrite Nat.eqb_refl. reflexivity. }
    assert (Hc1 : conn_database (st_conn s1) w1 = Some (path, Database d))
      by exact Hc.
    destruct (IH w1 s1 Hs1 Hc1 Hp eq_refl) as [w' Hy].
    exists w'. cbn [map].
    rewrite <- (row_cells_of_row st ncol w1 s1 r Hs1 eq_refl).
    replace w1 with (snd (ext_step st w)) in * by (rewrite Hstep; reflexivity).
    apply yields_row; [rewrite Hstep; reflexivity|exact Hy].
Qed.

Lemma int_of_small (z : Z) : INT_MIN <= z <= INT_MAX -> int_of z = z.
Proof.
  unfold int_of, INT_MIN, INT_MAX. intros H.
  rewrite Z.mod_small by lia. lia.
Qed.

(** ** The fetch statement and the rows of the snapshot *)


End FetchOnReferenceEngine.

(** * The further theorems at work on [a.db] *)

Section MoreInstances.

Import Sqlite3Model Demo.

Lemma loaded_ctx_wf : ctx_wf loaded_ctx.
Proof. intros a H. inversion H; subst. cbn. lia. Defined.

Lemma opened_ctx_wf : ctx_wf opened_ctx.
Proof. intros a H. discriminate H. Defined.


Lemma select_builder_null_cases_witness :
  Z.of_nat (String.length (select_statement "t")) <= INT_MAX
  /\ s_make_select_rowid_all "t" opened_env
     = Done (if alloc_ok opened_env (alloc_count opened_env)
                  (Z.of_nat (String.length (select_statement "t")) + 1)
             then Some (select_statement "t") else None)
         (allocated 1 opened_env).
Proof.
  assert (H : Z.of_nat (String.length (select_statement "t")) <= INT_MAX)
    by (vm_compute; discriminate).
  split; [exact H|].
  destruct (select_builder_null_cases "t" opened_env) as [_ Hs].
  exact (Hs H).
Defined.

Lemma free_columns_clears_once_witness :
  ctx_wf loaded_ctx
  /\ db_free_columns (Some loaded_ctx) opened_env
     = Done (Some (clear_columns loaded_ctx)) opened_env
  /\ db_free_columns (Some (clear_columns loaded_ctx)) opened_env
     = Done (Some (clear_columns loaded_ctx)) opened_env
  /\ db_apply_update_cell (Some (clear_columns loaded_ctx)) 2 "1" "z"
       opened_env
     = Done (SQLITE_MISUSE, Some (clear_columns loaded_ctx)) opened_env.
Proof.
  split; [exact loaded_ctx_wf|].
  destruct (free_columns_clears_once loaded_ctx opened_env loaded_ctx_wf)
    as (H1 & H2 & _ & _ & _ & _ & H3).
  split; [exact H1|]. split; [exact H2|]. apply H3.
Defined.

Lemma update_cell_call_sequences_witness :
  db_apply_update_cell (Some loaded_ctx) 2 "1" "z" opened_env
  = Done (SQLITE_OK, Some loaded_ctx)
      (after (db_apply_update_cell (Some loaded_ctx) 2 "1" "z"))
  /\ exists st,
       calls (after (db_apply_update_cell (Some loaded_ctx) 2 "1" "z"))
       = calls opened_env
         ++ [CallPrepare 1%nat (fmt_update "t" "b");
             CallBindText st 1 "z"; CallBindText st 2 "1";
             CallStep st; CallFinalize st].
Proof.
  assert (Hrun : db_apply_update_cell (Some loaded_ctx) 2 "1" "z" opened_env
                 = Done (SQLITE_OK, Some loaded_ctx)
                     (after (db_apply_update_cell (Some loaded_ctx) 2
                               "1" "z")))
    by (vm_compute; reflexivity).
  split; [exact Hrun|].
  destruct (update_cell_call_sequences (Some loaded_ctx) 2 "1" "z" opened_env
              SQLITE_OK _ _ Hrun)
    as [_ [[Hq _] | (c & h & tn & a & cn & Hc & Hdb & Htab & Hcols & Hload
                     & Hshape)]].
  - exfalso. vm_compute in Hq. discriminate Hq.
  - injection Hc as <-.
    cbn [db loaded_ctx] in Hdb. injection Hdb as <-.
    cbn [current_tablename loaded_ctx] in Htab. injection Htab as <-.
    cbn [current_colnames loaded_ctx] in Hcols. injection Hcols as <-.
    vm_compute in Hload. injection Hload as <-.
    cbv zeta in Hshape.
    destruct (snd (fst (ext_prepare_v2 1%nat (fmt_update "t" "b")
                          (world opened_env)))) as [st|] eqn:Hst.
    + destruct (fst (fst (ext_prepare_v2 1%nat (fmt_update "t" "b")
                            (world opened_env))) =? SQLITE_OK) eqn:Hok.
      * destruct Hshape as [Hcalls _]. exists st. exact Hcalls.
      * exfalso. vm_compute in Hok. discriminate Hok.
    + exfalso. vm_compute in Hst. discriminate Hst.
Defined.

Lemma update_cell_ok_means_done_witness :
  db_apply_update_cell (Some loaded_ctx) 2 "1" "z" opened_env
  = Done (SQLITE_OK, Some loaded_ctx)
      (after (db_apply_update_cell (Some loaded_ctx) 2 "1" "z"))
  /\ 2 <> 0
  /\ exists h tablename a colname st,
       db loaded_ctx = Some h
       /\ current_tablename loaded_ctx = Some tablename
       /\ current_colnames loaded_ctx = Some a
       /\ array_load a 2 = Some (Some colname)
       /\ calls (after (db_apply_update_cell (Some loaded_ctx) 2 "1" "z"))
          = calls opened_env
            ++ [CallPrepare h (fmt_update tablename colname);
                CallBindText st 1 "z"; CallBindText st 2 "1";
                CallStep st; CallFinalize st].
Proof.
  assert (Hrun : db_apply_update_cell (Some loaded_ctx) 2 "1" "z" opened_env
                 = Done (SQLITE_OK, Some loaded_ctx)
                     (after (db_apply_update_cell (Some loaded_ctx) 2
                               "1" "z")))
    by (vm_compute; reflexivity).
  assert (H2 : 2 <> 0) by discriminate.
  split; [exact Hrun|]. split; [exact H2|].
  destruct (update_cell_ok_means_done loaded_ctx 2 "1" "z" opened_env _ _
              Hrun H2)
    as (h & tablename & a & colname & st & Hdb & Htab & Hcols & Hload & _
        & Hcalls & _).
  exists h, tablename, a, colname, st.
  repeat split; assumption.
Defined.



Lemma populate_rows_snapshot_witness :
  db opened_ctx = Some 1%nat
  /\ rows_view opened_ctx = Some empty_view
  /\ ctx_wf opened_ctx
  /\ exists (w1 w2 : machine),
       ext_prepare_v2 1%nat (select_statement "t") (world opened_env)
       = ((SQLITE_OK, Some 2%nat), w1)
       /\ steps_of 101
            (row_cells 2%nat (int_of (ext_column_count 2%nat w1))) 2%nat w1
          = Some ([["1"; "x"; "y"]; ["2"; "p"; "q"]], w2)
       /\ exists rc c' e',
            db_populate_rows 101 (Some opened_ctx) (Some "t") opened_env
            = Done (rc, Some c') e'
            /\ db c' = db opened_ctx
            /\ tables_store c' = tables_store opened_ctx
            /\ ((rc = SQLITE_NOMEM
                 /\ current_colnames c' = None
                 /\ rows_view c' = Some empty_view)
                \/ (rc = SQLITE_OK
                    /\ rows_view c'
                       = Some {| tv_columns :=
                                   column_titles 2%nat
                                     (int_of (ext_column_count 2%nat w1)) w1;
                                 tv_model :=
                                   Some [["1"; "x"; "y"]; ["2"; "p"; "q"]] |}
                    /\ current_ncols c'
                       = int_of (ext_column_count 2%nat w1))).
Proof.
  split; [reflexivity|]. split; [reflexivity|].
  split; [exact opened_ctx_wf|].
  destruct (ext_prepare_v2 1%nat (select_statement "t") (world opened_env))
    as [[rc st] w1] eqn:Hprep.
  assert (Hst : (rc, st) = (SQLITE_OK, Some 2%nat)).
  { assert (Hc : fst (ext_prepare_v2 1%nat (select_statement "t")
                        (world opened_env))
                 = (SQLITE_OK, Some 2%nat)) by (vm_compute; reflexivity).
    rewrite Hprep in Hc. exact Hc. }
  injection Hst as -> ->.
  assert (Hc : option_map fst
                 (steps_of 101
                    (row_cells 2%nat
                       (int_of
                          (ext_column_count 2%nat
                             (snd (ext_prepare_v2 1%nat (select_statement "t")
                                     (world opened_env))))))
                    2%nat
                    (snd (ext_prepare_v2 1%nat (select_statement "t")
                            (world opened_env))))
               = Some [["1"; "x"; "y"]; ["2"; "p"; "q"]])
    by (vm_compute; reflexivity).
  rewrite Hprep in Hc. cbn [snd] in Hc.
  destruct (steps_of 101
              (row_cells 2%nat (int_of (ext_column_count 2%nat w1))) 2%nat w1)
    as [[rows w2]|] eqn:Hsteps; [|discriminate Hc].
  cbn [option_map fst] in Hc. injection Hc as Hc. subst rows.
  exists w1, w2. split; [reflexivity|]. split; [exact Hsteps|].
  destruct (steps_of_yields _ _ _ _ _ _ Hsteps) as [Hy Hlen].
  destruct (populate_rows_snapshot opened_ctx 1%nat empty_view "t" opened_env
              2%nat w1 _ w2 101%nat eq_refl eq_refl opened_ctx_wf Hprep Hy
              Hlen)
    as (rc & c' & e' & Hrun & Hdb & Hstore & Hcases).
  exists rc, c', e'. split; [exact Hrun|]. split; [exact Hdb|].
  split; [exact Hstore|].
  destruct Hcases as [Hno | (Hrc & _ & Hview & _ & Hn & _)];
    [left; exact Hno|right].
  split; [exact Hrc|]. split; [exact Hview|exact Hn].
Defined.

Lemma operations_keep_the_column_count_witness :
  session_wf (Some loaded_ctx)
  /\ exists rc s' e',
       db_populate_rows 101 (Some loaded_ctx) (Some "users") opened_env
       = Done (rc, s') e'
       /\ session_wf s'.
Proof.
  assert (Hwf : session_wf (Some loaded_ctx)).
  { intros c H. inversion H; subst. exact loaded_ctx_wf. }
  split; [exact Hwf|].
  destruct (db_populate_rows 101 (Some loaded_ctx) (Some "users") opened_env)
    as [[rc s'] e'| |] eqn:Hrun.
  - exists rc, s', e'. split; [reflexivity|].
    destruct (operations_keep_the_column_count (Some loaded_ctx) Hwf)
      as (_ & _ & _ & _ & Hpop & _).
    exact (Hpop 101%nat (Some "users") opened_env rc s' e' Hrun).
  - exfalso.
    assert (Hc : result_of (db_populate_rows 101 (Some loaded_ctx)
                              (Some "users") opened_env) <> None)
      by (vm_compute; discriminate).
    rewrite Hrun in Hc. apply Hc. reflexivity.
  - exfalso.
    assert (Hc : result_of (db_populate_rows 101 (Some loaded_ctx)
                              (Some "users") opened_env) <> None)
      by (vm_compute; discriminate).
    rewrite Hrun in Hc. apply Hc. reflexivity.
Defined.

Lemma s_on_open_error_paths_witness :
  db_is_sqlite "nowhere/x.db" opened_env
  = Done 0 (after (db_is_sqlite "nowhere/x.db"))
  /\ s_on_open demo_errmsg demo_errstr 10 [] (Some opened_ctx)
       (Some "nowhere/x.db") opened_env
     = Done ([ErrorDialog
                "Cannot open file 'nowhere/x.db': not an SQLite database"],
             Some opened_ctx)
         (after (db_is_sqlite "nowhere/x.db"))
  /\ forall f,
       In (CallOpen f) (calls (after (db_is_sqlite "nowhere/x.db"))) ->
       In (CallOpen f) (calls opened_env).
Proof.
  assert (Hprobe : db_is_sqlite "nowhere/x.db" opened_env
                   = Done 0 (after (db_is_sqlite "nowhere/x.db")))
    by (vm_compute; reflexivity).
  split; [exact Hprobe|].
  destruct (s_on_open_error_paths demo_errmsg demo_errstr 10%nat []
              opened_ctx "nowhere/x.db" opened_env 0 _ Hprobe) as [H0 _].
  exact (H0 eq_refl).
Defined.

Lemma s_on_open_keeps_current_table_witness :
  Forall (fun n : option string => n = None) [@None string]
  /\ s_on_open demo_errmsg demo_errstr 10 [None] (Some loaded_ctx)
       (Some "a.db") opened_env
     = Done ([], Some (set_db listed_loaded_ctx (Some 4%nat)))
         (after (s_on_open demo_errmsg demo_errstr 10 [None]
                   (Some loaded_ctx) (Some "a.db")))
  /\ exists c',
       Some (set_db listed_loaded_ctx (Some 4%nat)) = Some c'
       /\ rows_view c' = rows_view loaded_ctx
       /\ current_tablename c' = current_tablename loaded_ctx
       /\ current_colnames c' = current_colnames loaded_ctx
       /\ current_ncols c' = current_ncols loaded_ctx.
Proof.
  assert (Hquiet : Forall (fun n : option string => n = None)
                     [@None string])
    by (constructor; [reflexivity|constructor]).
  assert (Hrun : s_on_open demo_errmsg demo_errstr 10 [None]
                   (Some loaded_ctx) (Some "a.db") opened_env
                 = Done ([], Some (set_db listed_loaded_ctx (Some 4%nat)))
                     (after (s_on_open demo_errmsg demo_errstr 10 [None]
                               (Some loaded_ctx) (Some "a.db"))))
    by (vm_compute; reflexivity).
  split; [exact Hquiet|]. split; [exact Hrun|].
  destruct (s_on_open_keeps_current_table demo_errmsg demo_errstr 10%nat
              [None] loaded_ctx (Some "a.db") opened_env _ _ _ Hrun)
    as (c' & Hc & _ & Hkept).
  exists c'. split; [exact Hc|exact (Hkept Hquiet)].
Defined.

(** When the handler is run with a name while the list is cleared, the
    table of that name is loaded inside [s_on_open]: [t] was the current
    table, [users] is after the call. *)
Lemma s_on_open_reloads_reselected_table :
  current_tablename listed_loaded_ctx = Some "t"
  /\ option_map
       (fun r => option_map current_tablename (snd r))
       (result_of (s_on_open demo_errmsg demo_errstr 10 [Some "users"; None]
                     (Some listed_loaded_ctx) (Some "a.db") opened_env))
     = Some (Some (Some "users")).
Proof. split; [reflexivity|vm_compute; reflexivity]. Qed.

Lemma main_cleanup_leaves_nothing_witness :
  ctx_wf loaded_ctx
  /\ exists e',
       main_cleanup (Some loaded_ctx) opened_env
       = Done (Some (set_db (clear_columns loaded_ctx) None)) e'
       /\ calls e' = calls opened_env ++ [CallClose 1%nat].
Proof.
  split; [exact loaded_ctx_wf|].
  destruct (main_cleanup_leaves_nothing loaded_ctx opened_env loaded_ctx_wf)
    as (e' & Hrun & _ & _ & _ & _ & Hcalls & _).
  exists e'. split; [exact Hrun|exact Hcalls].
Defined.

Lemma s_on_table_selected_renderers_witness :
  s_on_table_selected demo_errmsg 101 (Some listed_ctx) (Some 1%nat)
    opened_env
  = Done ([],
          [{| editable := false; col_index := 0 |};
           {| editable := true; col_index := 1 |};
           {| editable := true; col_index := 2 |}],
          Some listed_loaded_ctx)
      (after (s_on_table_selected demo_errmsg 101 (Some listed_ctx)
                (Some 1%nat)))
  /\ (exists store,
         tables_store listed_ctx = Some store /\ In (Some "t") store)
  /\ db_populate_rows 101 (Some listed_ctx) (Some "t") opened_env
     = Done (SQLITE_OK, Some listed_loaded_ctx)
         (after (s_on_table_selected demo_errmsg 101 (Some listed_ctx)
                   (Some 1%nat)))
  /\ exists rc1 e1,
       db_apply_update_cell (Some listed_loaded_ctx) 2 "1" "z" opened_env
       = Done (rc1, Some listed_loaded_ctx) e1.
Proof.
  assert (Hrun : s_on_table_selected demo_errmsg 101 (Some listed_ctx)
                   (Some 1%nat) opened_env
                 = Done ([],
                         [{| editable := false; col_index := 0 |};
                          {| editable := true; col_index := 1 |};
                          {| editable := true; col_index := 2 |}],
                         Some listed_loaded_ctx)
                     (after (s_on_table_selected demo_errmsg 101
                               (Some listed_ctx) (Some 1%nat))))
    by (vm_compute; reflexivity).
  split; [exact Hrun|].
  pose proof (s_on_table_selected_renderers demo_errmsg 101%nat listed_ctx
                (Some 1%nat) opened_env _ _ _ _ Hrun) as H.
  change (selected_name (Some listed_ctx) (Some 1%nat)) with (Some "t") in H.
  destruct H as (Hstore & rc & c' & Hpop & Hc & _ & Hok).
  injection Hc as <-.
  assert (Hrc : rc = SQLITE_OK).
  { assert (Hc : option_map fst
                   (result_of (db_populate_rows 101 (Some listed_ctx)
                                 (Some "t") opened_env))
                 = Some SQLITE_OK) by (vm_compute; reflexivity).
    rewrite Hpop in Hc. cbn [result_of option_map fst] in Hc.
    injection Hc as Hc. exact Hc. }
  subst rc.
  split; [exact Hstore|]. split; [exact Hpop|].
  destruct (Hok eq_refl) as (_ & a & cols & rows & _ & _ & _ & _ & Hupd).
  apply (Hupd {| editable := true; col_index := 2 |} "1" "z" opened_env).
  right. right. left. reflexivity.
Defined.


End MoreInstances.

